(** * The arrest dashboard of app.py: loader, filter and aggregations

    A shallow embedding of the data pipeline of [src/app.py].  The script
    reads a CSV file into a pandas [DataFrame], cleans it ([load_data]),
    filters it with the values chosen in the sidebar ([filtered_df]) and
    derives counts for the charts.  Rendering calls (streamlit, pydeck,
    plotly) only consume these values and are not modelled. *)

From Stdlib Require Import ZArith List String Ascii Lia.
From Stdlib Require Import Floats.PrimFloat Floats.FloatOps Floats.SpecFloat.
From stdpp Require Import base option list strings gmap sorting.

Open Scope Z_scope.

(** ** Cells *)

(** A parsed [arrest_date]; sub-second precision and time zones play no part
    in the script. *)
Record Timestamp := {
  ts_year : Z; ts_month : Z; ts_day : Z;
  ts_hour : Z; ts_minute : Z; ts_second : Z }.

#[global] Instance Timestamp_eq_dec : EqDecision Timestamp.
Proof. solve_decision. Defined.

(** The value of one cell of a frame.  [Null] stands for pandas' missing
    value ([NaN], [None], [NaT]); a float that is NaN is missing as well. *)
Inductive cell :=
  | Null
  | Int (n : Z)
  | Float (x : float)
  | Str (s : string)
  | Time (t : Timestamp)
  | Rgb (c : list Z).

(** numpy's conversion of an integer to float64: round to nearest even. *)
Definition float_of_Z (z : Z) : float :=
  SF2Prim (binary_normalize prec emax z 0 false).

(** [pd.isna] *)
Definition isna (c : cell) : bool :=
  match c with
  | Null => true
  | Float x => PrimFloat.is_nan x
  | _ => false
  end.

Definition notna (c : cell) : bool := negb (isna c).

(** [c == n] for an integer scalar [n]: false on missing values and on cells
    that are not numbers. *)
Definition cell_eq_int (c : cell) (n : Z) : bool :=
  match c with
  | Int k => k =? n
  | Float x => PrimFloat.eqb x (float_of_Z n)
  | _ => false
  end.

(** Membership in a list of labels, the element-wise test of [Series.isin]
    with the strings picked in a multiselect. *)
Definition cell_isin (c : cell) (labels : list string) : bool :=
  match c with
  | Str s => bool_decide (s ∈ labels)
  | _ => false
  end.

(** Equality as the hash tables of [unique], [value_counts], [mode] and
    [groupby] see it; missing values are removed before it is used. *)
Definition cell_eqb (a b : cell) : bool :=
  match a, b with
  | Null, Null => true
  | Int m, Int n => m =? n
  | Int m, Float y => PrimFloat.eqb (float_of_Z m) y
  | Float x, Int n => PrimFloat.eqb x (float_of_Z n)
  | Float x, Float y => PrimFloat.eqb x y
  | Str s, Str t => bool_decide (s = t)
  | Time s, Time t => bool_decide (s = t)
  | Rgb s, Rgb t => bool_decide (s = t)
  | _, _ => false
  end.

(** ** Exceptions *)

(** The classes of the exceptions the script can meet; a class stands for
    its subclasses as well (a date that cannot be read raises [ValueError]
    or pandas' [DateParseError], which is one). *)
Inductive exn :=
  | KeyError (labels : list string)
  | ValueError
  | TypeError
  | ReferenceError.

Inductive result (A : Type) :=
  | Ok (a : A)
  | Raise (e : exn).
Arguments Ok {A} a.
Arguments Raise {A} e.

#[global] Instance result_ret : MRet result := @Ok.
#[global] Instance result_bind : MBind result := λ A B f m,
  match m with Ok a => f a | Raise e => Raise e end.
#[global] Instance result_fmap : FMap result := λ A B f m,
  match m with Ok a => Ok (f a) | Raise e => Raise e end.

Fixpoint traverse {A B} (f : A → result B) (l : list A) : result (list B) :=
  match l with
  | [] => Ok []
  | x :: l => y ← f x; ys ← traverse f l; Ok (y :: ys)
  end.

(** ** Frames *)

(** A [DataFrame]: the column labels and, per row, the cells by label.  A
    frame without rows still has its columns. *)
Record DataFrame := {
  columns : list string;
  rows : list (gmap string cell) }.

Definition cellof (r : gmap string cell) (c : string) : cell :=
  default Null (r !! c).

(** [df[c]]: a column, or [KeyError] when the label is unknown. *)
Definition getitem (df : DataFrame) (c : string) : result (list cell) :=
  if bool_decide (c ∈ columns df)
  then Ok (map (λ r, cellof r c) (rows df))
  else Raise (KeyError [c]).

Definition add_column (cols : list string) (c : string) : list string :=
  if bool_decide (c ∈ cols) then cols else cols ++ [c].

(** [df[c] = vals]: replaces the column or appends a new one. *)
Definition setitem (df : DataFrame) (c : string) (vals : list cell)
  : result DataFrame :=
  if bool_decide (length vals = length (rows df))
  then Ok {| columns := add_column (columns df) c;
             rows := zip_with (λ r v, <[c := v]> r) (rows df) vals |}
  else Raise ValueError.

(** Rows picked by a boolean mask, in their order. *)
Fixpoint mask_rows {A} (l : list A) (mask : list bool) : list A :=
  match l, mask with
  | x :: l, b :: mask => if b then x :: mask_rows l mask else mask_rows l mask
  | _, _ => []
  end.

(** [df[mask]] *)
Definition getitem_mask (df : DataFrame) (mask : list bool) : DataFrame :=
  {| columns := columns df; rows := mask_rows (rows df) mask |}.

(** [s == n], [s != n], [s.isin(labels)] and [m1 & m2] on columns. *)
Definition series_eq (s : list cell) (n : Z) : list bool :=
  map (λ c, cell_eq_int c n) s.
Definition series_ne (s : list cell) (n : Z) : list bool :=
  map (λ c, negb (cell_eq_int c n)) s.
Definition series_isin (s : list cell) (labels : list string) : list bool :=
  map (λ c, cell_isin c labels) s.
Definition mask_and (m1 m2 : list bool) : list bool := zip_with andb m1 m2.

(** [df.dropna(subset=labels)]: unknown labels raise [KeyError] with all of
    them; otherwise the rows with a missing value under a label go. *)
Definition dropna (df : DataFrame) (subset : list string) : result DataFrame :=
  match filter (λ c, c ∉ columns df) subset with
  | [] => Ok {| columns := columns df;
                rows := filter (λ r, forallb (λ c, notna (cellof r c)) subset)
                               (rows df) |}
  | missing => Raise (KeyError missing)
  end.

(** ** Time features *)

Definition month_names : list string :=
  ["January"; "February"; "March"; "April"; "May"; "June"; "July";
   "August"; "September"; "October"; "November"; "December"].

Definition day_names : list string :=
  ["Monday"; "Tuesday"; "Wednesday"; "Thursday"; "Friday"; "Saturday";
   "Sunday"].

(** Days since 1970-01-01 in the proleptic Gregorian calendar. *)
Definition days_from_civil (y m d : Z) : Z :=
  let y' := if m <=? 2 then y - 1 else y in
  let era := y' / 400 in
  let yoe := y' - era * 400 in
  let doy := (153 * (if 2 <? m then m - 3 else m + 9) + 2) / 5 + d - 1 in
  let doe := yoe * 365 + yoe / 4 - yoe / 100 + doy in
  era * 146097 + doe - 719468.

(** Monday is 0, as in [Timestamp.weekday()]. *)
Definition weekday (t : Timestamp) : Z :=
  (days_from_civil (ts_year t) (ts_month t) (ts_day t) + 3) mod 7.

Definition month_name (t : Timestamp) : cell :=
  if 1 <=? ts_month t
  then from_option Str Null (month_names !! Z.to_nat (ts_month t - 1))
  else Null.

Definition day_name (t : Timestamp) : cell :=
  from_option Str Null (day_names !! Z.to_nat (weekday t)).

(** The [.dt] accessors: missing dates give missing features. *)
Definition dt (f : Timestamp → cell) (s : list cell) : list cell :=
  map (λ c, match c with Time t => f t | _ => Null end) s.

(** ** The loader *)

(** What the start of the script leaves: [st.stop()] or a table. *)
Inductive session :=
  | Stopped
  | Table (df : DataFrame).

Section Loader.

(** pandas' conversion of a value of the date column to a timestamp: a
    library routine, [None] when it rejects the value.  For strings pandas
    settles on one format for the column at hand (it infers it from the
    first value) and reads every value by it, so [to_timestamp] is the
    reading of the values of that column. *)
Variable to_timestamp : cell → option Timestamp.

(** [pd.to_datetime(s)]: missing stays missing, a rejected value aborts with
    a [ValueError]. *)
Definition to_datetime (s : list cell) : result (list cell) :=
  traverse (λ c, if isna c then Ok Null
                 else match to_timestamp c with
                      | Some t => Ok (Time t)
                      | None => Raise ValueError
                      end) s.

(** Lines 49-58 of [load_data], repeated at lines 77-85 for an upload. *)
Definition preprocess (df : DataFrame) : result DataFrame :=
  d ← getitem df "arrest_date";
  t ← to_datetime d;
  df ← setitem df "arrest_date" t;
  df ← dropna df ["latitude"; "longitude"];
  lat ← getitem df "latitude";
  lon ← getitem df "longitude";
  let df := getitem_mask df (mask_and (series_ne lat 0) (series_ne lon 0)) in
  a ← getitem df "arrest_date";
  df ← setitem df "year" (dt (λ t, Int (ts_year t)) a);
  a ← getitem df "arrest_date";
  df ← setitem df "month" (dt (λ t, Int (ts_month t)) a);
  a ← getitem df "arrest_date";
  df ← setitem df "month_name" (dt month_name a);
  a ← getitem df "arrest_date";
  df ← setitem df "day_of_week" (dt day_name a);
  a ← getitem df "arrest_date";
  df ← setitem df "hour" (dt (λ t, Int (ts_hour t)) a);
  Ok df.

(** [load_data]: [arrests_csv] is the content of arrests.csv, [None] when
    the file does not exist ([FileNotFoundError] is the one exception the
    function catches). *)
Definition load_data (arrests_csv : option DataFrame)
  : result (option DataFrame) :=
  match arrests_csv with
  | None => Ok None
  | Some raw => df ← preprocess raw; Ok (Some df)
  end.

(** Lines 65-85: the table of the session. *)
Definition startup (arrests_csv upload : option DataFrame) : result session :=
  df ← load_data arrests_csv;
  match df with
  | Some df => Ok (Table df)
  | None =>
      match upload with
      | None => Ok Stopped
      | Some raw =>
          if bool_decide ("arrest_date" ∈ columns raw)
          then df ← preprocess raw; Ok (Table df)
          else Ok (Table raw)
      end
  end.

End Loader.

(** ** Counting and sorting *)

Section Tally.
Context {K : Type} (eqb : K → K → bool).

(** One more occurrence of [k]: the first equal key is incremented, a new
    key goes to the end (first-seen order, as in a hash table scan). *)
Fixpoint bump (k : K) (acc : list (K * nat)) : list (K * nat) :=
  match acc with
  | [] => [(k, 1%nat)]
  | (k', n) :: acc => if eqb k k' then (k', S n) :: acc
                      else (k', n) :: bump k acc
  end.

Definition tally (l : list K) : list (K * nat) :=
  foldl (λ acc k, bump k acc) [] l.

End Tally.

(** The sum of the counts over all keys. *)
Definition total {K} (counts : list (K * nat)) : nat :=
  foldr (λ kn acc, (kn.2 + acc)%nat) 0%nat counts.

(** The order of values of one kind; between kinds only the kind counts. *)
Definition cell_rank (c : cell) : Z :=
  match c with
  | Int _ | Float _ => 0
  | Str _ => 1
  | Time _ => 2
  | Rgb _ => 3
  | Null => 4
  end.

Definition to_float (c : cell) : float :=
  match c with
  | Int n => float_of_Z n
  | Float x => x
  | _ => PrimFloat.nan
  end.

Definition ts_key (t : Timestamp) : list Z :=
  [ts_year t; ts_month t; ts_day t; ts_hour t; ts_minute t; ts_second t].

Fixpoint lex_leb (a b : list Z) : bool :=
  match a, b with
  | [], _ => true
  | _ :: _, [] => false
  | x :: a, y :: b => (x <? y) || ((x =? y) && lex_leb a b)
  end.

Definition cell_leb (a b : cell) : bool :=
  match a, b with
  | Int m, Int n => m <=? n
  | Int _, Float _ | Float _, Int _ | Float _, Float _ =>
      PrimFloat.leb (to_float a) (to_float b)
  | Str s, Str t => String.leb s t
  | Time s, Time t => lex_leb (ts_key s) (ts_key t)
  | Rgb s, Rgb t => lex_leb s t
  | _, _ => cell_rank a <=? cell_rank b
  end.

Definition cell_le (a b : cell) : Prop := cell_leb a b.

#[global] Instance cell_le_dec : RelDecision cell_le.
Proof. intros a b. unfold cell_le. apply _. Defined.

(** Values Python can order among themselves: all of one kind. *)
Definition homogeneous (l : list cell) : bool :=
  match l with
  | [] => true
  | c :: l => forallb (λ d, cell_rank d =? cell_rank c) l
  end.

(** [sorted(l)], [np.sort]: [TypeError] on values of different kinds. *)
Definition sort_values (l : list cell) : result (list cell) :=
  if homogeneous l then Ok (merge_sort cell_le l) else Raise TypeError.

Definition by_count_desc (a b : cell * nat) : Prop := (b.2 ≤ a.2)%nat.

#[global] Instance by_count_desc_dec : RelDecision by_count_desc.
Proof. intros a b. unfold by_count_desc. apply _. Defined.

(** A stable sort, by insertion: an element goes behind the elements that
    may come before it, so elements that compare equal keep their order. *)
Section StableSort.
Context {A : Type} (R : relation A) `{!RelDecision R}.

Fixpoint insert_sorted (x : A) (l : list A) : list A :=
  match l with
  | [] => [x]
  | y :: l' => if decide (R y x) then y :: insert_sorted x l' else x :: l
  end.

Definition stable_sort (l : list A) : list A :=
  foldl (λ acc x, insert_sorted x acc) [] l.

End StableSort.

(** [Series.value_counts()]: missing values are dropped, the counts come
    largest first; values with the same count stay in the order of their
    first occurrence (so the sort of pandas leaves a short column; for a
    long one it fixes no order among them). *)
Definition value_counts (s : list cell) : list (cell * nat) :=
  stable_sort by_count_desc (tally cell_eqb (filter (λ c, notna c) s)).

Definition by_key (a b : cell * nat) : Prop := cell_le a.1 b.1.

#[global] Instance by_key_dec : RelDecision by_key.
Proof. intros a b. unfold by_key. apply _. Defined.

(** [Series.sort_index()] on a result of [value_counts]. *)
Definition sort_index (counts : list (cell * nat)) : result (list (cell * nat)) :=
  if homogeneous counts.*1 then Ok (merge_sort by_key counts)
  else Raise TypeError.

Definition max_count (counts : list (cell * nat)) : nat :=
  foldr (λ kn acc, Nat.max kn.2 acc) 0%nat counts.

(** [Series.mode()]: the most frequent values among the present ones, in
    ascending order; values that cannot be ordered stay as found. *)
Definition mode (s : list cell) : list cell :=
  let counts := tally cell_eqb (filter (λ c, notna c) s) in
  let modes := (filter (λ kn, kn.2 = max_count counts) counts).*1 in
  match sort_values modes with
  | Ok sorted => sorted
  | Raise _ => modes
  end.

(** [Series.unique()]: the distinct values as first seen, a missing value
    among them if there is one. *)
Definition unique (s : list cell) : list cell :=
  (tally cell_eqb (map (λ c, if isna c then Null else c) s)).*1.

(** ** The pipeline *)

(** The values picked in the sidebar (lines 113-161). *)
Record FilterSpec := {
  selected_crimes : list string;
  selected_month : Z;
  selected_year : Z;
  selected_boroughs : list string }.

(** Lines 164-169; [.copy()] yields the same values in a new object. *)
Definition filtered_df (df : DataFrame) (sel : FilterSpec) : result DataFrame :=
  crime ← getitem df "ofns_desc";
  mon ← getitem df "month";
  yr ← getitem df "year";
  boro ← getitem df "arrest_boro";
  Ok (getitem_mask df
        (mask_and
           (mask_and
              (mask_and (series_isin crime (selected_crimes sel))
                        (series_eq mon (selected_month sel)))
              (series_eq yr (selected_year sel)))
           (series_isin boro (selected_boroughs sel)))).

(** Lines 196-199: the value of the "Top Crime Type" metric. *)
Definition most_common_crime (filtered : DataFrame) : result (list cell) :=
  crime ← getitem filtered "ofns_desc"; Ok (mode crime).

Definition top_crime_type (filtered : DataFrame) : result cell :=
  m ← most_common_crime filtered;
  Ok (match m with c :: _ => c | [] => Str "N/A" end).

(** Lines 382, 392 and 404. *)
Definition crime_counts (filtered : DataFrame) : result (list (cell * nat)) :=
  crime ← getitem filtered "ofns_desc"; Ok (value_counts crime).

Definition hourly_counts (filtered : DataFrame) : result (list (cell * nat)) :=
  hour ← getitem filtered "hour"; sort_index (value_counts hour).

Definition borough_counts (filtered : DataFrame) : result (list (cell * nat)) :=
  boro ← getitem filtered "arrest_boro"; Ok (value_counts boro).

(** [groupby([k1, k2]).size().reset_index(name=...)]: rows with a missing
    key are left out, the groups come in ascending order of their keys. *)
Definition key_eqb (a b : cell * cell) : bool :=
  cell_eqb a.1 b.1 && cell_eqb a.2 b.2.

Definition key_leb (a b : (cell * cell) * nat) : bool :=
  if cell_eqb a.1.1 b.1.1 then cell_leb a.1.2 b.1.2 else cell_leb a.1.1 b.1.1.

Definition key_le (a b : (cell * cell) * nat) : Prop := key_leb a b.

#[global] Instance key_le_dec : RelDecision key_le.
Proof. intros a b. unfold key_le. apply _. Defined.

Definition groupby_size (df : DataFrame) (k1 k2 name : string)
  : result DataFrame :=
  c1 ← getitem df k1;
  c2 ← getitem df k2;
  let keys := filter (λ k, notna k.1 ∧ notna k.2) (zip c1 c2) in
  let groups := merge_sort key_le (tally key_eqb keys) in
  Ok {| columns := [k1; k2; name];
        rows := map (λ g : (cell * cell) * nat,
                       <[name := Int (Z.of_nat g.2)]>
                         (<[k2 := g.1.2]> (<[k1 := g.1.1]> ∅))) groups |}.

(** Lines 417-421. *)
Definition monthly_data (df : DataFrame) (sel : FilterSpec) : result DataFrame :=
  crime ← getitem df "ofns_desc";
  yr ← getitem df "year";
  boro ← getitem df "arrest_boro";
  groupby_size
    (getitem_mask df
       (mask_and
          (mask_and (series_isin crime (selected_crimes sel))
                    (series_eq yr (selected_year sel)))
          (series_isin boro (selected_boroughs sel))))
    "month" "month_name" "arrests".

(** ** The sidebar *)

(** Line 93. *)
Definition target_crime_types : list cell :=
  [Str "ROBBERY"; Str "ASSAULT 3 & RELATED OFFENSES";
   Str "OFFENSES AGAINST PUBLIC SAFETY"; Str "KIDNAPPING & RELATED OFFENSES";
   Str "THEFT-FRAUD"].

(** The kind of a value for Python's [<]: NaN is a float. *)
Definition py_rank (c : cell) : Z :=
  match c with
  | Null => 0
  | _ => cell_rank c
  end.

(** [l.sort()]: [TypeError] when a string meets a number or a NaN.  Where a
    NaN ends up among numbers is not modelled: it comes last here. *)
Definition list_sort (l : list cell) : result (list cell) :=
  match l with
  | [] => Ok []
  | c :: l' =>
      if forallb (λ d, py_rank d =? py_rank c) l'
      then Ok (merge_sort cell_le l) else Raise TypeError
  end.

(** [x in l] *)
Definition py_in (x : cell) (l : list cell) : bool := existsb (cell_eqb x) l.

(** Lines 102-103. *)
Definition all_crime_types (df : DataFrame) : result (list cell) :=
  crime ← getitem df "ofns_desc"; list_sort (unique crime).

(** Lines 106-110. *)
Definition available_target_crimes (all_crime_types : list cell) : list cell :=
  filter (λ crime, py_in crime all_crime_types) target_crime_types.

Definition other_crimes (all_crime_types : list cell) : list cell :=
  filter (λ crime, negb (py_in crime target_crime_types)) all_crime_types.

Definition crime_types_ordered (all_crime_types : list cell) : list cell :=
  available_target_crimes all_crime_types ++ other_crimes all_crime_types.

(** Lines 153-154. *)
Definition available_boroughs (df : DataFrame) : result (list cell) :=
  boro ← getitem df "arrest_boro"; Ok (filter (λ b, notna b) (unique boro)).

(** The labels among the values a multiselect returns. *)
Definition labels (l : list cell) : list string :=
  omap (λ c, match c with Str s => Some s | _ => None end) l.

(** ** Objects and the script *)

(** Frames are objects: the script binds names to them and [df[c] = ...]
    changes the object in place.  The store holds the frames by address. *)
Abbreviation heap := (list DataFrame).
Abbreviation ref := nat.

(** A step of the script: it may raise, and it leaves a store. *)
Definition M (A : Type) : Type := heap → result A * heap.

#[global] Instance M_ret : MRet M := λ A a h, (Ok a, h).
#[global] Instance M_bind : MBind M := λ A B k m h,
  match m h with
  | (Ok a, h') => k a h'
  | (Raise e, h') => (Raise e, h')
  end.

(** A pure computation on values. *)
Definition lift {A} (m : result A) : M A := λ h, (m, h).

(** A new object. *)
Definition new (df : DataFrame) : M ref := λ h, (Ok (length h), h ++ [df]).

(** The frame a name is bound to; the names of the script are bound. *)
Definition frame (r : ref) : M DataFrame := λ h,
  match h !! r with
  | Some df => (Ok df, h)
  | None => (Raise ReferenceError, h)
  end.

(** The object at [r] becomes [df]. *)
Definition update (r : ref) (df : DataFrame) : M unit :=
  λ h, (Ok (), <[r := df]> h).

(** [x[c] = vals] on the object [x]. *)
Definition assign (r : ref) (c : string) (vals : list cell) : M unit :=
  df ← frame r;
  df' ← lift (setitem df c vals);
  update r df'.

(** [x.copy()] *)
Definition copy (r : ref) : M ref := df ← frame r; new df.

(** [DataFrame.empty]: no rows or no columns. *)
Definition empty (df : DataFrame) : bool :=
  bool_decide (rows df = []) || bool_decide (columns df = []).

Definition standard_colors : list string :=
  ["red"; "blue"; "green"; "purple"; "orange"; "brown";
   "pink"; "gray"; "olive"; "cyan"; "yellow"; "magenta"].

Definition color_dict : list (string * list Z) :=
  [("red", [255; 0; 0]); ("blue", [0; 0; 255]); ("green", [0; 255; 0]);
   ("purple", [128; 0; 128]); ("orange", [255; 165; 0]);
   ("brown", [165; 42; 42]); ("pink", [255; 192; 203]);
   ("gray", [128; 128; 128]); ("olive", [128; 128; 0]);
   ("cyan", [0; 255; 255]); ("yellow", [255; 255; 0]);
   ("magenta", [255; 0; 255])].

(** [dict.get(key, default)] on a dict written as its items. *)
Definition dict_get {K V} (eqb : K → K → bool) (d : list (K * V)) (k : K)
    (default : V) : V :=
  from_option snd default (List.find (λ kv, eqb k kv.1) d).

(** [s.lstrip('#')] *)
Fixpoint lstrip_hash (s : string) : string :=
  match s with
  | String "#" s' => lstrip_hash s'
  | _ => s
  end.

(** Lines 248-251: the colour name of each crime type of the subset. *)
Definition color_map (unique_crimes : list cell) : list (cell * string) :=
  imap (λ i crime,
          (crime, default "red" (standard_colors !! (i mod length standard_colors)%nat)))
       unique_crimes.

(** [Series.min()] and [Series.max()], missing values skipped. *)
Definition series_min (s : list cell) : result cell :=
  sorted ← sort_values (filter (λ c, notna c) s); Ok (default Null (head sorted)).
Definition series_max (s : list cell) : result cell :=
  sorted ← sort_values (filter (λ c, notna c) s); Ok (default Null (last sorted)).

(** [t.strftime('%Y-%m-%d')]: [NaT] has no format. *)
Definition strftime_date (c : cell) : result (Z * Z * Z) :=
  match c with
  | Time t => Ok (ts_year t, ts_month t, ts_day t)
  | _ => Raise ValueError
  end.

(** The number a cell holds, for arithmetic: a string, or any other value
    that is not a number, raises [TypeError]. *)
Definition number (c : cell) : result float :=
  match c with
  | Int n => Ok (float_of_Z n)
  | Float x => Ok x
  | _ => Raise TypeError
  end.

(** Lines 259-260. *)
Definition nyc_lat : float := 0x1.45b3d07c84b5ep+5%float.
Definition nyc_lon : float := (-0x1.280624dd2f1aap+6)%float.

(** What the script computes for the map and the charts below it. *)
Record charts := {
  chart_center : float * float;
  chart_crimes : list (cell * nat);
  chart_hours : list (cell * nat);
  chart_boroughs : option (list (cell * nat));
  chart_trend : option DataFrame }.

(** What one run of the script shows. *)
Record views := {
  view_filtered : ref;
  view_top : cell;
  view_charts : option charts;
  view_total : nat;
  view_shown : nat;
  view_dates : (Z * Z * Z) * (Z * Z * Z) }.

Section Script.

(** Library routines on strings: [int(s, base)] ([None]: it raises
    [ValueError]), [re.findall(r'\d+', s)] and [s.lower()]. *)
Variable py_int : string → Z → option Z.
Variable findall_digits : string → list string.
Variable lower : string → string.

(** The mean of the numbers of a column, as numpy sums and divides them. *)
Variable mean : list float → float.

Definition int (s : string) (base : Z) : result Z :=
  match py_int s base with Some n => Ok n | None => Raise ValueError end.

(** Lines 213-238. *)
Definition color_to_rgb (color : string) : result (list Z) :=
  if String.prefix "#" color then
    let hex_color := lstrip_hash color in
    if bool_decide (String.length hex_color = 6%nat)
    then traverse (λ i, int (String.substring i 2 hex_color) 16) [0; 2; 4]%nat
    else Ok [255; 0; 0]
  else if String.prefix "rgb" color then
    let rgb_values := findall_digits color in
    if bool_decide (3 ≤ length rgb_values)%nat
    then traverse (λ v, int v 10) (take 3 rgb_values)
    else Ok [255; 0; 0]
  else Ok (dict_get String.eqb color_dict (lower color) [255; 0; 0]).

(** Lines 164-169: [df[...]] is a new object and [.copy()] another. *)
Definition run_filtered_df (table : ref) (sel : FilterSpec) : M ref :=
  df ← frame table;
  sub ← lift (filtered_df df sel);
  selected ← new sub;
  copy selected.

(** Lines 254-256: the colour column, written into the subset. *)
Definition add_colors (filtered : ref) : M unit :=
  sub ← frame filtered;
  crime ← lift (getitem sub "ofns_desc");
  let colors := color_map (unique crime) in
  rgb ← lift (traverse (λ x, Rgb <$> color_to_rgb (dict_get cell_eqb colors x "red"))
                       crime);
  assign filtered "color" rgb.

(** [Series.mean()]: missing values are skipped. *)
Definition series_mean (s : list cell) : result float :=
  xs ← traverse number (filter (λ c, notna c) s); Ok (mean xs).

(** Lines 263-268: the centre of the map. *)
Definition map_center (filtered : ref) : M (float * float) :=
  sub ← frame filtered;
  if bool_decide (0 < length (rows sub))%nat
  then center_lat ← lift (getitem sub "latitude" ≫= series_mean);
       center_lon ← lift (getitem sub "longitude" ≫= series_mean);
       mret (center_lat, center_lon)
  else mret (nyc_lat, nyc_lon).

(** Lines 417-421: the rows of the year are a new object, the trend too. *)
Definition run_monthly_data (table : ref) (sel : FilterSpec) : M ref :=
  df ← frame table;
  trend ← lift (monthly_data df sel);
  new trend.

(** The script from line 163 on, run on a table that is not empty (line 88),
    for the values picked in the sidebar and the trend checkbox.  The map and
    the legend (lines 270-373) read the subset, its colours and the centre,
    and are left to the rendering; the colour map of lines 208-210 is
    overwritten at line 248 before any use. *)
Definition dashboard (table : ref) (sel : FilterSpec) (show_trend : bool)
  : M views :=
  filtered ← run_filtered_df table sel;
  sub ← frame filtered;
  top ← lift (top_crime_type sub);
  shown ← (if empty sub then mret None
           else
             add_colors filtered;;
             center ← map_center filtered;
             sub ← frame filtered;
             cc ← lift (crime_counts sub);
             hc ← lift (hourly_counts sub);
             bc ← (if bool_decide (1 < length (selected_boroughs sel))%nat
                   then bc ← lift (borough_counts sub); mret (Some bc)
                   else mret None);
             tr ← (if show_trend
                   then t ← run_monthly_data table sel;
                        trend ← frame t; mret (Some trend)
                   else mret None);
             mret (Some {| chart_center := center; chart_crimes := cc;
                           chart_hours := hc; chart_boroughs := bc;
                           chart_trend := tr |}));
  df ← frame table;
  sub ← frame filtered;
  dates ← lift (getitem df "arrest_date");
  first ← lift (series_min dates ≫= strftime_date);
  final ← lift (series_max dates ≫= strftime_date);
  mret {| view_filtered := filtered; view_top := top; view_charts := shown;
          view_total := length (rows df); view_shown := length (rows sub);
          view_dates := (first, final) |}.

End Script.

(** * The specification's notions and sample data *)

(** ** The filter as the specification words it *)

(** The cell is one of the given labels. *)
Definition labelled (c : cell) (labels : list string) : Prop :=
  ∃ s, c = Str s ∧ s ∈ labels.

#[global] Instance labelled_dec c labels : Decision (labelled c labels).
Proof.
  unfold labelled. destruct c as [| | |s| |];
    try (right; intros (s' & ? & ?); discriminate).
  destruct (decide (s ∈ labels)) as [Hin|Hout].
  - left. exists s. split; [reflexivity | exact Hin].
  - right. intros (s' & Hs & Hin). injection Hs as ->. exact (Hout Hin).
Defined.

(** The cell is the number [n]: the integer [n], or a float that is equal
    to it. *)
Definition equals_int (c : cell) (n : Z) : Prop :=
  c = Int n ∨ ∃ x, c = Float x ∧ PrimFloat.eqb x (float_of_Z n) = true.

#[global] Instance equals_int_dec c n : Decision (equals_int c n).
Proof.
  unfold equals_int. destruct c as [|k|x| | |];
    try (right; intros [?|(? & ? & _)]; discriminate).
  - destruct (decide (k = n)) as [->|Hne].
    + left. by left.
    + right. intros [[= ?]|(? & ? & _)]; [done|discriminate].
  - destruct (PrimFloat.eqb x (float_of_Z n)) eqn:E.
    + left. right. by exists x.
    + right. intros [?|(y & [= <-] & Hy)]; [discriminate|congruence].
Defined.

(** The four predicates of a FilterSpec, all of which a record must meet. *)
Definition passes (sel : FilterSpec) (r : gmap string cell) : Prop :=
  labelled (cellof r "ofns_desc") (selected_crimes sel) ∧
  equals_int (cellof r "month") (selected_month sel) ∧
  equals_int (cellof r "year") (selected_year sel) ∧
  labelled (cellof r "arrest_boro") (selected_boroughs sel).

#[global] Instance passes_dec sel r : Decision (passes sel r).
Proof. unfold passes. apply _. Defined.

Definition has_columns (df : DataFrame) (labels : list string) : Prop :=
  Forall (λ c, c ∈ columns df) labels.

(** The columns the filter reads. *)
Definition filter_columns : list string :=
  ["ofns_desc"; "month"; "year"; "arrest_boro"].

(** ** The loaded table in closed form *)

(** A usable position: both coordinates present and neither of them zero. *)
Definition usable (r : gmap string cell) : Prop :=
  notna (cellof r "latitude") ∧ notna (cellof r "longitude") ∧
  ¬ equals_int (cellof r "latitude") 0 ∧ ¬ equals_int (cellof r "longitude") 0.

#[global] Instance usable_dec r : Decision (usable r).
Proof. unfold usable. apply _. Defined.

(** A feature of the row's date. *)
Definition feature (f : Timestamp → cell) (r : gmap string cell) : cell :=
  match cellof r "arrest_date" with Time t => f t | _ => Null end.

(** The five time fields of lines 54-58, added to a row. *)
Definition time_features (r : gmap string cell) : gmap string cell :=
  <["hour" := feature (λ t, Int (ts_hour t)) r]>
    (<["day_of_week" := feature day_name r]>
       (<["month_name" := feature month_name r]>
          (<["month" := feature (λ t, Int (ts_month t)) r]>
             (<["year" := feature (λ t, Int (ts_year t)) r]> r)))).

Definition feature_columns (cols : list string) : list string :=
  foldl add_column cols ["year"; "month"; "month_name"; "day_of_week"; "hour"].

Section LoaderSpec.

Variable to_timestamp : cell → option Timestamp.

(** The date cell after a successful [pd.to_datetime]. *)
Definition parsed (c : cell) : cell :=
  if isna c then Null
  else match to_timestamp c with Some t => Time t | None => Null end.

Definition converted (r : gmap string cell) : gmap string cell :=
  <["arrest_date" := parsed (cellof r "arrest_date")]> r.

(** The frame [load_data] returns for a source it accepts. *)
Definition loaded (raw : DataFrame) : DataFrame :=
  {| columns := feature_columns (columns raw);
     rows := map (λ r, time_features (converted r)) (filter usable (rows raw)) |}.

End LoaderSpec.

(** ** Counting and the store *)

(** The cell holds a string. *)
Definition is_str (c : cell) : Prop := ∃ s, c = Str s.

#[global] Instance cell_is_dec (c : cell) (s : string) : Decision (c = Str s).
Proof.
  destruct c as [| | |t| |]; try (right; discriminate).
  destruct (decide (t = s)) as [->|Hne]; [by left|right; congruence].
Defined.

(** The occurrences of a key in a column, and the count a tally gives it. *)
Section Census.
Context {K : Type} (eqb : K → K → bool).

Definition occurrences (k : K) (l : list K) : nat :=
  length (filter (λ x, eqb x k = true) l).

Fixpoint count_of (k : K) (acc : list (K * nat)) : nat :=
  match acc with
  | [] => 0%nat
  | (k', n) :: acc => if eqb k k' then n else count_of k acc
  end.

End Census.

(** The objects below address [n] are as before, and none has gone. *)
Definition stable (n : nat) (h h' : heap) : Prop :=
  (length h ≤ length h')%nat ∧ ∀ l, (l < n)%nat → h' !! l = h !! l.

(** A step that leaves the objects below [n] alone and whose result meets
    [Q]. *)
Definition safe {A} (n : nat) (m : M A) (Q : A → Prop) : Prop :=
  ∀ h, (n ≤ length h)%nat →
       stable n h (m h).2 ∧ ∀ a, (m h).1 = Ok a → Q a.

(** The cell holds an integer. *)
Definition is_int (c : cell) : Prop := ∃ z, c = Int z.

#[global] Instance cell_is_int_dec (c : cell) (z : Z) : Decision (c = Int z).
Proof.
  destruct c as [|n| | | |]; try (right; discriminate).
  destruct (decide (n = z)) as [->|Hne]; [by left|right; congruence].
Defined.

(** A count under an integer key, as a pair of cells and numbers. *)
Definition int_keyed (p : Z * nat) : cell * nat := (Int p.1, p.2).

Definition by_int_key (a b : Z * nat) : Prop := a.1 ≤ b.1.

#[global] Instance by_int_key_dec : RelDecision by_int_key.
Proof. intros a b. unfold by_int_key. apply _. Defined.

(** The scope of the monthly trend: crime type, year and borough selected. *)
Definition in_scope (sel : FilterSpec) (r : gmap string cell) : Prop :=
  labelled (cellof r "ofns_desc") (selected_crimes sel) ∧
  equals_int (cellof r "year") (selected_year sel) ∧
  labelled (cellof r "arrest_boro") (selected_boroughs sel).

#[global] Instance in_scope_dec sel r : Decision (in_scope sel r).
Proof. unfold in_scope. apply _. Defined.

(** The name of the month with number [m], as [month_name] gives it. *)
Definition name_of_month (m : Z) : cell :=
  if 1 <=? m
  then from_option Str Null (month_names !! Z.to_nat (m - 1))
  else Null.

(** The key of a month in the groups of the trend, with the name of the
    month. *)
Definition month_key (m : Z) : cell * cell := (Int m, name_of_month m).

Definition is_month_key (k : cell * cell) : Prop :=
  ∃ m, k = month_key m ∧ 1 ≤ m ≤ 12.

(** The group of a month, and its row in the trend. *)
Definition month_group (p : Z * nat) : (cell * cell) * nat :=
  ((Int p.1, name_of_month p.1), p.2).

Definition trend_row (p : Z * nat) : gmap string cell :=
  <["arrests" := Int (Z.of_nat p.2)]>
    (<["month_name" := name_of_month p.1]> (<["month" := Int p.1]> ∅)).

(** The row [g] of a trend is of an earlier month than the row [g']. *)
Definition month_before (g g' : gmap string cell) : Prop :=
  ∃ m m', cellof g "month" = Int m ∧ cellof g' "month" = Int m' ∧ m < m'.

(** A chart of counts over the column [c] of a subset: every value of the
    column is listed once, with the number of its records, the largest
    count first. *)
Definition counted (c : string) (sub : DataFrame) (counts : list (cell * nat))
  : Prop :=
  NoDup counts.*1 ∧
  StronglySorted by_count_desc counts ∧
  (∀ r, r ∈ rows sub → cellof r c ∈ counts.*1) ∧
  ∀ k n, (k, n) ∈ counts →
    ∃ s, k = Str s ∧ (0 < n)%nat ∧
         n = length (filter (λ r, cellof r c = Str s) (rows sub)).

(** The order of timestamps: by year, month, day, hour, minute, second. *)
Definition ts_le (a b : Timestamp) : Prop := lex_leb (ts_key a) (ts_key b).

#[global] Instance ts_le_dec : RelDecision ts_le.
Proof. intros a b. unfold ts_le. apply _. Defined.

(** A step that returns from the store [h], with a result and a store that
    meet [Q]. *)
Definition returns {A} (m : M A) (h : heap) (Q : A → heap → Prop) : Prop :=
  ∃ a h', m h = (Ok a, h') ∧ Q a h'.

(** The cell holds a number. *)
Definition is_number (c : cell) : Prop := (∃ n, c = Int n) ∨ ∃ x, c = Float x.

#[global] Instance is_number_dec c : Decision (is_number c).
Proof.
  unfold is_number. destruct c as [|n|x| | |];
    try (right; intros [[? ?]|[? ?]]; discriminate).
  - left. left. by exists n.
  - left. right. by exists x.
Defined.

(** The cell holds a timestamp. *)
Definition is_time (c : cell) : Prop := ∃ t, c = Time t.

#[global] Instance is_time_dec c : Decision (is_time c).
Proof.
  unfold is_time. destruct c as [| | | |t|]; try (right; intros [? ?]; discriminate).
  left. by exists t.
Defined.

#[global] Instance is_str_dec c : Decision (is_str c).
Proof.
  unfold is_str. destruct c as [| | |s| |]; try (right; intros [? ?]; discriminate).
  left. by exists s.
Defined.

(** A record as the specification has it: a date, coordinates that are
    numbers and a crime type.  The sidebar (lines 102-129) is built on a
    table of such records only: it sorts the crime types and looks up the
    name of every month. *)
Definition record (r : gmap string cell) : Prop :=
  is_time (cellof r "arrest_date") ∧
  is_number (cellof r "latitude") ∧ is_number (cellof r "longitude") ∧
  is_str (cellof r "ofns_desc").

#[global] Instance record_dec r : Decision (record r).
Proof. unfold record. apply _. Defined.

(** ** Sample data *)

(** A reader of dates written [YYYY-MM-DD HH:MM:SS], one of the formats
    [pd.to_datetime] accepts; timestamps pass unchanged. *)
Fixpoint digits (s : string) (acc : Z) : option Z :=
  match s with
  | EmptyString => Some acc
  | String a s =>
      let n := Z.of_nat (nat_of_ascii a) - 48 in
      if (0 <=? n) && (n <=? 9) then digits s (10 * acc + n) else None
  end.

Definition field (s : string) (start len : nat) : option Z :=
  digits (String.substring start len s) 0.

Definition iso_timestamp (c : cell) : option Timestamp :=
  match c with
  | Time t => Some t
  | Str s =>
      if bool_decide (String.length s = 19%nat)
      then y ← field s 0 4; m ← field s 5 2; d ← field s 8 2;
           h ← field s 11 2; mi ← field s 14 2; se ← field s 17 2;
           if (1 <=? m) && (m <=? 12) && (1 <=? d) && (d <=? 31) &&
              (h <=? 23) && (mi <=? 59) && (se <=? 59)
           then Some {| ts_year := y; ts_month := m; ts_day := d;
                        ts_hour := h; ts_minute := mi; ts_second := se |}
           else None
      else None
  | _ => None
  end.

Definition raw_row (date : string) (lat lon : cell) (crime boro : string)
  : gmap string cell :=
  <["arrest_date" := Str date]>
    (<["latitude" := lat]>
       (<["longitude" := lon]>
          (<["ofns_desc" := Str crime]> (<["arrest_boro" := Str boro]> ∅)))).

Definition raw_columns : list string :=
  ["arrest_date"; "latitude"; "longitude"; "ofns_desc"; "arrest_boro"].

(** A row with latitude zero and a longitude that is neither missing nor
    zero. *)
Definition row_zero_latitude : gmap string cell :=
  raw_row "2020-01-15 10:30:00" (Float 0%float) (Float (-73.5)%float)
          "ROBBERY" "K".

Definition raw_zero_latitude : DataFrame :=
  {| columns := raw_columns; rows := [row_zero_latitude] |}.

Definition raw_sample : DataFrame :=
  {| columns := raw_columns;
     rows := [raw_row "2020-01-15 10:30:00" (Float 40.75%float)
                      (Float (-73.5)%float) "ROBBERY" "K";
              raw_row "2020-01-20 23:05:00" (Float 40.5%float)
                      (Float (-74)%float) "THEFT-FRAUD" "M";
              raw_row "2020-02-02 08:00:00" Null (Float (-74)%float)
                      "ROBBERY" "Q";
              raw_row "2020-01-03 10:45:00" (Float 40.25%float)
                      (Float (-73.75)%float) "THEFT-FRAUD" "K"] |}.

(** Sources without the category and borough columns, and without the
    latitude column. *)
Definition raw_without_labels : DataFrame :=
  {| columns := ["arrest_date"; "latitude"; "longitude"];
     rows := [<["arrest_date" := Str "2020-01-15 10:30:00"]>
                (<["latitude" := Float 40.75%float]>
                   (<["longitude" := Float (-73.5)%float]> ∅))] |}.

Definition raw_without_latitude : DataFrame :=
  {| columns := ["arrest_date"; "longitude"; "ofns_desc"; "arrest_boro"];
     rows := [<["arrest_date" := Str "2020-01-15 10:30:00"]>
                (<["longitude" := Float (-73.5)%float]>
                   (<["ofns_desc" := Str "ROBBERY"]>
                      (<["arrest_boro" := Str "K"]> ∅)))] |}.

(** A source with a date that cannot be read, in its second row. *)
Definition raw_unreadable_date : DataFrame :=
  {| columns := raw_columns;
     rows := [raw_row "2020-01-15 10:30:00" (Float 40.75%float)
                      (Float (-73.5)%float) "ROBBERY" "K";
              raw_row "yesterday" Null Null "ROBBERY" "K";
              raw_row "2020-01-20 23:05:00" (Float 40.5%float)
                      (Float (-74)%float) "THEFT-FRAUD" "M"] |}.

(** January, robberies in Brooklyn only. *)
Definition january_robbery : FilterSpec :=
  {| selected_crimes := ["ROBBERY"]; selected_month := 1;
     selected_year := 2020; selected_boroughs := ["K"] |}.

(** A source of which [january_robbery] selects the first row only: the
    others are of another month, another year, another crime type and
    another borough. *)
Definition raw_two_years : DataFrame :=
  {| columns := raw_columns;
     rows := [raw_row "2020-01-15 10:30:00" (Float 40.75%float)
                      (Float (-73.5)%float) "ROBBERY" "K";
              raw_row "2020-02-02 08:00:00" (Float 40.5%float)
                      (Float (-74)%float) "ROBBERY" "K";
              raw_row "2021-01-07 12:00:00" (Float 40.5%float)
                      (Float (-74)%float) "ROBBERY" "K";
              raw_row "2020-01-20 23:05:00" (Float 40.5%float)
                      (Float (-74)%float) "THEFT-FRAUD" "K";
              raw_row "2020-01-03 10:45:00" (Float 40.25%float)
                      (Float (-73.75)%float) "ROBBERY" "M"] |}.

(** A table with a record without crime type. *)
Definition table_missing_crime : DataFrame :=
  {| columns := ["ofns_desc"; "arrest_boro"];
     rows := [<["ofns_desc" := Str "ROBBERY"]> (<["arrest_boro" := Str "K"]> ∅);
              <["ofns_desc" := Null]> (<["arrest_boro" := Str "M"]> ∅)] |}.

(** An upload without the date column, one row at the origin. *)
Definition upload_without_date : DataFrame :=
  {| columns := ["latitude"; "longitude"; "ofns_desc"; "arrest_boro"];
     rows := [<["latitude" := Float 0%float]>
                (<["longitude" := Float 0%float]>
                   (<["ofns_desc" := Str "ROBBERY"]>
                      (<["arrest_boro" := Str "K"]> ∅)))] |}.

(** The columns the specification requires of a source. *)
Definition required_columns : list string :=
  ["arrest_date"; "latitude"; "longitude"; "ofns_desc"; "arrest_boro"].

(** The rule of the specification: a row goes when a coordinate is missing
    or when both are zero. *)
Definition spec_drops (r : gmap string cell) : Prop :=
  isna (cellof r "latitude") ∨ isna (cellof r "longitude") ∨
  (equals_int (cellof r "latitude") 0 ∧ equals_int (cellof r "longitude") 0).

Definition january : FilterSpec :=
  {| selected_crimes := ["ROBBERY"; "THEFT-FRAUD"]; selected_month := 1;
     selected_year := 2020; selected_boroughs := ["K"; "M"] |}.

Definition february : FilterSpec :=
  {| selected_crimes := ["ROBBERY"; "THEFT-FRAUD"]; selected_month := 2;
     selected_year := 2020; selected_boroughs := ["K"; "M"] |}.

Definition the_cells (labels : list string) (r : gmap string cell) : list cell :=
  map (cellof r) labels.


(** ASCII versions of the three string routines, for the sample runs. *)
Fixpoint ascii_lower (s : string) : string :=
  match s with
  | EmptyString => EmptyString
  | String a s =>
      let n := nat_of_ascii a in
      String (if (65 <=? n)%nat && (n <=? 90)%nat
              then ascii_of_nat (n + 32) else a) (ascii_lower s)
  end.

Definition digit_value (a : ascii) : option Z :=
  let n := Z.of_nat (nat_of_ascii a) in
  if (48 <=? n) && (n <=? 57) then Some (n - 48)
  else if (97 <=? n) && (n <=? 102) then Some (n - 87)
  else if (65 <=? n) && (n <=? 70) then Some (n - 55)
  else None.

Fixpoint ascii_int_from (s : string) (base acc : Z) : option Z :=
  match s with
  | EmptyString => Some acc
  | String a s =>
      d ← digit_value a;
      if d <? base then ascii_int_from s base (base * acc + d) else None
  end.

Definition ascii_int (s : string) (base : Z) : option Z :=
  match s with
  | EmptyString => None
  | _ => ascii_int_from s base 0
  end.

Fixpoint ascii_digit_runs (s : string) (run : string) : list string :=
  match s with
  | EmptyString => match run with EmptyString => [] | _ => [String.rev run] end
  | String a s =>
      let n := nat_of_ascii a in
      if (48 <=? n)%nat && (n <=? 57)%nat
      then ascii_digit_runs s (String a run)
      else match run with
           | EmptyString => ascii_digit_runs s EmptyString
           | _ => String.rev run :: ascii_digit_runs s EmptyString
           end
  end.

(** The mean by a sum from left to right, for the sample runs. *)
Definition sample_mean (xs : list float) : float :=
  PrimFloat.div (foldl PrimFloat.add 0%float xs)
                (float_of_Z (Z.of_nat (length xs))).

(** A store holding the loaded sample table under address 0. *)
Definition sample_heap : heap := [loaded iso_timestamp raw_sample].

(** * Properties *)

(** ** Cells *)

Example zero_is_zero :
  cell_eq_int (Float 0%float) 0 = true ∧ cell_eq_int (Float (-0)%float) 0 = true ∧
  cell_eq_int (Int 0) 0 = true ∧ cell_eq_int (Float 40.75%float) 0 = false ∧
  cell_eq_int Null 0 = false ∧ cell_eq_int (Float PrimFloat.nan) 0 = false.
Proof. vm_compute. repeat split; reflexivity. Qed.

Example nan_is_missing : isna (Float PrimFloat.nan) = true ∧ isna Null = true.
Proof. vm_compute. split; reflexivity. Qed.

Lemma equals_int_Int k n : equals_int (Int k) n ↔ k = n.
Proof.
  unfold equals_int. split.
  - intros [[= ->]|(x & Hx & _)]; [done|discriminate].
  - intros ->. by left.
Qed.

Lemma equals_int_Null n : ¬ equals_int Null n.
Proof. intros [?|(? & ? & _)]; discriminate. Qed.

(** The comparison of the code holds of a cell exactly when the cell is the
    number. *)
Lemma equals_int_spec c n : equals_int c n ↔ cell_eq_int c n = true.
Proof.
  unfold equals_int. destruct c as [|k|x| | |]; simpl.
  - split; [intros [?|(? & ? & _)]|]; discriminate.
  - rewrite Z.eqb_eq. split.
    + intros [[= ->]|(? & ? & _)]; [done|discriminate].
    + intros ->. by left.
  - split.
    + intros [?|(y & [= <-] & Hy)]; [discriminate|done].
    + intros Hx. right. by exists x.
  - split; [intros [?|(? & ? & _)]|]; discriminate.
  - split; [intros [?|(? & ? & _)]|]; discriminate.
  - split; [intros [?|(? & ? & _)]|]; discriminate.
Qed.

Lemma labelled_Str s labels : labelled (Str s) labels ↔ s ∈ labels.
Proof.
  unfold labelled. split.
  - by intros (t & [= <-] & Ht).
  - intros Hs. by exists s.
Qed.

(** ** The result monad and frames *)

Lemma bind_Ok {A B} (f : A → result B) (a : A) : (Ok a ≫= f) = f a.
Proof. reflexivity. Qed.

Lemma bind_Raise {A B} (f : A → result B) (e : exn) :
  (Raise e ≫= f) = Raise e.
Proof. reflexivity. Qed.

Lemma bind_Ok_inv {A B} (f : A → result B) (m : result A) (b : B) :
  (m ≫= f) = Ok b → ∃ a, m = Ok a ∧ f a = Ok b.
Proof. destruct m as [a|e]; [eauto | discriminate]. Qed.

Lemma getitem_Ok df c :
  c ∈ columns df → getitem df c = Ok (map (λ r, cellof r c) (rows df)).
Proof. intros Hc. unfold getitem. by rewrite bool_decide_eq_true_2. Qed.

Lemma getitem_Raise df c :
  c ∉ columns df → getitem df c = Raise (KeyError [c]).
Proof. intros Hc. unfold getitem. by rewrite bool_decide_eq_false_2. Qed.

Lemma getitem_Ok_inv df c s :
  getitem df c = Ok s → c ∈ columns df ∧ s = map (λ r, cellof r c) (rows df).
Proof.
  unfold getitem. case_bool_decide; [|discriminate].
  intros [= <-]. done.
Qed.

Lemma mask_rows_decide {A} (P : A → Prop) `{∀ x, Decision (P x)} (l : list A) :
  mask_rows l (map (λ x, bool_decide (P x)) l) = filter P l.
Proof.
  induction l as [|x l IH]; [done|]. simpl.
  rewrite filter_cons, IH.
  case_bool_decide; [by rewrite decide_True|by rewrite decide_False].
Qed.

Lemma mask_and_map {A} (p q : A → bool) (l : list A) :
  mask_and (map p l) (map q l) = map (λ x, p x && q x) l.
Proof. unfold mask_and. induction l; simpl; congruence. Qed.

Lemma cell_isin_labelled c labels :
  cell_isin c labels = bool_decide (labelled c labels).
Proof.
  destruct c as [| | |s| |]; try reflexivity. cbn [cell_isin].
  apply bool_decide_ext. unfold labelled. split.
  - eauto.
  - by intros (? & [= <-] & ?).
Qed.

Lemma cell_eq_int_equals c n : cell_eq_int c n = bool_decide (equals_int c n).
Proof.
  destruct (cell_eq_int c n) eqn:E.
  - rewrite bool_decide_eq_true_2; [done|]. by apply equals_int_spec.
  - rewrite bool_decide_eq_false_2; [done|]. rewrite equals_int_spec. congruence.
Qed.

(** The mask of lines 165-168 is the conjunction, row by row. *)
Lemma filter_mask sel (l : list (gmap string cell)) :
  mask_and
    (mask_and
       (mask_and
          (series_isin (map (λ r, cellof r "ofns_desc") l) (selected_crimes sel))
          (series_eq (map (λ r, cellof r "month") l) (selected_month sel)))
       (series_eq (map (λ r, cellof r "year") l) (selected_year sel)))
    (series_isin (map (λ r, cellof r "arrest_boro") l) (selected_boroughs sel))
  = map (λ r, bool_decide (passes sel r)) l.
Proof.
  unfold series_isin, series_eq. rewrite !map_map, !mask_and_map.
  apply map_ext. intros r.
  rewrite !cell_isin_labelled, !cell_eq_int_equals.
  unfold passes.
  repeat (case_bool_decide; simpl); try reflexivity; tauto.
Qed.

Lemma filtered_df_Ok df sel :
  has_columns df filter_columns →
  filtered_df df sel =
    Ok {| columns := columns df; rows := filter (passes sel) (rows df) |}.
Proof.
  intros Hc. unfold has_columns, filter_columns in Hc.
  rewrite !Forall_cons in Hc. destruct Hc as (H1 & H2 & H3 & H4 & _).
  unfold filtered_df.
  rewrite (getitem_Ok _ _ H1), bind_Ok, (getitem_Ok _ _ H2), bind_Ok,
    (getitem_Ok _ _ H3), bind_Ok, (getitem_Ok _ _ H4), bind_Ok.
  unfold getitem_mask. by rewrite filter_mask, mask_rows_decide.
Qed.

Lemma filtered_df_Ok_inv df sel sub :
  filtered_df df sel = Ok sub →
  has_columns df filter_columns ∧
  sub = {| columns := columns df; rows := filter (passes sel) (rows df) |}.
Proof.
  intros H. assert (Hc : has_columns df filter_columns).
  { unfold filtered_df in H.
    apply bind_Ok_inv in H as (c1 & [H1 _]%getitem_Ok_inv & H).
    apply bind_Ok_inv in H as (c2 & [H2 _]%getitem_Ok_inv & H).
    apply bind_Ok_inv in H as (c3 & [H3 _]%getitem_Ok_inv & H).
    apply bind_Ok_inv in H as (c4 & [H4 _]%getitem_Ok_inv & H).
    unfold has_columns, filter_columns. by repeat constructor. }
  split; [done|]. rewrite (filtered_df_Ok _ _ Hc) in H. congruence.
Qed.

(** ** The filter *)

(** C1: on a table with the four filtered columns, [filtered_df] is the
    subsequence of the table, in the table's order, of exactly the records
    whose category is selected, whose month and year are the selected ones
    and whose borough is selected; a record of the table that is not in the
    result fails one of the four predicates. *)
Theorem filtered_df_sound_complete df sel :
  has_columns df filter_columns →
  ∃ sub, filtered_df df sel = Ok sub ∧
    columns sub = columns df ∧
    rows sub = filter (passes sel) (rows df) ∧
    sublist (rows sub) (rows df) ∧
    (∀ r, r ∈ rows sub ↔ r ∈ rows df ∧ passes sel r) ∧
    (∀ r, r ∈ rows df → r ∉ rows sub →
       ¬ labelled (cellof r "ofns_desc") (selected_crimes sel) ∨
       ¬ equals_int (cellof r "month") (selected_month sel) ∨
       ¬ equals_int (cellof r "year") (selected_year sel) ∨
       ¬ labelled (cellof r "arrest_boro") (selected_boroughs sel)).
Proof.
  intros Hc. eexists. split; [by apply filtered_df_Ok|]. simpl.
  split; [done|]. split; [done|]. split; [apply sublist_filter|].
  split.
  - intros r. rewrite list_elem_of_filter. tauto.
  - intros r Hin Hout. rewrite list_elem_of_filter in Hout.
    assert (Hn : ¬ passes sel r) by tauto.
    unfold passes in Hn.
    destruct (decide (labelled (cellof r "ofns_desc") (selected_crimes sel)));
      [|tauto].
    destruct (decide (equals_int (cellof r "month") (selected_month sel)));
      [|tauto].
    destruct (decide (equals_int (cellof r "year") (selected_year sel)));
      [|tauto].
    right; right; right. tauto.
Qed.

Lemma filtered_df_sound_complete_witness :
  has_columns (loaded iso_timestamp raw_two_years) filter_columns ∧
  ∃ sub, filtered_df (loaded iso_timestamp raw_two_years) january_robbery
           = Ok sub ∧
         rows sub = filter (passes january_robbery)
                           (rows (loaded iso_timestamp raw_two_years)) ∧
         map (the_cells filter_columns) (rows sub) =
           [[Str "ROBBERY"; Int 1; Int 2020; Str "K"]] ∧
         map (the_cells filter_columns)
             (filter (λ r, ¬ passes january_robbery r)
                     (rows (loaded iso_timestamp raw_two_years))) =
           [[Str "ROBBERY"; Int 2; Int 2020; Str "K"];
            [Str "ROBBERY"; Int 1; Int 2021; Str "K"];
            [Str "THEFT-FRAUD"; Int 1; Int 2020; Str "K"];
            [Str "ROBBERY"; Int 1; Int 2020; Str "M"]].
Proof.
  assert (Hc : has_columns (loaded iso_timestamp raw_two_years) filter_columns).
  { apply (bool_decide_unpack _). vm_compute. exact I. }
  split; [exact Hc|].
  destruct (filtered_df_sound_complete _ january_robbery Hc)
    as (sub & H1 & _ & H2 & _).
  exists sub. split; [exact H1|]. split; [exact H2|].
  rewrite H2. split; vm_compute; reflexivity.
Defined.

(** C8: filtering the result of the filter again with the same selection
    gives the same frame (and a filter that raises, raises the same). *)
Theorem filtered_df_idempotent df sel :
  (filtered_df df sel ≫= λ sub, filtered_df sub sel) = filtered_df df sel.
Proof.
  destruct (filtered_df df sel) as [sub|e] eqn:H; [|reflexivity].
  rewrite bind_Ok.
  apply filtered_df_Ok_inv in H as [Hc ->].
  rewrite filtered_df_Ok by done. simpl. f_equal. f_equal.
  induction (rows df) as [|r l IH]; [done|].
  rewrite filter_cons. destruct (decide (passes sel r)) as [Hp|Hp].
  - rewrite filter_cons, decide_True by done. by rewrite IH.
  - done.
Qed.

(** ** The loader *)

Lemma setitem_map df c (g : gmap string cell → cell) :
  setitem df c (map g (rows df)) =
    Ok {| columns := add_column (columns df) c;
          rows := map (λ r, <[c := g r]> r) (rows df) |}.
Proof.
  unfold setitem. rewrite bool_decide_eq_true_2 by apply length_map.
  f_equal. f_equal. induction (rows df); simpl; congruence.
Qed.

Lemma elem_of_add_column cols c d : d ∈ cols → d ∈ add_column cols c.
Proof.
  unfold add_column. case_bool_decide; [done|]. intros. apply elem_of_app. by left.
Qed.

Lemma add_column_id cols c : c ∈ cols → add_column cols c = cols.
Proof. intros. unfold add_column. by rewrite bool_decide_eq_true_2. Qed.

Lemma cellof_insert_ne (r : gmap string cell) c d v :
  c ≠ d → cellof (<[c := v]> r) d = cellof r d.
Proof. intros. unfold cellof. by rewrite lookup_insert_ne. Qed.

Lemma cellof_insert_eq (r : gmap string cell) c v : cellof (<[c := v]> r) c = v.
Proof. unfold cellof. by rewrite lookup_insert_eq. Qed.

Lemma mask_rows_bool {A} (p : A → bool) (l : list A) :
  mask_rows l (map p l) = filter (λ x, p x) l.
Proof.
  induction l as [|x l IH]; [done|]. simpl. rewrite filter_cons, IH.
  by destruct (p x).
Qed.

Lemma filter_map_commute {A B} (f : A → B) (P : B → Prop) (Q : A → Prop)
    `{∀ x, Decision (P x)} `{∀ x, Decision (Q x)} (l : list A) :
  (∀ x, P (f x) ↔ Q x) → filter P (map f l) = map f (filter Q l).
Proof.
  intros HPQ. induction l as [|x l IH]; [done|]. simpl.
  rewrite !filter_cons. destruct (decide (Q x)) as [HQ|HQ].
  - rewrite decide_True by by apply HPQ. simpl. by rewrite IH.
  - rewrite decide_False by by rewrite HPQ. done.
Qed.

(** One feature column: [df[c] = df['arrest_date'].dt.f]. *)
Lemma setitem_feature {B} df c f (k : DataFrame → result B) :
  "arrest_date" ∈ columns df →
  (getitem df "arrest_date" ≫= λ a, setitem df c (dt f a) ≫= k) =
    k {| columns := add_column (columns df) c;
         rows := map (λ r, <[c := feature f r]> r) (rows df) |}.
Proof.
  intros Hc. rewrite (getitem_Ok _ _ Hc), bind_Ok.
  unfold dt. rewrite map_map.
  pose proof (setitem_map df c (feature f)) as Hset. unfold feature in Hset.
  by rewrite Hset, bind_Ok.
Qed.

Lemma feature_insert_ne f (r : gmap string cell) c v :
  c ≠ "arrest_date" → feature f (<[c := v]> r) = feature f r.
Proof. intros. unfold feature. by rewrite cellof_insert_ne. Qed.

Section LoaderFacts.

Variable to_timestamp : cell → option Timestamp.

Lemma to_datetime_Ok s ts :
  to_datetime to_timestamp s = Ok ts → ts = map (parsed to_timestamp) s.
Proof.
  unfold to_datetime. revert ts. induction s as [|c s IH]; intros ts H.
  - by injection H as <-.
  - simpl in H. apply bind_Ok_inv in H as (y & Hy & H).
    apply bind_Ok_inv in H as (ys & Hys & H). injection H as <-.
    simpl. rewrite <- (IH ys Hys). f_equal. unfold parsed.
    destruct (isna c); [congruence|].
    destruct (to_timestamp c); [congruence|discriminate].
Qed.

(** The outcome of the preprocessing, case by case. *)
Lemma preprocess_outcome raw :
  preprocess to_timestamp raw =
    if bool_decide ("arrest_date" ∈ columns raw) then
      match to_datetime to_timestamp (map (λ r, cellof r "arrest_date") (rows raw)) with
      | Raise e => Raise e
      | Ok _ =>
          match filter (λ c, c ∉ columns raw) ["latitude"; "longitude"] with
          | [] => Ok (loaded to_timestamp raw)
          | missing => Raise (KeyError missing)
          end
      end
    else Raise (KeyError ["arrest_date"]).
Proof.
  unfold preprocess. case_bool_decide as Hd.
  2: { by rewrite getitem_Raise. }
  rewrite (getitem_Ok _ _ Hd), bind_Ok.
  destruct (to_datetime _ _) as [ts|e] eqn:Hts; [|done]. rewrite bind_Ok.
  apply to_datetime_Ok in Hts as ->. rewrite map_map.
  rewrite (setitem_map raw "arrest_date"
             (λ r, parsed to_timestamp (cellof r "arrest_date"))), bind_Ok.
  rewrite (add_column_id _ _ Hd).
  unfold dropna. cbn [columns rows].
  destruct (filter (λ c, c ∉ columns raw) ["latitude"; "longitude"])
    as [|m ms] eqn:Hmiss; [|done].
  assert (Hlat : "latitude" ∈ columns raw ∧ "longitude" ∈ columns raw).
  { split.
    - destruct (decide ("latitude" ∈ columns raw)) as [|Hn]; [done|].
      rewrite filter_cons, decide_True in Hmiss by done. discriminate.
    - destruct (decide ("longitude" ∈ columns raw)) as [|Hn]; [done|].
      assert (Hin : "longitude" ∈ filter (λ c, c ∉ columns raw)
                      ["latitude"; "longitude"]).
      { apply list_elem_of_filter. split; [done|]. set_solver. }
      rewrite Hmiss in Hin. by apply not_elem_of_nil in Hin. }
  destruct Hlat as [Hlat Hlon]. rewrite ?bind_Ok.
  rewrite (getitem_Ok _ "latitude") by done. rewrite bind_Ok.
  rewrite (getitem_Ok _ "longitude") by done. rewrite bind_Ok.
  cbn [columns rows].
  unfold series_ne. rewrite !map_map, mask_and_map.
  unfold getitem_mask. cbn [columns rows]. rewrite mask_rows_bool.
  set (l := filter _ (filter _ _)).
  rewrite (setitem_feature _ "year") by done.
  rewrite (setitem_feature _ "month") by by apply elem_of_add_column.
  rewrite (setitem_feature _ "month_name") by by do 2 apply elem_of_add_column.
  rewrite (setitem_feature _ "day_of_week") by by do 3 apply elem_of_add_column.
  rewrite (setitem_feature _ "hour") by by do 4 apply elem_of_add_column.
  cbn [columns rows].
  unfold loaded, feature_columns. simpl foldl. f_equal. f_equal.
  rewrite !map_map. subst l.
  rewrite list_filter_filter.
  rewrite (filter_map_commute (converted to_timestamp) _ usable).
  - rewrite map_map. apply map_ext. intros r. unfold time_features.
    by rewrite !feature_insert_ne.
  - intros r. unfold usable, converted. rewrite !equals_int_spec. simpl.
    rewrite !cellof_insert_ne by done.
    destruct (cell_eq_int (cellof r "latitude") 0),
      (cell_eq_int (cellof r "longitude") 0),
      (notna (cellof r "latitude")), (notna (cellof r "longitude"));
      simpl; intuition congruence.
Qed.

End LoaderFacts.

Example iso_timestamp_sample :
  iso_timestamp (Str "2020-01-15 10:30:00") =
    Some {| ts_year := 2020; ts_month := 1; ts_day := 15;
            ts_hour := 10; ts_minute := 30; ts_second := 0 |}.
Proof. reflexivity. Qed.

Example weekday_2020_01_01 :
  day_name {| ts_year := 2020; ts_month := 1; ts_day := 1;
              ts_hour := 0; ts_minute := 0; ts_second := 0 |} = Str "Wednesday".
Proof. reflexivity. Qed.

Example load_sample_rows :
  (λ df, map (λ r, (cellof r "month", cellof r "hour", cellof r "day_of_week"))
             (rows df)) <$> preprocess iso_timestamp raw_sample =
  Ok [(Int 1, Int 10, Str "Wednesday"); (Int 1, Int 23, Str "Monday");
      (Int 1, Int 10, Str "Friday")].
Proof. vm_compute. reflexivity. Qed.

(** C2, as the code has it: the loaded table consists of exactly the rows of
    the source whose latitude and longitude are both present and both
    different from zero, in their order (each with its date converted and
    its time fields added); a row is dropped if and only if a coordinate is
    missing or a coordinate is zero. *)
Theorem load_data_keeps_usable_rows to_timestamp raw df :
  load_data to_timestamp (Some raw) = Ok (Some df) →
  rows df = map (λ r, time_features (converted to_timestamp r))
                (filter usable (rows raw)) ∧
  ∀ r, ¬ usable r ↔
       isna (cellof r "latitude") ∨ isna (cellof r "longitude") ∨
       equals_int (cellof r "latitude") 0 ∨ equals_int (cellof r "longitude") 0.
Proof.
  intros H. split.
  - unfold load_data in H. rewrite preprocess_outcome in H.
    case_bool_decide; [|discriminate].
    destruct (to_datetime _ _); [|discriminate].
    destruct (filter _ _); [|discriminate].
    by injection H as <-.
  - intros r. unfold usable, notna. rewrite !equals_int_spec.
    destruct (isna (cellof r "latitude")), (isna (cellof r "longitude")),
      (cell_eq_int (cellof r "latitude") 0),
      (cell_eq_int (cellof r "longitude") 0); simpl; intuition congruence.
Qed.

Lemma load_data_keeps_usable_rows_witness :
  load_data iso_timestamp (Some raw_sample) =
    Ok (Some (loaded iso_timestamp raw_sample)) ∧
  rows (loaded iso_timestamp raw_sample) =
    map (λ r, time_features (converted iso_timestamp r))
        (filter usable (rows raw_sample)).
Proof.
  assert (H : load_data iso_timestamp (Some raw_sample) =
                Ok (Some (loaded iso_timestamp raw_sample))).
  { vm_compute. reflexivity. }
  split; [exact H|].
  exact (proj1 (load_data_keeps_usable_rows iso_timestamp raw_sample _ H)).
Defined.

(** C2, counterexample: a row with latitude zero and a longitude that is
    neither missing nor zero is not one the specification drops, yet the
    loader drops it. *)
Lemma one_zero_coordinate_is_dropped :
  ¬ spec_drops row_zero_latitude ∧
  ∃ df, load_data iso_timestamp (Some raw_zero_latitude) = Ok (Some df) ∧
        rows df = [].
Proof.
  split.
  - unfold spec_drops. rewrite !equals_int_spec. vm_compute. intuition congruence.
  - eexists. split; [vm_compute; reflexivity|reflexivity].
Qed.

(** C7, as the code has it: there is no schema check and no [SchemaError].
    A source without the date column makes [load_data] raise the [KeyError]
    of the first access, naming [arrest_date]; with the dates converted, a
    source without a coordinate column raises the [KeyError] of [dropna],
    naming the missing ones among latitude and longitude; [load_data] does
    not catch either.  The category and borough columns are not read: a
    source with the date and both coordinates loads. *)
Theorem load_data_missing_columns to_timestamp raw :
  ("arrest_date" ∉ columns raw →
     load_data to_timestamp (Some raw) = Raise (KeyError ["arrest_date"])) ∧
  (∀ ts, "arrest_date" ∈ columns raw →
     to_datetime to_timestamp (map (λ r, cellof r "arrest_date") (rows raw))
       = Ok ts →
     ("latitude" ∉ columns raw → "longitude" ∈ columns raw →
        load_data to_timestamp (Some raw) = Raise (KeyError ["latitude"])) ∧
     ("latitude" ∈ columns raw → "longitude" ∉ columns raw →
        load_data to_timestamp (Some raw) = Raise (KeyError ["longitude"])) ∧
     ("latitude" ∉ columns raw → "longitude" ∉ columns raw →
        load_data to_timestamp (Some raw) =
          Raise (KeyError ["latitude"; "longitude"])) ∧
     ("latitude" ∈ columns raw → "longitude" ∈ columns raw →
        load_data to_timestamp (Some raw) =
          Ok (Some (loaded to_timestamp raw)))).
Proof.
  unfold load_data. rewrite preprocess_outcome. split.
  - intros Hd. by rewrite bool_decide_eq_false_2.
  - intros ts Hd Hts. rewrite bool_decide_eq_true_2 by done. rewrite Hts.
    rewrite !filter_cons, filter_nil.
    repeat split; intros Hlat Hlon;
      destruct (decide ("latitude" ∉ columns raw));
      destruct (decide ("longitude" ∉ columns raw)); done.
Qed.

Lemma load_data_missing_columns_witness :
  "arrest_date" ∈ columns raw_without_latitude ∧
  ("latitude" ∉ columns raw_without_latitude) ∧
  "longitude" ∈ columns raw_without_latitude ∧
  load_data iso_timestamp (Some raw_without_latitude) =
    Raise (KeyError ["latitude"]).
Proof.
  assert (Hd : "arrest_date" ∈ columns raw_without_latitude).
  { apply (bool_decide_unpack _). vm_compute. exact I. }
  assert (Hlat : "latitude" ∉ columns raw_without_latitude).
  { apply (bool_decide_unpack _). vm_compute. exact I. }
  assert (Hlon : "longitude" ∈ columns raw_without_latitude).
  { apply (bool_decide_unpack _). vm_compute. exact I. }
  split; [exact Hd|]. split; [exact Hlat|]. split; [exact Hlon|].
  refine (proj1 (proj2 (load_data_missing_columns iso_timestamp
                          raw_without_latitude) _ Hd _) Hlat Hlon).
  vm_compute. reflexivity.
Defined.

(** C7, counterexample: a source that lacks the category and the borough
    column is loaded without any error. *)
Lemma load_data_accepts_missing_columns :
  (∃ c, c ∈ required_columns ∧ c ∉ columns raw_without_labels) ∧
  ∃ df, load_data iso_timestamp (Some raw_without_labels) = Ok (Some df).
Proof.
  split.
  - exists "ofns_desc". split.
    + apply (bool_decide_unpack _). vm_compute. exact I.
    + apply (bool_decide_unpack _). vm_compute. exact I.
  - eexists. vm_compute. reflexivity.
Qed.

(** C10: with arrests.csv absent, an upload without the [arrest_date]
    column becomes the table of the session as it is: no row is removed and
    no column is added, so a zero or missing coordinate stays and a time
    field exists only if the upload had it; the filter then raises on a table
    without the month or the year column. *)
Theorem upload_without_date_is_unprocessed to_timestamp raw :
  "arrest_date" ∉ columns raw →
  startup to_timestamp None (Some raw) = Ok (Table raw) ∧
  ∀ sel, ("month" ∉ columns raw) ∨ ("year" ∉ columns raw) →
         ∃ labels, filtered_df raw sel = Raise (KeyError labels).
Proof.
  intros Hd. split.
  - unfold startup. simpl. by rewrite bool_decide_eq_false_2.
  - intros sel Hmiss. unfold filtered_df.
    destruct (decide ("ofns_desc" ∈ columns raw)) as [H1|H1].
    2: { rewrite (getitem_Raise _ "ofns_desc") by done. by eexists. }
    rewrite (getitem_Ok _ "ofns_desc"), bind_Ok by done.
    destruct (decide ("month" ∈ columns raw)) as [H2|H2].
    2: { rewrite (getitem_Raise _ "month") by done. by eexists. }
    rewrite (getitem_Ok _ "month"), bind_Ok by done.
    destruct Hmiss as [?|H3]; [done|].
    rewrite (getitem_Raise _ "year") by done. by eexists.
Qed.

Lemma upload_without_date_is_unprocessed_witness :
  ("arrest_date" ∉ columns upload_without_date) ∧
  startup iso_timestamp None (Some upload_without_date) =
    Ok (Table upload_without_date).
Proof.
  assert (Hd : "arrest_date" ∉ columns upload_without_date).
  { apply (bool_decide_unpack _). vm_compute. exact I. }
  split; [exact Hd|].
  exact (proj1 (upload_without_date_is_unprocessed iso_timestamp
                  upload_without_date Hd)).
Defined.

Example january_rows :
  (λ df, map (the_cells ["ofns_desc"; "arrest_boro"; "hour"]) (rows df))
    <$> filtered_df (loaded iso_timestamp raw_sample) january =
  Ok [[Str "ROBBERY"; Str "K"; Int 10]; [Str "THEFT-FRAUD"; Str "M"; Int 23];
      [Str "THEFT-FRAUD"; Str "K"; Int 10]].
Proof. vm_compute. reflexivity. Qed.

Example january_counts :
  (filtered_df (loaded iso_timestamp raw_sample) january ≫= λ sub,
     cc ← crime_counts sub; hc ← hourly_counts sub; bc ← borough_counts sub;
     top ← top_crime_type sub; Ok (cc, hc, bc, top)) =
  Ok ([(Str "THEFT-FRAUD", 2%nat); (Str "ROBBERY", 1%nat)],
      [(Int 10, 2%nat); (Int 23, 1%nat)],
      [(Str "K", 2%nat); (Str "M", 1%nat)],
      Str "THEFT-FRAUD").
Proof. vm_compute. reflexivity. Qed.

Example january_trend :
  (λ df, map (the_cells ["month"; "month_name"; "arrests"]) (rows df))
    <$> monthly_data (loaded iso_timestamp raw_sample) january =
  Ok [[Int 1; Str "January"; Int 3]].
Proof. vm_compute. reflexivity. Qed.

(** ** The monthly trend *)

(** C3: two selections with the same crime types, boroughs and year give
    the same monthly trend, whatever their months. *)
Theorem monthly_data_ignores_month df s1 s2 :
  selected_crimes s1 = selected_crimes s2 →
  selected_boroughs s1 = selected_boroughs s2 →
  selected_year s1 = selected_year s2 →
  monthly_data df s1 = monthly_data df s2.
Proof.
  intros Hc Hb Hy. unfold monthly_data. rewrite Hc, Hb, Hy. reflexivity.
Qed.

Lemma monthly_data_ignores_month_witness :
  selected_month january ≠ selected_month february ∧
  monthly_data (loaded iso_timestamp raw_sample) january =
    monthly_data (loaded iso_timestamp raw_sample) february.
Proof.
  split; [discriminate|].
  apply monthly_data_ignores_month; reflexivity.
Defined.

(** ** Counts *)

Section TallyFacts.
Context {K : Type} (eqb : K → K → bool).

Lemma total_bump k acc : total (bump eqb k acc) = S (total acc).
Proof.
  induction acc as [|[k' n] acc IH]; [done|]. simpl.
  destruct (eqb k k'); simpl; [done|]. rewrite IH. lia.
Qed.

Lemma total_foldl_bump l acc :
  total (foldl (λ acc k, bump eqb k acc) acc l) = (total acc + length l)%nat.
Proof.
  revert acc. induction l as [|k l IH]; intros acc; simpl; [lia|].
  rewrite IH, total_bump. lia.
Qed.

Lemma total_tally l : total (tally eqb l) = length l.
Proof. unfold tally. by rewrite total_foldl_bump. Qed.

Lemma total_Permutation (c1 c2 : list (K * nat)) :
  c1 ≡ₚ c2 → total c1 = total c2.
Proof. induction 1; simpl; lia. Qed.

Lemma bump_keys (P : K → Prop) k acc :
  P k → Forall (λ kn, P kn.1) acc → Forall (λ kn, P kn.1) (bump eqb k acc).
Proof.
  intros Hk. induction 1 as [|[k' n] acc Hk' Hacc IH]; simpl.
  - by repeat constructor.
  - destruct (eqb k k'); constructor; done.
Qed.

Lemma tally_keys (P : K → Prop) l :
  Forall P l → Forall (λ kn, P kn.1) (tally eqb l).
Proof.
  unfold tally. intros Hl.
  assert (Hacc : Forall (λ kn : K * nat, P kn.1) []) by constructor.
  revert Hacc. generalize (@nil (K * nat)).
  induction Hl as [|k l Hk Hl IH]; intros acc Hacc; simpl; [done|].
  apply IH. by apply bump_keys.
Qed.

End TallyFacts.

Section StableSortFacts.
Context {A : Type} (R : relation A) `{!RelDecision R}.

Lemma insert_sorted_Permutation x l : insert_sorted R x l ≡ₚ x :: l.
Proof.
  induction l as [|y l IH]; [done|]. simpl.
  destruct (decide (R y x)); [|done]. rewrite IH. apply Permutation_swap.
Qed.

Lemma stable_sort_Permutation l : stable_sort R l ≡ₚ l.
Proof.
  unfold stable_sort.
  assert (H : ∀ acc, foldl (λ acc x, insert_sorted R x acc) acc l ≡ₚ acc ++ l).
  { induction l as [|x l IH]; intros acc; simpl.
    - by rewrite app_nil_r.
    - rewrite IH, insert_sorted_Permutation. simpl. apply Permutation_middle. }
  by rewrite H.
Qed.

Lemma StronglySorted_insert_sorted {R_total : Total R} {R_trans : Transitive R}
    x l :
  StronglySorted R l → StronglySorted R (insert_sorted R x l).
Proof.
  induction 1 as [|y l Hl IH Hy]; simpl; [by repeat constructor|].
  destruct (decide (R y x)) as [Hyx|Hyx].
  - constructor; [done|]. rewrite insert_sorted_Permutation. by constructor.
  - assert (Hxy : R x y) by (by destruct (R_total x y)).
    constructor; [by constructor|]. constructor; [done|].
    eapply Forall_impl; [exact Hy|]. intros z Hz. by trans y.
Qed.

Lemma StronglySorted_stable_sort {R_total : Total R} {R_trans : Transitive R} l :
  StronglySorted R (stable_sort R l).
Proof.
  unfold stable_sort.
  assert (H : ∀ acc, StronglySorted R acc →
            StronglySorted R (foldl (λ acc x, insert_sorted R x acc) acc l)).
  { induction l as [|x l IH]; intros acc Hacc; simpl; [done|].
    by apply IH, StronglySorted_insert_sorted. }
  apply H. constructor.
Qed.

End StableSortFacts.

Example value_counts_ties :
  value_counts [Str "b"; Str "a"; Str "c"; Str "a"; Str "c"; Str "d"] =
    [(Str "a", 2%nat); (Str "c", 2%nat); (Str "b", 1%nat); (Str "d", 1%nat)].
Proof. vm_compute. reflexivity. Qed.

Lemma total_value_counts s :
  total (value_counts s) = length (filter (λ c, notna c) s).
Proof.
  unfold value_counts.
  rewrite (total_Permutation _ _ (stable_sort_Permutation _ _)).
  apply total_tally.
Qed.

Lemma filter_all {A} (P : A → Prop) `{∀ x, Decision (P x)} (l : list A) :
  Forall P l → filter P l = l.
Proof.
  induction 1 as [|x l Hx Hl IH]; [done|].
  by rewrite filter_cons, decide_True, IH.
Qed.

Lemma homogeneous_rank (n : Z) (l : list cell) :
  Forall (λ c, cell_rank c = n) l → homogeneous l = true.
Proof.
  destruct 1 as [|c l Hc Hl]; [done|]. simpl.
  induction Hl as [|d l Hd Hl IH]; [done|]. simpl.
  rewrite IH, Hc, Hd, Z.eqb_refl. done.
Qed.

(** The keys of [value_counts] are values of the column. *)
Lemma value_counts_keys (P : cell → Prop) s :
  Forall P s → Forall P (value_counts s).*1.
Proof.
  intros Hs. unfold value_counts. apply Forall_fmap.
  rewrite stable_sort_Permutation.
  apply (tally_keys cell_eqb P), Forall_forall.
  intros c [_ Hc]%list_elem_of_filter. by apply (proj1 (Forall_forall _ _) Hs).
Qed.

(** In a loaded table, a row with a month has an hour. *)
Lemma time_features_hour r n :
  equals_int (cellof (time_features r) "month") n →
  ∃ h, cellof (time_features r) "hour" = Int h.
Proof.
  unfold time_features. rewrite cellof_insert_eq.
  rewrite !(cellof_insert_ne _ _ "month") by done. rewrite cellof_insert_eq.
  rewrite equals_int_spec.
  unfold feature. destruct (cellof r "arrest_date"); try discriminate. eauto.
Qed.

Lemma labelled_notna c labels : labelled c labels → notna c.
Proof. by intros (s & -> & _). Qed.

(** C4: for the subset the filter takes from a loaded table, the counts per
    crime type, per hour and per borough each sum to the number of records
    of the subset. *)
Theorem counts_sum_to_subset_size to_timestamp raw df sel sub :
  load_data to_timestamp (Some raw) = Ok (Some df) →
  filtered_df df sel = Ok sub →
  ∃ cc hc bc,
    crime_counts sub = Ok cc ∧ total cc = length (rows sub) ∧
    hourly_counts sub = Ok hc ∧ total hc = length (rows sub) ∧
    borough_counts sub = Ok bc ∧ total bc = length (rows sub).
Proof.
  intros Hload Hsub.
  assert (Hdf : df = loaded to_timestamp raw).
  { unfold load_data in Hload. rewrite preprocess_outcome in Hload.
    case_bool_decide; [|discriminate].
    destruct (to_datetime _ _); [|discriminate].
    destruct (filter _ _); [|discriminate]. by injection Hload as <-. }
  apply filtered_df_Ok_inv in Hsub as [Hc ->].
  unfold has_columns, filter_columns in Hc. rewrite !Forall_cons in Hc.
  destruct Hc as (H1 & H2 & H3 & H4 & _).
  assert (Hh : "hour" ∈ columns df).
  { subst df. unfold loaded, feature_columns. simpl.
    unfold add_column at 1. case_bool_decide; [done|].
    apply elem_of_app. right. by apply list_elem_of_singleton. }
  set (l := filter (passes sel) (rows df)).
  assert (Hpass : Forall (passes sel) l).
  { apply Forall_forall. by intros r [? _]%list_elem_of_filter. }
  assert (Hhour : Forall (λ r, ∃ h, cellof r "hour" = Int h) l).
  { apply Forall_forall. intros r [Hp Hin]%list_elem_of_filter.
    subst df. simpl in Hin. apply list_elem_of_fmap in Hin as (r0 & -> & _).
    destruct Hp as (_ & Hm & _). by eapply time_features_hour. }
  unfold crime_counts, hourly_counts, borough_counts.
  rewrite (getitem_Ok _ "ofns_desc"), (getitem_Ok _ "hour"),
    (getitem_Ok _ "arrest_boro") by done.
  rewrite !bind_Ok. cbn [rows]. fold l.
  assert (Hkeys : Forall (λ c, cell_rank c = 0)
                    (value_counts (map (λ r, cellof r "hour") l)).*1).
  { apply value_counts_keys, Forall_fmap, Forall_impl with (1 := Hhour).
    intros r [h Hr]. simpl. by rewrite Hr. }
  unfold sort_index. rewrite (homogeneous_rank 0 _ Hkeys).
  eexists _, _, _. repeat split.
  - rewrite total_value_counts, filter_all, length_map; [done|].
    apply Forall_fmap, Forall_impl with (1 := Hpass).
    intros r (Hl & _). by eapply labelled_notna.
  - rewrite (total_Permutation _ _ (merge_sort_Permutation _ _)).
    rewrite total_value_counts, filter_all, length_map; [done|].
    apply Forall_fmap, Forall_impl with (1 := Hhour).
    intros r [h Hr]. simpl. by rewrite Hr.
  - rewrite total_value_counts, filter_all, length_map; [done|].
    apply Forall_fmap, Forall_impl with (1 := Hpass).
    intros r (_ & _ & _ & Hl). by eapply labelled_notna.
Qed.

Lemma counts_sum_to_subset_size_witness :
  ∃ sub, filtered_df (loaded iso_timestamp raw_sample) january = Ok sub ∧
    ∃ cc hc bc,
      crime_counts sub = Ok cc ∧ total cc = length (rows sub) ∧
      hourly_counts sub = Ok hc ∧ total hc = length (rows sub) ∧
      borough_counts sub = Ok bc ∧ total bc = length (rows sub).
Proof.
  eexists. split; [vm_compute; reflexivity|].
  apply (counts_sum_to_subset_size iso_timestamp raw_sample
           (loaded iso_timestamp raw_sample) january);
    vm_compute; reflexivity.
Defined.

(** ** An empty selection *)

(** C5: when no record of a table with the pipeline's columns passes the
    filter, nothing raises: the subset is empty, the counts per crime type,
    per hour and per borough are empty, and the top crime type is the
    placeholder "N/A". *)
Theorem empty_selection_is_not_an_error df sel :
  has_columns df (filter_columns ++ ["hour"]) →
  (∀ r, r ∈ rows df → ¬ passes sel r) →
  ∃ sub, filtered_df df sel = Ok sub ∧ rows sub = [] ∧
    crime_counts sub = Ok [] ∧ hourly_counts sub = Ok [] ∧
    borough_counts sub = Ok [] ∧ top_crime_type sub = Ok (Str "N/A").
Proof.
  intros Hc Hnone. unfold has_columns, filter_columns in Hc. simpl in Hc.
  rewrite !Forall_cons in Hc. destruct Hc as (H1 & H2 & H3 & H4 & H5 & _).
  assert (Hrows : filter (passes sel) (rows df) = []).
  { induction (rows df) as [|r l IH]; [done|].
    rewrite filter_cons, decide_False by (apply Hnone; left).
    apply IH. intros r' Hr'. apply Hnone. by right. }
  eexists. split.
  { apply filtered_df_Ok. unfold has_columns, filter_columns.
    by repeat constructor. }
  simpl. split; [done|].
  unfold crime_counts, hourly_counts, borough_counts, top_crime_type,
    most_common_crime.
  rewrite (getitem_Ok _ "ofns_desc"), (getitem_Ok _ "hour"),
    (getitem_Ok _ "arrest_boro") by done.
  cbn [rows]. rewrite Hrows. done.
Qed.

Lemma empty_selection_is_not_an_error_witness :
  ∃ sub, filtered_df (loaded iso_timestamp raw_sample) february = Ok sub ∧
         rows sub = [] ∧ top_crime_type sub = Ok (Str "N/A").
Proof.
  destruct (empty_selection_is_not_an_error
              (loaded iso_timestamp raw_sample) february)
    as (sub & Hsub & Hrows & _ & _ & _ & Htop).
  - unfold has_columns. apply (bool_decide_unpack _). vm_compute. exact I.
  - intros r Hr Hp.
    assert (Hall : Forall (λ r, ¬ passes february r)
                     (rows (loaded iso_timestamp raw_sample))).
    { apply (bool_decide_unpack _). vm_compute. exact I. }
    exact (proj1 (Forall_forall _ _) Hall r Hr Hp).
  - exists sub. auto.
Defined.

(** ** The most frequent crime type *)

(** Sorting commutes with an embedding that preserves the order. *)
Section MergeSortFmap.
Context {A B : Type} (f : A → B) (R : relation A) (S : relation B).
Context `{∀ x y, Decision (R x y)} `{∀ x y, Decision (S x y)}.
Hypothesis RS : ∀ x y, R x y ↔ S (f x) (f y).

Local Abbreviation on_stack st :=
  (fmap (M := list) (fmap (M := option) (fmap (M := list) f)) st).

Lemma list_merge_fmap l1 l2 :
  f <$> list_merge R l1 l2 = list_merge S (f <$> l1) (f <$> l2).
Proof.
  revert l2. induction l1 as [|x1 l1 IH1]; intros l2.
  { by rewrite fmap_nil, !list_merge_nil_l. }
  induction l2 as [|x2 l2 IH2].
  { by rewrite fmap_nil, !list_merge_nil_r. }
  rewrite !fmap_cons, !list_merge_cons.
  destruct (decide (R x1 x2)) as [Hr|Hr], (decide (S (f x1) (f x2))) as [Hs|Hs].
  - by rewrite fmap_cons, IH1.
  - by apply RS in Hr.
  - by apply RS in Hs.
  - by rewrite fmap_cons, IH2.
Qed.

Lemma merge_list_to_stack_fmap st l :
  on_stack (merge_list_to_stack R st l) =
  merge_list_to_stack S (on_stack st) (f <$> l).
Proof.
  revert l. induction st as [|[l'|] st IH]; intros l; simpl; [done| |done].
  by rewrite IH, list_merge_fmap.
Qed.

Lemma merge_stack_fmap st :
  f <$> merge_stack R st = merge_stack S (on_stack st).
Proof.
  induction st as [|[l|] st IH]; simpl; [done| |done].
  by rewrite list_merge_fmap, IH.
Qed.

Lemma merge_sort_aux_fmap st l :
  f <$> merge_sort_aux R st l = merge_sort_aux S (on_stack st) (f <$> l).
Proof.
  revert st. induction l as [|x l IH]; intros st; simpl.
  - apply merge_stack_fmap.
  - by rewrite IH, merge_list_to_stack_fmap.
Qed.

Lemma merge_sort_fmap l : f <$> merge_sort R l = merge_sort S (f <$> l).
Proof. apply merge_sort_aux_fmap. Qed.

End MergeSortFmap.

(** The head of a sorted list is least. *)
Lemma merge_sort_head (ms : list string) c rest :
  merge_sort String.le ms = c :: rest → c ∈ ms ∧ ∀ s, s ∈ ms → String.le c s.
Proof.
  intros Hsort.
  pose proof (StronglySorted_merge_sort String.le ms) as Hss.
  pose proof (merge_sort_Permutation String.le ms) as Hperm.
  rewrite Hsort in Hss, Hperm. split.
  - rewrite <- Hperm. by left.
  - intros s Hs. rewrite <- Hperm in Hs.
    apply StronglySorted_cons in Hss as [Hle _].
    apply elem_of_cons in Hs as [->|Hs]; [done|].
    by apply (proj1 (Forall_forall _ _) Hle).
Qed.

(** Counting with an equality test that decides equality on the values at
    hand: every key has the number of its occurrences. *)
Section TallyCensus.
Context {K : Type} (eqb : K → K → bool) (P : K → Prop).
Hypothesis eqb_eq : ∀ x y, P x → P y → (eqb x y = true ↔ x = y).

Lemma eqb_refl_on k : P k → eqb k k = true.
Proof. intros. by apply eqb_eq. Qed.

Lemma eqb_sym_on x y : P x → P y → eqb x y = eqb y x.
Proof.
  intros Hx Hy. destruct (eqb x y) eqn:E1, (eqb y x) eqn:E2; try done.
  - apply eqb_eq in E1 as ->; [|done..]. by rewrite eqb_refl_on in E2.
  - apply eqb_eq in E2 as ->; [|done..]. by rewrite eqb_refl_on in E1.
Qed.

Lemma count_of_bump k k' acc :
  P k → P k' → Forall (λ kn, P kn.1) acc →
  count_of eqb k' (bump eqb k acc) =
    if eqb k' k then S (count_of eqb k acc) else count_of eqb k' acc.
Proof.
  intros Hk Hk'. induction 1 as [|[k0 n] acc Hk0 Hacc IH]; simpl in *.
  - by destruct (eqb k' k).
  - destruct (eqb k k0) eqn:E; simpl.
    + apply eqb_eq in E as ->; [|done..]. by destruct (eqb k' k0).
    + destruct (eqb k' k0) eqn:E'; [|done].
      apply eqb_eq in E' as ->; [|done..].
      by rewrite (eqb_sym_on k0 k), E.
Qed.

Lemma tally_snoc l k : tally eqb (l ++ [k]) = bump eqb k (tally eqb l).
Proof. unfold tally. by rewrite foldl_app. Qed.

Lemma count_of_tally k l :
  P k → Forall P l → count_of eqb k (tally eqb l) = occurrences eqb k l.
Proof.
  intros Hk. induction l as [|x l IH] using rev_ind; intros Hl; [done|].
  apply Forall_app in Hl as [Hl Hx%Forall_inv].
  rewrite tally_snoc, count_of_bump by auto using tally_keys.
  unfold occurrences in *. rewrite filter_app, length_app, <- IH by done.
  rewrite filter_cons, filter_nil. rewrite (eqb_sym_on k x) by done.
  destruct (eqb x k) eqn:E.
  - rewrite decide_True by done. simpl.
    apply eqb_eq in E as ->; [lia|done..].
  - rewrite decide_False by congruence. simpl. lia.
Qed.

Lemma bump_keys_NoDup k acc :
  P k → Forall (λ kn, P kn.1) acc → NoDup acc.*1 → NoDup (bump eqb k acc).*1.
Proof.
  intros Hk. induction 1 as [|[k0 n] acc Hk0 Hacc IH]; simpl.
  - intros _. apply NoDup_singleton.
  - rewrite NoDup_cons. intros [Hnin Hnd].
    destruct (eqb k k0) eqn:E; simpl.
    + by apply NoDup_cons.
    + apply NoDup_cons. split; [|by apply IH].
      intros Hin. apply Hnin. clear IH Hnd Hnin.
      induction Hacc as [|[k1 m] acc Hk1 Hacc IH]; simpl in *.
      * apply list_elem_of_singleton in Hin as ->.
        by rewrite eqb_refl_on in E.
      * destruct (eqb k k1); simpl in *; [done|].
        apply elem_of_cons in Hin as [->|Hin]; [by left|right; by apply IH].
Qed.

Lemma tally_keys_NoDup l : Forall P l → NoDup (tally eqb l).*1.
Proof.
  induction l as [|x l IH] using rev_ind; intros Hl; [constructor|].
  apply Forall_app in Hl as [Hl Hx%Forall_inv].
  rewrite tally_snoc. apply bump_keys_NoDup; auto using tally_keys.
Qed.

Lemma count_of_elem_of k n acc :
  P k → Forall (λ kn, P kn.1) acc → NoDup acc.*1 →
  (k, n) ∈ acc → count_of eqb k acc = n.
Proof.
  intros Hk. induction 1 as [|[k0 m] acc Hk0 Hacc IH]; simpl.
  - intros _ Hin. by apply not_elem_of_nil in Hin.
  - rewrite NoDup_cons. intros [Hnin Hnd] Hin.
    apply elem_of_cons in Hin as [[= -> ->]|Hin].
    + by rewrite eqb_refl_on.
    + destruct (eqb k k0) eqn:E; [|by apply IH].
      apply eqb_eq in E as ->; [|done..].
      destruct Hnin. apply list_elem_of_fmap. by exists (k0, n).
Qed.

(** The census: a key of the tally carries its number of occurrences. *)
Lemma tally_census k n l :
  Forall P l → (k, n) ∈ tally eqb l → n = occurrences eqb k l.
Proof.
  intros Hl Hin.
  assert (Hk : P k).
  { apply (proj1 (Forall_forall _ _) (tally_keys eqb P l Hl)) in Hin. done. }
  rewrite <- count_of_tally by done. symmetry.
  apply count_of_elem_of; auto using tally_keys, tally_keys_NoDup.
Qed.

End TallyCensus.

Lemma max_count_ge (counts : list (cell * nat)) k n :
  (k, n) ∈ counts → (n ≤ max_count counts)%nat.
Proof.
  induction counts as [|[k' m] counts IH]; simpl.
  - intros Hin. by apply not_elem_of_nil in Hin.
  - intros [[= -> ->]|Hin]%elem_of_cons; [lia|]. specialize (IH Hin). lia.
Qed.

Lemma max_count_attained (counts : list (cell * nat)) :
  counts ≠ [] → ∃ k, (k, max_count counts) ∈ counts.
Proof.
  induction counts as [|[k n] counts IH]; [done|]. intros _. simpl.
  destruct counts as [|kn counts].
  - exists k. simpl. rewrite Nat.max_0_r. by left.
  - destruct IH as [k' Hk']; [done|].
    destruct (Nat.max_spec n (max_count (kn :: counts))) as [[_ ->]|[_ ->]].
    + exists k'. by right.
    + exists k. by left.
Qed.

Lemma cell_eqb_str x y : is_str x → is_str y → cell_eqb x y = true ↔ x = y.
Proof.
  intros [s ->] [t ->]. simpl. rewrite bool_decide_eq_true. split; congruence.
Qed.

Lemma cell_eqb_Str c s : cell_eqb c (Str s) = true ↔ c = Str s.
Proof.
  destruct c; simpl; try (split; discriminate).
  rewrite bool_decide_eq_true. split; congruence.
Qed.

Lemma strings_of (l : list cell) : Forall is_str l → ∃ ss, l = Str <$> ss.
Proof.
  induction 1 as [|c l [s ->] _ [ss ->]].
  - by exists [].
  - by exists (s :: ss).
Qed.

(** C6: for a non-empty subset taken by the filter, the top crime type is a
    crime type whose count in [crime_counts] is the largest, the counts being
    the numbers of records of the subset per crime type; among the crime
    types with that count it is the first in ascending lexical order. *)
Theorem top_crime_type_is_least_mode df sel sub :
  filtered_df df sel = Ok sub →
  rows sub ≠ [] →
  ∃ c cc n,
    top_crime_type sub = Ok (Str c) ∧
    crime_counts sub = Ok cc ∧
    (∀ k m, (k, m) ∈ cc →
       ∃ s, k = Str s ∧
            m = length (filter (λ r, cellof r "ofns_desc" = Str s) (rows sub))) ∧
    (Str c, n) ∈ cc ∧
    (∀ k m, (k, m) ∈ cc →
       (m ≤ n)%nat ∧ (m = n → ∃ s, k = Str s ∧ String.le c s)).
Proof.
  intros Hsub Hne. apply filtered_df_Ok_inv in Hsub as [Hc ->].
  unfold has_columns, filter_columns in Hc. rewrite !Forall_cons in Hc.
  destruct Hc as (H1 & _). cbn [rows] in *.
  set (l := filter (passes sel) (rows df)) in *.
  set (col := map (λ r, cellof r "ofns_desc") l).
  assert (Hstr : Forall is_str col).
  { apply Forall_fmap, Forall_forall.
    intros r [[(s & Hs & _) _] _]%list_elem_of_filter. by exists s. }
  assert (Hall : filter (λ c, notna c) col = col).
  { apply filter_all, Forall_impl with (1 := Hstr). by intros c [s ->]. }
  set (counts := tally cell_eqb col).
  assert (Hkeys : Forall (λ kn : cell * nat, is_str kn.1) counts)
    by by apply tally_keys.
  assert (Hcounts : counts ≠ []).
  { intros Hnil. pose proof (total_tally cell_eqb col) as Ht.
    fold counts in Ht. rewrite Hnil in Ht. unfold col in Ht.
    rewrite length_map in Ht. by destruct l. }
  set (modes := (filter (λ kn : cell * nat, kn.2 = max_count counts) counts).*1).
  assert (Hmodes : ∀ k, k ∈ modes ↔ (k, max_count counts) ∈ counts).
  { intros k. unfold modes. rewrite list_elem_of_fmap. split.
    - intros ([k' m] & -> & [Hm Hin]%list_elem_of_filter). simpl in *.
      by subst m.
    - intros Hin. exists (k, max_count counts). split; [done|].
      by apply list_elem_of_filter. }
  destruct (strings_of modes) as [ms Hms].
  { apply Forall_forall. intros k Hk%Hmodes.
    exact (proj1 (Forall_forall _ _) Hkeys _ Hk). }
  assert (Hsorted : sort_values modes = Ok (Str <$> merge_sort String.le ms)).
  { unfold sort_values. rewrite (homogeneous_rank 1).
    - rewrite Hms. f_equal. symmetry.
      by apply (merge_sort_fmap Str String.le cell_le).
    - rewrite Hms. apply Forall_fmap, Forall_forall. by intros. }
  destruct (merge_sort String.le ms) as [|c rest] eqn:Hsort.
  { destruct (max_count_attained counts Hcounts) as [k Hk%Hmodes].
    pose proof (merge_sort_Permutation String.le ms) as Hperm.
    rewrite Hsort in Hperm. apply Permutation_nil_l in Hperm. subst ms.
    rewrite Hms in Hk. by apply not_elem_of_nil in Hk. }
  apply merge_sort_head in Hsort as [Hcin Hleast].
  assert (Hperm : value_counts col ≡ₚ counts).
  { unfold value_counts. rewrite Hall. apply stable_sort_Permutation. }
  exists c, (value_counts col), (max_count counts).
  split; [|split; [|split; [|split]]].
  - unfold top_crime_type, most_common_crime.
    rewrite (getitem_Ok _ "ofns_desc") by done. rewrite !bind_Ok.
    cbn [rows]. fold l col. unfold mode. rewrite Hall. fold counts modes.
    by rewrite Hsorted.
  - unfold crime_counts. by rewrite (getitem_Ok _ "ofns_desc").
  - intros k m Hin. rewrite Hperm in Hin.
    destruct (proj1 (Forall_forall _ _) Hkeys _ Hin) as [s Hs].
    simpl in Hs. subst k. exists s. split; [done|].
    rewrite (tally_census cell_eqb is_str cell_eqb_str _ _ _ Hstr Hin).
    unfold occurrences, col.
    rewrite (filter_map_commute _ _ (λ r, cellof r "ofns_desc" = Str s)).
    + by rewrite length_map.
    + intros r. apply cell_eqb_Str.
  - rewrite Hperm. apply Hmodes. rewrite Hms. by apply list_elem_of_fmap_2.
  - intros k m Hin. rewrite Hperm in Hin. split.
    + by eapply max_count_ge.
    + intros ->. apply Hmodes in Hin. rewrite Hms in Hin.
      apply list_elem_of_fmap in Hin as (s & -> & Hs). eauto.
Qed.

Lemma top_crime_type_is_least_mode_witness :
  ∃ sub, filtered_df (loaded iso_timestamp raw_sample) january = Ok sub ∧
    rows sub ≠ [] ∧ top_crime_type sub = Ok (Str "THEFT-FRAUD").
Proof.
  eexists. split; [vm_compute; reflexivity|]. split; [discriminate|].
  match goal with |- top_crime_type ?sub = _ =>
    destruct (top_crime_type_is_least_mode
                (loaded iso_timestamp raw_sample) january sub)
      as (c & cc & n & Htop & _)
  end.
  - vm_compute. reflexivity.
  - discriminate.
  - rewrite Htop. vm_compute in Htop. congruence.
Defined.

(** ** The table is never written *)

Example color_to_rgb_names :
  traverse (color_to_rgb ascii_int (λ s, ascii_digit_runs s EmptyString)
              ascii_lower) ["red"; "Olive"; "#ff8000"; "rgb(1, 20, 255)"; "teal"]
  = Ok [[255; 0; 0]; [128; 128; 0]; [255; 128; 0]; [1; 20; 255]; [255; 0; 0]].
Proof. vm_compute. reflexivity. Qed.

Lemma stable_refl n h : stable n h h.
Proof. by split. Qed.

Lemma stable_trans n h1 h2 h3 : stable n h1 h2 → stable n h2 h3 → stable n h1 h3.
Proof.
  intros [Hl1 H1] [Hl2 H2]. split; [lia|].
  intros l Hl. by rewrite H2, H1.
Qed.

Lemma safe_ret {A} n (a : A) (Q : A → Prop) : Q a → safe n (mret a) Q.
Proof.
  intros Ha h Hn. split; [apply stable_refl|]. simpl. by intros ? [= <-].
Qed.

Lemma safe_bind {A B} n (m : M A) (k : A → M B) (Q : A → Prop) (Q' : B → Prop) :
  safe n m Q → (∀ a, Q a → safe n (k a) Q') → safe n (m ≫= k) Q'.
Proof.
  intros Hm Hk h Hn. destruct (Hm h Hn) as [Hst HQ].
  unfold mbind, M_bind. destruct (m h) as [[a|e] h1] eqn:Hmh; simpl in *.
  - destruct (Hk a (HQ a eq_refl) h1) as [Hst' HQ'].
    { destruct Hst. lia. }
    split; [by eapply stable_trans|done].
  - split; [done|]. discriminate.
Qed.

Lemma safe_weaken {A} n (m : M A) (Q Q' : A → Prop) :
  safe n m Q → (∀ a, Q a → Q' a) → safe n m Q'.
Proof. intros Hm HQ h Hn. destruct (Hm h Hn). split; auto. Qed.

Lemma safe_lift {A} n (m : result A) : safe n (lift m) (λ _, True).
Proof. intros h Hn. split; [apply stable_refl|done]. Qed.

Lemma safe_frame n r : safe n (frame r) (λ _, True).
Proof.
  intros h Hn. unfold frame.
  destruct (h !! r); simpl; (split; [apply stable_refl|done]).
Qed.

Lemma safe_new n df : safe n (new df) (λ r, (n ≤ r)%nat).
Proof.
  intros h Hn. unfold new. simpl. split.
  - split; [rewrite length_app; lia|].
    intros l Hl. apply lookup_app_l. lia.
  - by intros ? [= <-].
Qed.

Lemma safe_update n r df : (n ≤ r)%nat → safe n (update r df) (λ _, True).
Proof.
  intros Hr h Hn. unfold update. simpl. split; [|done].
  split; [by rewrite length_insert|].
  intros l Hl. apply list_lookup_insert_ne. lia.
Qed.

Lemma safe_copy n r : safe n (copy r) (λ r', (n ≤ r')%nat).
Proof.
  unfold copy. eapply safe_bind; [apply safe_frame|].
  intros df _. apply safe_new.
Qed.

Lemma safe_assign n r c vals : (n ≤ r)%nat → safe n (assign r c vals) (λ _, True).
Proof.
  intros Hr. unfold assign. eapply safe_bind; [apply safe_frame|].
  intros df _. eapply safe_bind; [apply safe_lift|].
  intros df' _. by apply safe_update.
Qed.

Section ScriptFacts.

Variable py_int : string → Z → option Z.
Variable findall_digits : string → list string.
Variable lower : string → string.
Variable mean : list float → float.

Lemma safe_run_filtered_df n table sel :
  safe n (run_filtered_df table sel) (λ r, (n ≤ r)%nat).
Proof.
  unfold run_filtered_df. eapply safe_bind; [apply safe_frame|].
  intros df _. eapply safe_bind; [apply safe_lift|].
  intros sub _. eapply safe_bind; [apply safe_new|].
  intros selected _. apply safe_copy.
Qed.

Lemma safe_add_colors n filtered :
  (n ≤ filtered)%nat →
  safe n (add_colors py_int findall_digits lower filtered) (λ _, True).
Proof.
  intros Hr. unfold add_colors. eapply safe_bind; [apply safe_frame|].
  intros sub _. eapply safe_bind; [apply safe_lift|].
  intros crime _. eapply safe_bind; [apply safe_lift|].
  intros rgb _. by apply safe_assign.
Qed.

Lemma safe_run_monthly_data n table sel :
  safe n (run_monthly_data table sel) (λ _, True).
Proof.
  unfold run_monthly_data. eapply safe_bind; [apply safe_frame|].
  intros df _. eapply safe_bind; [apply safe_lift|].
  intros trend _. eapply safe_weaken; [apply safe_new|done].
Qed.

Lemma safe_map_center n filtered :
  safe n (map_center mean filtered) (λ _, True).
Proof.
  unfold map_center. eapply safe_bind; [apply safe_frame|].
  intros sub _. case_bool_decide; [|by apply safe_ret].
  eapply safe_bind; [apply safe_lift|].
  intros lat _. eapply safe_bind; [apply safe_lift|].
  intros lon _. by apply safe_ret.
Qed.

Lemma safe_dashboard n table sel show_trend :
  safe n (dashboard py_int findall_digits lower mean table sel show_trend)
       (λ v, (n ≤ view_filtered v)%nat).
Proof.
  unfold dashboard. eapply safe_bind; [apply safe_run_filtered_df|].
  intros filtered Hr. eapply safe_bind; [apply safe_frame|].
  intros sub _. eapply safe_bind; [apply safe_lift|].
  intros top _. eapply safe_bind with (Q := λ _, True).
  { destruct (empty sub); [by apply safe_ret|].
    eapply safe_bind; [by apply safe_add_colors|].
    intros _ _. eapply safe_bind; [apply safe_map_center|].
    intros center _. eapply safe_bind; [apply safe_frame|].
    intros sub' _. eapply safe_bind; [apply safe_lift|].
    intros cc _. eapply safe_bind; [apply safe_lift|].
    intros hc _. eapply safe_bind with (Q := λ _, True).
    { case_bool_decide; [|by apply safe_ret].
      eapply safe_bind; [apply safe_lift|]. intros bc _. by apply safe_ret. }
    intros bc _. eapply safe_bind with (Q := λ _, True).
    { destruct show_trend; [|by apply safe_ret].
      eapply safe_bind; [apply safe_run_monthly_data|].
      intros t _. eapply safe_bind; [apply safe_frame|].
      intros trend _. by apply safe_ret. }
    intros tr _. by apply safe_ret. }
  intros shown _. eapply safe_bind; [apply safe_frame|].
  intros df _. eapply safe_bind; [apply safe_frame|].
  intros sub' _. eapply safe_bind; [apply safe_lift|].
  intros dates _. eapply safe_bind; [apply safe_lift|].
  intros first _. eapply safe_bind; [apply safe_lift|].
  intros final _. by apply safe_ret.
Qed.

(** C9: the filter puts its result into a new object, and a run of the
    script, colour column included, leaves the table and every other object
    of the store as it was, whether the run ends or raises. *)
Theorem dashboard_leaves_table_unchanged h table df sel show_trend :
  h !! table = Some df →
  (run_filtered_df table sel h).2 !! table = Some df ∧
  (∀ r, (run_filtered_df table sel h).1 = Ok r → r ≠ table ∧ h !! r = None) ∧
  let run := dashboard py_int findall_digits lower mean table sel show_trend h in
  run.2 !! table = Some df ∧
  (∀ l d, h !! l = Some d → run.2 !! l = Some d) ∧
  (∀ v, run.1 = Ok v → view_filtered v ≠ table ∧ h !! view_filtered v = None).
Proof.
  intros Htable.
  assert (Hlt : (table < length h)%nat) by by eapply lookup_lt_Some.
  destruct (safe_run_filtered_df (length h) table sel h) as [[_ Hf] Hfr]; [done|].
  destruct (safe_dashboard (length h) table sel show_trend h)
    as [[_ Hd] Hdr]; [done|].
  split; [by rewrite Hf|]. split.
  { intros r Hr%Hfr. split; [lia|]. by apply lookup_ge_None. }
  simpl. split; [by rewrite Hd|]. split.
  - intros l d Hl. rewrite Hd; [done|]. by eapply lookup_lt_Some.
  - intros v Hv%Hdr. split; [lia|]. by apply lookup_ge_None.
Qed.

(** The run on a selection that matches no record: no charts, the
    placeholder as top crime type, and the counters of the summary; the date
    range is the one of the table. *)
Lemma dashboard_empty_selection h table df sel show_trend first final :
  h !! table = Some df →
  has_columns df filter_columns →
  (∀ r, r ∈ rows df → ¬ passes sel r) →
  (getitem df "arrest_date" ≫= λ dates, series_min dates ≫= strftime_date)
    = Ok first →
  (getitem df "arrest_date" ≫= λ dates, series_max dates ≫= strftime_date)
    = Ok final →
  (dashboard py_int findall_digits lower mean table sel show_trend h).1 =
    Ok {| view_filtered := S (length h); view_top := Str "N/A";
          view_charts := None; view_total := length (rows df);
          view_shown := 0; view_dates := (first, final) |}.
Proof.
  intros Htable Hc Hnone Hfirst Hfinal.
  assert (Hrows : filter (passes sel) (rows df) = []).
  { induction (rows df) as [|r l IH]; [done|].
    rewrite filter_cons, decide_False by (apply Hnone; left).
    apply IH. intros r' Hr'. apply Hnone. by right. }
  assert (H1 : "ofns_desc" ∈ columns df).
  { unfold has_columns, filter_columns in Hc. by apply Forall_cons in Hc as [? _]. }
  apply bind_Ok_inv in Hfirst as (dates & Hdates & Hfirst).
  rewrite Hdates, bind_Ok in Hfinal.
  set (sub := {| columns := columns df; rows := [] |}).
  assert (Hl1 : (h ++ [sub]) !! table = Some df).
  { rewrite lookup_app_l; [done|]. by eapply lookup_lt_Some. }
  assert (Hl2 : (h ++ [sub]) !! length h = Some sub).
  { by rewrite lookup_app_r, Nat.sub_diag. }
  assert (Hl3 : ((h ++ [sub]) ++ [sub]) !! S (length h) = Some sub).
  { rewrite lookup_app_r; rewrite length_app; simpl; [|lia].
    by replace (S (length h) - (length h + 1))%nat with 0%nat by lia. }
  assert (Hl4 : ((h ++ [sub]) ++ [sub]) !! table = Some df).
  { rewrite lookup_app_l; [done|]. by eapply lookup_lt_Some. }
  unfold dashboard, run_filtered_df, copy, new, frame, lift.
  unfold mbind, M_bind, mret, M_ret.
  rewrite Htable, (filtered_df_Ok _ _ Hc), Hrows. fold sub.
  rewrite Hl2. rewrite length_app. simpl length.
  replace (length h + 1)%nat with (S (length h)) by lia.
  rewrite Hl3.
  unfold top_crime_type, most_common_crime.
  rewrite (getitem_Ok sub "ofns_desc") by done. simpl.
  unfold mbind in Hfirst, Hfinal.
  rewrite Hl4, Hl3, Hdates, Hfirst, Hfinal. done.
Qed.

End ScriptFacts.

Example sample_run :
  let run := dashboard ascii_int (λ s, ascii_digit_runs s EmptyString)
               ascii_lower sample_mean 0%nat january true sample_heap in
  (λ v, (view_filtered v, view_top v, view_total v, view_shown v, view_dates v))
    <$> run.1 = Ok (2%nat, Str "THEFT-FRAUD", 3%nat, 3%nat,
                    ((2020, 1, 3), (2020, 1, 20))) ∧
  (λ df, map (the_cells ["ofns_desc"; "color"]) (rows df)) <$> run.2 !! 2%nat
    = Some [[Str "ROBBERY"; Rgb [255; 0; 0]];
            [Str "THEFT-FRAUD"; Rgb [0; 0; 255]];
            [Str "THEFT-FRAUD"; Rgb [0; 0; 255]]] ∧
  columns <$> run.2 !! 0%nat = Some (columns (loaded iso_timestamp raw_sample)).
Proof. vm_compute. repeat split; reflexivity. Qed.

Lemma dashboard_leaves_table_unchanged_witness :
  sample_heap !! 0%nat = Some (loaded iso_timestamp raw_sample) ∧
  (dashboard ascii_int (λ s, ascii_digit_runs s EmptyString) ascii_lower
     sample_mean 0%nat january true sample_heap).2 !! 0%nat
  = Some (loaded iso_timestamp raw_sample).
Proof.
  split; [reflexivity|].
  exact (proj1 (proj2 (proj2 (dashboard_leaves_table_unchanged
    ascii_int (λ s, ascii_digit_runs s EmptyString) ascii_lower sample_mean
    sample_heap 0%nat (loaded iso_timestamp raw_sample) january true
    eq_refl)))).
Defined.

(** * Further properties *)

(** ** The loaded table *)

Lemma load_data_Ok_inv to_timestamp raw df :
  load_data to_timestamp (Some raw) = Ok (Some df) →
  df = loaded to_timestamp raw ∧
  "arrest_date" ∈ columns raw ∧ "latitude" ∈ columns raw ∧
  "longitude" ∈ columns raw.
Proof.
  unfold load_data. rewrite preprocess_outcome.
  case_bool_decide as Hd; [|discriminate].
  destruct (to_datetime _ _); [|discriminate].
  destruct (filter _ _) eqn:Hmiss; [|discriminate].
  intros [= <-]. split; [done|]. split; [done|].
  rewrite !filter_cons, filter_nil in Hmiss.
  destruct (decide ("latitude" ∉ columns raw)) as [|Hlat%dec_stable];
    [discriminate|].
  destruct (decide ("longitude" ∉ columns raw)) as [|Hlon%dec_stable];
    [discriminate|].
  done.
Qed.

Lemma usable_insert_ne (r : gmap string cell) c v :
  c ≠ "latitude" → c ≠ "longitude" → usable (<[c := v]> r) ↔ usable r.
Proof. intros. unfold usable. by rewrite !cellof_insert_ne. Qed.

Lemma usable_loaded_row to_timestamp r :
  usable (time_features (converted to_timestamp r)) ↔ usable r.
Proof.
  unfold time_features, converted. by rewrite !usable_insert_ne.
Qed.

(** X1: every record of a loaded table has a latitude and a longitude, and
    neither of them is zero. *)
Theorem loaded_rows_have_position to_timestamp raw df :
  load_data to_timestamp (Some raw) = Ok (Some df) →
  ∀ r, r ∈ rows df →
    notna (cellof r "latitude") ∧ notna (cellof r "longitude") ∧
    cell_eq_int (cellof r "latitude") 0 = false ∧
    cell_eq_int (cellof r "longitude") 0 = false.
Proof.
  intros [-> _]%load_data_Ok_inv r Hr. simpl in Hr.
  apply list_elem_of_fmap in Hr as (r0 & -> & [Hu _]%list_elem_of_filter).
  apply (usable_loaded_row to_timestamp) in Hu.
  destruct Hu as (H1 & H2 & H3 & H4). rewrite equals_int_spec in H3, H4.
  repeat split; [done|done|by apply not_true_is_false..].
Qed.

Lemma loaded_rows_have_position_witness :
  load_data iso_timestamp (Some raw_sample) =
    Ok (Some (loaded iso_timestamp raw_sample)) ∧
  Forall (λ r, notna (cellof r "latitude") ∧ notna (cellof r "longitude"))
         (rows (loaded iso_timestamp raw_sample)).
Proof.
  assert (H : load_data iso_timestamp (Some raw_sample) =
                Ok (Some (loaded iso_timestamp raw_sample))).
  { vm_compute. reflexivity. }
  split; [exact H|]. apply Forall_forall. intros r Hr.
  destruct (loaded_rows_have_position iso_timestamp raw_sample _ H r Hr)
    as (H1 & H2 & _).
  split; assumption.
Defined.

Lemma loaded_row_date to_timestamp r :
  cellof (time_features (converted to_timestamp r)) "arrest_date" =
    parsed to_timestamp (cellof r "arrest_date").
Proof.
  unfold time_features, converted.
  rewrite !cellof_insert_ne by done. apply cellof_insert_eq.
Qed.

Lemma loaded_row_feature to_timestamp r c f :
  c ∈ ["year"; "month"; "month_name"; "day_of_week"; "hour"] →
  f = match c with
      | "year" => λ t, Int (ts_year t)
      | "month" => λ t, Int (ts_month t)
      | "month_name" => month_name
      | "day_of_week" => day_name
      | _ => λ t, Int (ts_hour t)
      end →
  cellof (time_features (converted to_timestamp r)) c =
    match parsed to_timestamp (cellof r "arrest_date") with
    | Time t => f t
    | _ => Null
    end.
Proof.
  intros Hc ->. unfold time_features.
  assert (Hd : cellof (converted to_timestamp r) "arrest_date" =
               parsed to_timestamp (cellof r "arrest_date")).
  { unfold converted. apply cellof_insert_eq. }
  unfold feature. rewrite Hd.
  repeat (apply elem_of_cons in Hc as [->|Hc]);
    [..|by apply not_elem_of_nil in Hc];
    rewrite ?cellof_insert_eq;
    repeat (rewrite cellof_insert_ne by done; rewrite ?cellof_insert_eq);
    reflexivity.
Qed.

(** The time fields of the rows of a loaded table. *)
Lemma loaded_fields to_timestamp raw df :
  df = loaded to_timestamp raw →
  ∀ r, r ∈ rows df →
    (∃ t, cellof r "arrest_date" = Time t ∧
          cellof r "year" = Int (ts_year t) ∧
          cellof r "month" = Int (ts_month t) ∧
          cellof r "month_name" = month_name t ∧
          cellof r "day_of_week" = day_name t ∧
          cellof r "hour" = Int (ts_hour t)) ∨
    (cellof r "arrest_date" = Null ∧ cellof r "year" = Null ∧
     cellof r "month" = Null ∧ cellof r "month_name" = Null ∧
     cellof r "day_of_week" = Null ∧ cellof r "hour" = Null).
Proof.
  intros -> r Hr. simpl in Hr.
  apply list_elem_of_fmap in Hr as (r0 & -> & _).
  rewrite loaded_row_date.
  rewrite (loaded_row_feature _ _ "year" _ ltac:(set_solver) eq_refl).
  rewrite (loaded_row_feature _ _ "month" _ ltac:(set_solver) eq_refl).
  rewrite (loaded_row_feature _ _ "month_name" _ ltac:(set_solver) eq_refl).
  rewrite (loaded_row_feature _ _ "day_of_week" _ ltac:(set_solver) eq_refl).
  rewrite (loaded_row_feature _ _ "hour" _ ltac:(set_solver) eq_refl).
  unfold parsed. destruct (isna (cellof r0 "arrest_date")).
  { right. done. }
  destruct (to_timestamp (cellof r0 "arrest_date")) as [t|].
  - left. exists t. done.
  - right. done.
Qed.


(** X2: in a loaded table the five time fields go with the date of the
    record: a record with a date has the year, month, month name, day name
    and hour of that date, and a record without a date has none of them. *)
Theorem loaded_time_fields to_timestamp raw df :
  load_data to_timestamp (Some raw) = Ok (Some df) →
  ∀ r, r ∈ rows df →
    (∃ t, cellof r "arrest_date" = Time t ∧
          cellof r "year" = Int (ts_year t) ∧
          cellof r "month" = Int (ts_month t) ∧
          cellof r "month_name" = month_name t ∧
          cellof r "day_of_week" = day_name t ∧
          cellof r "hour" = Int (ts_hour t)) ∨
    (cellof r "arrest_date" = Null ∧ cellof r "year" = Null ∧
     cellof r "month" = Null ∧ cellof r "month_name" = Null ∧
     cellof r "day_of_week" = Null ∧ cellof r "hour" = Null).
Proof.
  intros Hload r Hr. apply load_data_Ok_inv in Hload as [Hdf _].
  by apply (loaded_fields to_timestamp raw df).
Qed.

Lemma loaded_time_fields_witness :
  load_data iso_timestamp (Some raw_sample) =
    Ok (Some (loaded iso_timestamp raw_sample)) ∧
  Forall (λ r, (∃ t, cellof r "arrest_date" = Time t ∧
                     cellof r "hour" = Int (ts_hour t)) ∨
               cellof r "hour" = Null)
         (rows (loaded iso_timestamp raw_sample)).
Proof.
  assert (H : load_data iso_timestamp (Some raw_sample) =
                Ok (Some (loaded iso_timestamp raw_sample))).
  { vm_compute. reflexivity. }
  split; [exact H|]. apply Forall_forall. intros r Hr.
  destruct (loaded_time_fields iso_timestamp raw_sample _ H r Hr)
    as [(t & Hd & _ & _ & _ & _ & Hh)|(_ & _ & _ & _ & _ & Hh)].
  - left. exists t. split; assumption.
  - right. assumption.
Defined.

Lemma elem_of_feature_columns cols c : c ∈ cols → c ∈ feature_columns cols.
Proof.
  intros. unfold feature_columns. simpl. by do 5 apply elem_of_add_column.
Qed.

(** X3: loading leaves every other column as it is: a column of the source
    other than the date and the five time fields is, in the loaded table,
    that column of the rows with a usable position, in the order of the
    source. *)
Theorem load_data_keeps_other_columns to_timestamp raw df c :
  load_data to_timestamp (Some raw) = Ok (Some df) →
  c ∈ columns raw →
  c ∉ ["arrest_date"; "year"; "month"; "month_name"; "day_of_week"; "hour"] →
  getitem df c = Ok (map (λ r, cellof r c) (filter usable (rows raw))).
Proof.
  intros [-> _]%load_data_Ok_inv Hc Hother.
  rewrite getitem_Ok by by apply elem_of_feature_columns.
  simpl. rewrite map_map. f_equal. apply map_ext. intros r.
  unfold time_features, converted.
  rewrite !cellof_insert_ne; [done|set_solver..].
Qed.

Lemma load_data_keeps_other_columns_witness :
  getitem (loaded iso_timestamp raw_sample) "ofns_desc" =
    Ok (map (λ r, cellof r "ofns_desc") (filter usable (rows raw_sample))).
Proof.
  apply (load_data_keeps_other_columns iso_timestamp raw_sample).
  - vm_compute. reflexivity.
  - apply (bool_decide_unpack _). vm_compute. exact I.
  - apply (bool_decide_unpack _). vm_compute. exact I.
Defined.

(** [pd.to_datetime] raises exactly when a value that is present is
    rejected, and then a [ValueError]. *)
Lemma to_datetime_error to_timestamp s e :
  to_datetime to_timestamp s = Raise e →
  e = ValueError ∧ ∃ c, c ∈ s ∧ isna c = false ∧ to_timestamp c = None.
Proof.
  unfold to_datetime. induction s as [|c s IH]; simpl; [discriminate|].
  destruct (isna c) eqn:Hna; [|destruct (to_timestamp c) as [t|] eqn:Ht]; simpl.
  - destruct (traverse _ s) as [ts|e']; simpl; [discriminate|].
    intros [= ->]. destruct (IH eq_refl) as (He & c' & Hc' & H').
    split; [done|]. exists c'. split; [by right|done].
  - destruct (traverse _ s) as [ts|e']; simpl; [discriminate|].
    intros [= ->]. destruct (IH eq_refl) as (He & c' & Hc' & H').
    split; [done|]. exists c'. split; [by right|done].
  - intros [= <-]. split; [done|]. exists c. split; [by left|done].
Qed.

Lemma to_datetime_rejects to_timestamp s c :
  c ∈ s → isna c = false → to_timestamp c = None →
  to_datetime to_timestamp s = Raise ValueError.
Proof.
  intros Hc Hna Hbad. unfold to_datetime.
  induction s as [|d s IH]; [by apply not_elem_of_nil in Hc|]. simpl.
  apply elem_of_cons in Hc as [<-|Hc].
  - by rewrite Hna, Hbad.
  - rewrite (IH Hc). destruct (isna d); [done|].
    by destruct (to_timestamp d).
Qed.

(** X4: a date that pandas cannot read aborts the whole load: on a source
    with the date column, [load_data] raises [ValueError] (it catches
    [FileNotFoundError] only) exactly when some row has a date that is
    present and rejected, whatever the coordinates of the row and whatever
    the other rows are. *)
Theorem load_data_rejects_unreadable_date to_timestamp raw :
  "arrest_date" ∈ columns raw →
  load_data to_timestamp (Some raw) = Raise ValueError ↔
  ∃ r, r ∈ rows raw ∧ isna (cellof r "arrest_date") = false ∧
       to_timestamp (cellof r "arrest_date") = None.
Proof.
  intros Hd. unfold load_data. rewrite preprocess_outcome.
  rewrite bool_decide_eq_true_2 by done. split.
  - destruct (to_datetime _ _) as [ts|e] eqn:Hts.
    { destruct (filter _ _); discriminate. }
    apply to_datetime_error in Hts as (-> & c & Hc & Hna & Hbad). intros _.
    apply list_elem_of_fmap in Hc as (r & -> & Hr). by exists r.
  - intros (r & Hr & Hna & Hbad).
    rewrite (to_datetime_rejects _ _ (cellof r "arrest_date")); [done| |done..].
    apply list_elem_of_fmap. by exists r.
Qed.

Lemma load_data_rejects_unreadable_date_witness :
  load_data iso_timestamp (Some raw_unreadable_date) = Raise ValueError.
Proof.
  apply (load_data_rejects_unreadable_date iso_timestamp raw_unreadable_date).
  - apply (bool_decide_unpack _). vm_compute. exact I.
  - exists (raw_row "yesterday" Null Null "ROBBERY" "K").
    split; [right; left|]. split; vm_compute; reflexivity.
Defined.

(** X5: a record without a date is loaded but no selection shows it: every
    record the filter takes from a loaded table has a date, in the selected
    month of the selected year. *)
Theorem filtered_records_have_dates to_timestamp raw df sel sub :
  load_data to_timestamp (Some raw) = Ok (Some df) →
  filtered_df df sel = Ok sub →
  ∀ r, r ∈ rows sub →
    ∃ t, cellof r "arrest_date" = Time t ∧
         ts_month t = selected_month sel ∧ ts_year t = selected_year sel.
Proof.
  intros Hload [_ ->]%filtered_df_Ok_inv r [Hp Hr]%list_elem_of_filter.
  destruct (loaded_fields _ _ _ (proj1 (load_data_Ok_inv _ _ _ Hload)) r Hr)
    as [(t & Hd & Hy & Hm & _)|(_ & _ & Hm & _)].
  - destruct Hp as (_ & Hpm & Hpy & _). rewrite Hm in Hpm. rewrite Hy in Hpy.
    apply equals_int_Int in Hpm, Hpy. eauto.
  - destruct Hp as (_ & Hpm & _). rewrite Hm in Hpm.
    by apply equals_int_Null in Hpm.
Qed.

Lemma filtered_records_have_dates_witness :
  ∃ sub, filtered_df (loaded iso_timestamp raw_sample) january = Ok sub ∧
    ∀ r, r ∈ rows sub → ∃ t, cellof r "arrest_date" = Time t ∧
                              ts_month t = 1 ∧ ts_year t = 2020.
Proof.
  eexists. split; [vm_compute; reflexivity|].
  apply (filtered_records_have_dates iso_timestamp raw_sample
           (loaded iso_timestamp raw_sample) january);
    vm_compute; reflexivity.
Defined.

(** X6: an upload that has the date column is cleaned as arrests.csv is:
    the table the session gets from it has the five time columns added and
    consists of the usable rows of the upload, in their order, each with its
    date converted and its time fields; it is the table [load_data] gives
    for a file with that content. *)
Theorem upload_is_loaded_like_arrests_csv to_timestamp raw df :
  "arrest_date" ∈ columns raw →
  startup to_timestamp None (Some raw) = Ok (Table df) →
  columns df = feature_columns (columns raw) ∧
  rows df = map (λ r, time_features (converted to_timestamp r))
                (filter usable (rows raw)) ∧
  load_data to_timestamp (Some raw) = Ok (Some df).
Proof.
  intros Hd. unfold startup, load_data. simpl.
  rewrite bool_decide_eq_true_2 by done. rewrite preprocess_outcome.
  rewrite bool_decide_eq_true_2 by done.
  destruct (to_datetime _ _) as [ts|e]; [|discriminate].
  destruct (filter _ _); [|discriminate].
  simpl. by intros [= <-].
Qed.

Lemma upload_is_loaded_like_arrests_csv_witness :
  startup iso_timestamp None (Some raw_sample) =
    Ok (Table (loaded iso_timestamp raw_sample)) ∧
  map (the_cells ["ofns_desc"; "month"; "hour"])
      (rows (loaded iso_timestamp raw_sample)) =
    [[Str "ROBBERY"; Int 1; Int 10]; [Str "THEFT-FRAUD"; Int 1; Int 23];
     [Str "THEFT-FRAUD"; Int 1; Int 10]].
Proof.
  assert (H : startup iso_timestamp None (Some raw_sample) =
                Ok (Table (loaded iso_timestamp raw_sample))).
  { vm_compute. reflexivity. }
  split; [exact H|].
  destruct (upload_is_loaded_like_arrests_csv iso_timestamp raw_sample _
              ltac:(apply (bool_decide_unpack _); vm_compute; exact I) H)
    as (_ & -> & _).
  vm_compute. reflexivity.
Defined.

(** ** Filters composed *)

(** Whether the filter raises, and what, depends on the table only. *)
Lemma filtered_df_Raise df s1 s2 e :
  filtered_df df s1 = Raise e → filtered_df df s2 = Raise e.
Proof.
  unfold filtered_df.
  destruct (getitem df "ofns_desc"); [|done]. rewrite !bind_Ok.
  destruct (getitem df "month"); [|done]. rewrite !bind_Ok.
  destruct (getitem df "year"); [|done]. rewrite !bind_Ok.
  destruct (getitem df "arrest_boro"); [|done]. done.
Qed.

Lemma filtered_df_twice df s1 s2 :
  has_columns df filter_columns →
  (filtered_df df s1 ≫= λ a, filtered_df a s2) =
    Ok {| columns := columns df;
          rows := filter (λ r, passes s2 r ∧ passes s1 r) (rows df) |}.
Proof.
  intros Hc. rewrite (filtered_df_Ok _ _ Hc), bind_Ok.
  rewrite filtered_df_Ok by done. simpl. by rewrite list_filter_filter.
Qed.

(** X7: two filters applied one after the other give the same result in
    either order, and raise the same error when the table lacks a column. *)
Theorem filtered_df_commute df s1 s2 :
  (filtered_df df s1 ≫= λ a, filtered_df a s2) =
  (filtered_df df s2 ≫= λ b, filtered_df b s1).
Proof.
  destruct (filtered_df df s1) as [a|e] eqn:H1.
  - apply filtered_df_Ok_inv in H1 as [Hc ->].
    rewrite <- (filtered_df_Ok _ s1 Hc).
    rewrite !filtered_df_twice by done. f_equal. f_equal.
    apply list_filter_iff. tauto.
  - rewrite (filtered_df_Raise _ _ s2 _ H1). done.
Qed.

(** X8: narrowing a selection can be done on the result: when a selection
    has the month and year of a wider one and its crime types and boroughs
    are among those of the wider one, filtering the wider result gives what
    filtering the table gives, a subsequence of the wider result. *)
Theorem filtered_df_narrowing df wide narrow :
  selected_crimes narrow ⊆ selected_crimes wide →
  selected_boroughs narrow ⊆ selected_boroughs wide →
  selected_month narrow = selected_month wide →
  selected_year narrow = selected_year wide →
  (filtered_df df wide ≫= λ b, filtered_df b narrow) = filtered_df df narrow ∧
  ∀ a b, filtered_df df narrow = Ok a → filtered_df df wide = Ok b →
         sublist (rows a) (rows b).
Proof.
  intros Hcr Hbo Hm Hy.
  assert (Himp : ∀ r, passes narrow r → passes wide r).
  { intros r ((s & Hs & Hin) & H2 & H3 & (b & Hb & Hbin)). repeat split.
    - exists s. split; [done|]. by apply Hcr.
    - by rewrite <- Hm.
    - by rewrite <- Hy.
    - exists b. split; [done|]. by apply Hbo. }
  assert (Heq : ∀ l : list (gmap string cell),
            filter (passes narrow) (filter (passes wide) l) =
            filter (passes narrow) l).
  { intros l. rewrite list_filter_filter. apply list_filter_iff.
    intros r. split; [tauto|]. intros Hp. split; [done|]. by apply Himp. }
  split.
  - destruct (filtered_df df wide) as [b|e] eqn:Hw.
    + apply filtered_df_Ok_inv in Hw as [Hc ->].
      rewrite bind_Ok, !filtered_df_Ok by done. simpl. by rewrite Heq.
    + by rewrite (filtered_df_Raise _ _ narrow _ Hw).
  - intros a b [_ ->]%filtered_df_Ok_inv [_ ->]%filtered_df_Ok_inv. simpl.
    rewrite <- Heq. apply sublist_filter.
Qed.

Lemma filtered_df_narrowing_witness :
  (filtered_df (loaded iso_timestamp raw_sample) january
     ≫= λ b, filtered_df b january_robbery) =
  filtered_df (loaded iso_timestamp raw_sample) january_robbery.
Proof.
  refine (proj1 (filtered_df_narrowing (loaded iso_timestamp raw_sample)
                   january january_robbery _ _ eq_refl eq_refl)).
  - apply (bool_decide_unpack _). vm_compute. exact I.
  - apply (bool_decide_unpack _). vm_compute. exact I.
Defined.

(** ** The charts *)

Section TallyCover.
Context {K : Type} (eqb : K → K → bool) (P : K → Prop).
Hypothesis eqb_eq : ∀ x y, P x → P y → (eqb x y = true ↔ x = y).

Lemma bump_positive k acc :
  Forall (λ kn : K * nat, (0 < kn.2)%nat) acc →
  Forall (λ kn : K * nat, (0 < kn.2)%nat) (bump eqb k acc).
Proof.
  induction 1 as [|[k' n] acc Hn Hacc IH]; simpl.
  - repeat constructor.
  - destruct (eqb k k'); constructor; simpl in *; [lia|done..].
Qed.

Lemma tally_positive l : Forall (λ kn : K * nat, (0 < kn.2)%nat) (tally eqb l).
Proof.
  induction l as [|x l IH] using rev_ind; [constructor|].
  rewrite tally_snoc. by apply bump_positive.
Qed.

Lemma bump_keeps_keys k k' acc : k' ∈ acc.*1 → k' ∈ (bump eqb k acc).*1.
Proof.
  induction acc as [|[k0 n] acc IH]; simpl.
  - intros Hin. by apply not_elem_of_nil in Hin.
  - intros [->|Hin]%elem_of_cons; destruct (eqb k k0); simpl.
    + by left.
    + by left.
    + by right.
    + right. by apply IH.
Qed.

Lemma bump_has_key k acc :
  P k → Forall (λ kn, P kn.1) acc → k ∈ (bump eqb k acc).*1.
Proof.
  intros Hk. induction 1 as [|[k0 n] acc Hk0 Hacc IH]; simpl.
  - by left.
  - destruct (eqb k k0) eqn:E; simpl.
    + apply (eqb_eq _ _ Hk Hk0) in E as ->. by left.
    + by right.
Qed.

Lemma tally_covers k l : Forall P l → k ∈ l → k ∈ (tally eqb l).*1.
Proof.
  induction l as [|x l IH] using rev_ind; intros Hl Hin.
  { by apply not_elem_of_nil in Hin. }
  apply Forall_app in Hl as [Hl Hx%Forall_inv]. rewrite tally_snoc.
  apply elem_of_app in Hin as [Hin|Hin].
  - apply bump_keeps_keys. by apply IH.
  - apply list_elem_of_singleton in Hin as ->.
    apply bump_has_key; [done|]. by apply tally_keys.
Qed.

End TallyCover.

#[global] Instance by_count_desc_total : Total by_count_desc.
Proof. intros a b. unfold by_count_desc. lia. Qed.

#[global] Instance by_count_desc_trans : Transitive by_count_desc.
Proof. intros a b c. unfold by_count_desc. lia. Qed.

Lemma tally_keys_elem_of {K} (eqb : K → K → bool) l k n :
  (k, n) ∈ tally eqb l → k ∈ l.
Proof.
  intros Hin.
  assert (H : Forall (λ kn : K * nat, kn.1 ∈ l) (tally eqb l)).
  { apply (tally_keys eqb (λ k, k ∈ l)), Forall_forall. auto. }
  exact (proj1 (Forall_forall _ _) H _ Hin).
Qed.

(** The counts of a column of strings. *)
Lemma value_counts_strings (col : list cell) :
  Forall is_str col →
  NoDup (value_counts col).*1 ∧
  StronglySorted by_count_desc (value_counts col) ∧
  (∀ k n, (k, n) ∈ value_counts col →
          k ∈ col ∧ n = occurrences cell_eqb k col ∧ (0 < n)%nat) ∧
  (∀ k, k ∈ col → k ∈ (value_counts col).*1).
Proof.
  intros Hstr.
  assert (Hall : filter (λ c, notna c) col = col).
  { apply filter_all, Forall_impl with (1 := Hstr). by intros c [s ->]. }
  assert (Hperm : value_counts col ≡ₚ tally cell_eqb col).
  { unfold value_counts. rewrite Hall. apply stable_sort_Permutation. }
  split; [|split; [|split]].
  - rewrite Hperm. by apply (tally_keys_NoDup cell_eqb is_str cell_eqb_str).
  - apply StronglySorted_stable_sort; apply _.
  - intros k n Hin. rewrite Hperm in Hin. split; [|split].
    + by eapply tally_keys_elem_of.
    + by apply (tally_census cell_eqb is_str cell_eqb_str).
    + exact (proj1 (Forall_forall _ _) (tally_positive cell_eqb col) _ Hin).
  - intros k Hk. rewrite Hperm.
    by apply (tally_covers cell_eqb is_str cell_eqb_str).
Qed.

Lemma counted_value_counts c (sub : DataFrame) :
  Forall (λ r, is_str (cellof r c)) (rows sub) →
  counted c sub (value_counts (map (λ r, cellof r c) (rows sub))).
Proof.
  intros Hstr.
  destruct (value_counts_strings (map (λ r, cellof r c) (rows sub)))
    as (Hnd & Hsorted & Hcensus & Hcover); [by apply Forall_fmap|].
  split; [done|]. split; [done|]. split.
  - intros r Hr. apply Hcover. apply list_elem_of_fmap. by exists r.
  - intros k n Hin. destruct (Hcensus k n Hin) as (Hk & -> & Hpos).
    apply list_elem_of_fmap in Hk as (r & -> & Hr).
    destruct (proj1 (Forall_forall _ _) Hstr r Hr) as [s Hs].
    exists s. split; [done|]. split; [done|]. rewrite Hs.
    unfold occurrences.
    rewrite (filter_map_commute _ _ (λ r, cellof r c = Str s)).
    + by rewrite length_map.
    + intros r'. apply cell_eqb_Str.
Qed.

(** X9: for a subset taken by the filter, the counts per crime type and the
    counts per borough each list every value of the subset exactly once,
    with the number of its records (never zero), the largest count first;
    the crime types are among the selected ones. *)
Theorem crime_and_borough_counts df sel sub :
  filtered_df df sel = Ok sub →
  ∃ cc bc,
    crime_counts sub = Ok cc ∧ counted "ofns_desc" sub cc ∧
    borough_counts sub = Ok bc ∧ counted "arrest_boro" sub bc ∧
    (∀ s n, (Str s, n) ∈ cc → s ∈ selected_crimes sel) ∧
    (∀ s n, (Str s, n) ∈ bc → s ∈ selected_boroughs sel).
Proof.
  intros [Hc ->]%filtered_df_Ok_inv.
  unfold has_columns, filter_columns in Hc. rewrite !Forall_cons in Hc.
  destruct Hc as (H1 & _ & _ & H4 & _).
  set (sub := {| columns := columns df; rows := filter (passes sel) (rows df) |}).
  assert (Hcr : Forall (λ r, labelled (cellof r "ofns_desc") (selected_crimes sel))
                  (rows sub)).
  { apply Forall_forall. by intros r [[? _] _]%list_elem_of_filter. }
  assert (Hbo : Forall (λ r, labelled (cellof r "arrest_boro")
                               (selected_boroughs sel)) (rows sub)).
  { apply Forall_forall. by intros r [(_ & _ & _ & ?) _]%list_elem_of_filter. }
  unfold crime_counts, borough_counts.
  rewrite (getitem_Ok sub "ofns_desc"), (getitem_Ok sub "arrest_boro") by done.
  eexists _, _. split; [done|]. split; [|split; [done|split; [|split]]].
  - apply counted_value_counts, Forall_impl with (1 := Hcr).
    intros r (s & Hs & _). by exists s.
  - apply counted_value_counts, Forall_impl with (1 := Hbo).
    intros r (s & Hs & _). by exists s.
  - intros s n Hin.
    destruct (value_counts_strings (map (λ r, cellof r "ofns_desc") (rows sub)))
      as (_ & _ & Hcensus & _).
    { apply Forall_fmap, Forall_impl with (1 := Hcr).
      intros r (s' & Hs & _). by exists s'. }
    destruct (Hcensus _ _ Hin) as ((r & Hr & Hin')%list_elem_of_fmap & _).
    destruct (proj1 (Forall_forall _ _) Hcr r Hin') as (s' & Hs' & Hsel).
    congruence.
  - intros s n Hin.
    destruct (value_counts_strings (map (λ r, cellof r "arrest_boro") (rows sub)))
      as (_ & _ & Hcensus & _).
    { apply Forall_fmap, Forall_impl with (1 := Hbo).
      intros r (s' & Hs & _). by exists s'. }
    destruct (Hcensus _ _ Hin) as ((r & Hr & Hin')%list_elem_of_fmap & _).
    destruct (proj1 (Forall_forall _ _) Hbo r Hin') as (s' & Hs' & Hsel).
    congruence.
Qed.

Lemma crime_and_borough_counts_witness :
  ∃ sub cc, filtered_df (loaded iso_timestamp raw_sample) january = Ok sub ∧
            crime_counts sub = Ok cc ∧ counted "ofns_desc" sub cc.
Proof.
  eexists.
  match goal with |- ∃ cc, filtered_df ?df ?sel = Ok ?sub ∧ _ =>
    assert (Hsub : filtered_df df sel = Ok sub) by (vm_compute; reflexivity)
  end.
  destruct (crime_and_borough_counts _ _ _ Hsub) as (cc & bc & H1 & H2 & _).
  exists cc. split; [exact Hsub|]. split; assumption.
Defined.

#[global] Instance by_int_key_total : Total by_int_key.
Proof. intros a b. unfold by_int_key. lia. Qed.

#[global] Instance by_int_key_trans : Transitive by_int_key.
Proof. intros a b c. unfold by_int_key. lia. Qed.

Lemma cell_eqb_int x y : is_int x → is_int y → cell_eqb x y = true ↔ x = y.
Proof.
  intros [m ->] [n ->]. simpl. rewrite Z.eqb_eq. split; congruence.
Qed.

Lemma length_filter_ext_in {A} (P Q : A → Prop) `{∀ x, Decision (P x)}
    `{∀ x, Decision (Q x)} (l : list A) :
  (∀ x, x ∈ l → P x ↔ Q x) → length (filter P l) = length (filter Q l).
Proof.
  induction l as [|x l IH]; intros HPQ; [done|].
  rewrite !filter_cons.
  assert (Hx : P x ↔ Q x) by (apply HPQ; left).
  assert (IH' : length (filter P l) = length (filter Q l)).
  { apply IH. intros y Hy. apply HPQ. by right. }
  destruct (decide (P x)), (decide (Q x)); simpl; try tauto; by rewrite IH'.
Qed.

Lemma int_keyed_list (l : list (cell * nat)) :
  Forall (λ kn, is_int kn.1) l → ∃ l', l = int_keyed <$> l'.
Proof.
  induction 1 as [|[k n] l [z Hz] _ [l' ->]]; simpl in *.
  - by exists [].
  - subst k. by exists ((z, n) :: l').
Qed.

Lemma sorted_distinct_keys (l : list (Z * nat)) :
  StronglySorted by_int_key l → NoDup l.*1 →
  StronglySorted (λ a b, a.1 < b.1) l.
Proof.
  induction 1 as [|a l Hl IH Ha]; intros Hnd; [constructor|].
  simpl in Hnd. apply NoDup_cons in Hnd as [Hnin Hnd].
  constructor; [by apply IH|].
  apply Forall_forall. intros b Hb.
  pose proof (proj1 (Forall_forall _ _) Ha b Hb) as Hle.
  unfold by_int_key in Hle.
  destruct (decide (a.1 = b.1)) as [Heq|Hne]; [|lia].
  destruct Hnin. rewrite Heq. apply list_elem_of_fmap. by exists b.
Qed.

(** The records the filter takes from a loaded table have an hour. *)
Lemma filtered_rows_int_hours to_timestamp raw df sel sub :
  load_data to_timestamp (Some raw) = Ok (Some df) →
  filtered_df df sel = Ok sub →
  Forall (λ r, is_int (cellof r "hour")) (rows sub).
Proof.
  intros Hload [_ ->]%filtered_df_Ok_inv. apply Forall_forall.
  intros r [(_ & Hm & _) Hr]%list_elem_of_filter.
  destruct (loaded_fields _ _ _ (proj1 (load_data_Ok_inv _ _ _ Hload)) r Hr)
    as [(t & _ & _ & _ & _ & _ & Hh)|(_ & _ & Hn & _)].
  - by exists (ts_hour t).
  - rewrite Hn in Hm. by apply equals_int_Null in Hm.
Qed.

(** X10: for a subset the filter takes from a loaded table, the counts per
    hour come in ascending order of the hour, every hour of the subset once,
    with the number of its records (never zero). *)
Theorem hourly_counts_ascending to_timestamp raw df sel sub :
  load_data to_timestamp (Some raw) = Ok (Some df) →
  filtered_df df sel = Ok sub →
  ∃ hs : list (Z * nat),
    hourly_counts sub = Ok (int_keyed <$> hs) ∧
    StronglySorted (λ a b, a.1 < b.1) hs ∧
    (∀ r, r ∈ rows sub → ∃ h, cellof r "hour" = Int h ∧ h ∈ hs.*1) ∧
    ∀ h n, (h, n) ∈ hs →
      (0 < n)%nat ∧
      n = length (filter (λ r, cellof r "hour" = Int h) (rows sub)).
Proof.
  intros Hload Hsub.
  assert (Hhour : Forall (λ r, is_int (cellof r "hour")) (rows sub))
    by by eapply filtered_rows_int_hours.
  assert (Hh : "hour" ∈ columns sub).
  { pose proof Hsub as [_ ->]%filtered_df_Ok_inv. simpl.
    apply load_data_Ok_inv in Hload as [-> _]. simpl.
    unfold feature_columns. simpl. unfold add_column at 1.
    case_bool_decide; [done|]. apply elem_of_app. right.
    by apply list_elem_of_singleton. }
  set (col := map (λ r, cellof r "hour") (rows sub)).
  assert (Hcol : Forall is_int col) by by apply Forall_fmap.
  assert (Hall : filter (λ c, notna c) col = col).
  { apply filter_all, Forall_impl with (1 := Hcol). by intros c [z ->]. }
  assert (Hperm : value_counts col ≡ₚ tally cell_eqb col).
  { unfold value_counts. rewrite Hall. apply stable_sort_Permutation. }
  assert (Hkeys : Forall (λ kn : cell * nat, is_int kn.1) (value_counts col)).
  { rewrite Hperm. by apply tally_keys. }
  destruct (int_keyed_list _ Hkeys) as [vc Hvc].
  exists (merge_sort by_int_key vc).
  assert (Hsorted : merge_sort by_key (value_counts col) =
                    int_keyed <$> merge_sort by_int_key vc).
  { rewrite Hvc. symmetry.
    apply (merge_sort_fmap int_keyed by_int_key by_key).
    intros [a n] [b m]. unfold by_int_key, by_key, cell_le. simpl.
    by rewrite Is_true_true, Z.leb_le. }
  assert (Hpermhs : int_keyed <$> merge_sort by_int_key vc ≡ₚ tally cell_eqb col).
  { rewrite <- Hsorted, merge_sort_Permutation. done. }
  assert (Hin : ∀ h n, (h, n) ∈ merge_sort by_int_key vc ↔
                       (Int h, n) ∈ tally cell_eqb col).
  { intros h n. rewrite <- Hpermhs, list_elem_of_fmap. split.
    - intros Hhn. by exists (h, n).
    - intros ([h' n'] & [= -> ->] & Hhn). done. }
  split; [|split; [|split]].
  - unfold hourly_counts. rewrite (getitem_Ok sub "hour") by done.
    rewrite bind_Ok. fold col. unfold sort_index.
    rewrite (homogeneous_rank 0).
    + by rewrite Hsorted.
    + apply Forall_fmap, Forall_impl with (1 := Hkeys).
      intros [k n] [z Hz]. simpl in *. by subst k.
  - apply sorted_distinct_keys; [apply StronglySorted_merge_sort; apply _|].
    assert (Hnd : NoDup (int_keyed <$> merge_sort by_int_key vc).*1).
    { rewrite Hpermhs.
      by apply (tally_keys_NoDup cell_eqb is_int cell_eqb_int). }
    rewrite <- list_fmap_compose in Hnd.
    apply (NoDup_fmap_1 Int). by rewrite <- list_fmap_compose.
  - intros r Hr.
    destruct (proj1 (Forall_forall _ _) Hhour r Hr) as [h Hhr].
    exists h. split; [done|].
    assert (Hc : Int h ∈ (tally cell_eqb col).*1).
    { apply (tally_covers cell_eqb is_int cell_eqb_int); [done|].
      apply list_elem_of_fmap. exists r. by rewrite Hhr. }
    apply list_elem_of_fmap in Hc as ([k n] & Hk & Hkn). simpl in Hk. subst k.
    apply list_elem_of_fmap. exists (h, n). split; [done|]. by apply Hin.
  - intros h n Hhn%Hin. split.
    + exact (proj1 (Forall_forall _ _) (tally_positive cell_eqb col) _ Hhn).
    + rewrite (tally_census cell_eqb is_int cell_eqb_int _ _ _ Hcol Hhn).
      unfold occurrences, col.
      rewrite (filter_map_commute _ _ (λ r, cell_eqb (cellof r "hour") (Int h) = true))
        by done.
      rewrite length_map. apply length_filter_ext_in.
      intros r Hr. destruct (proj1 (Forall_forall _ _) Hhour r Hr) as [z Hz].
      rewrite Hz. simpl. rewrite Z.eqb_eq. split; congruence.
Qed.

Lemma hourly_counts_ascending_witness :
  ∃ sub hs, filtered_df (loaded iso_timestamp raw_sample) january = Ok sub ∧
            hourly_counts sub = Ok (int_keyed <$> hs) ∧
            StronglySorted (λ a b, a.1 < b.1) hs.
Proof.
  eexists.
  match goal with |- ∃ hs, filtered_df ?df ?sel = Ok ?sub ∧ _ =>
    assert (Hsub : filtered_df df sel = Ok sub) by (vm_compute; reflexivity)
  end.
  destruct (hourly_counts_ascending iso_timestamp raw_sample _ _ _
              ltac:(vm_compute; reflexivity) Hsub) as (hs & H1 & H2 & _).
  exists hs. split; [exact Hsub|]. split; assumption.
Defined.

(** ** The monthly trend, month by month *)

Lemma month_name_of_month t : month_name t = name_of_month (ts_month t).
Proof. reflexivity. Qed.

Lemma name_of_month_str m : is_str (name_of_month m) ↔ 1 ≤ m ≤ 12.
Proof.
  unfold name_of_month. split.
  - destruct (1 <=? m) eqn:E; [|by intros [s Hs]].
    apply Z.leb_le in E. intros [s Hs].
    destruct (month_names !! Z.to_nat (m - 1)) as [name|] eqn:Hl; [|done].
    apply lookup_lt_Some in Hl. simpl in Hl. lia.
  - intros Hm.
    assert (Hcases : m = 1 ∨ m = 2 ∨ m = 3 ∨ m = 4 ∨ m = 5 ∨ m = 6 ∨ m = 7 ∨
                     m = 8 ∨ m = 9 ∨ m = 10 ∨ m = 11 ∨ m = 12) by lia.
    repeat (destruct Hcases as [->|Hcases]; [by eexists|]).
    subst m. by eexists.
Qed.

Lemma name_of_month_cases m : is_str (name_of_month m) ∨ name_of_month m = Null.
Proof.
  unfold name_of_month. destruct (1 <=? m); [|by right].
  destruct (month_names !! Z.to_nat (m - 1)); [left; by eexists|by right].
Qed.

Lemma zip_map {A B C} (f : A → B) (g : A → C) (l : list A) :
  zip (map f l) (map g l) = map (λ x, (f x, g x)) l.
Proof. induction l; simpl; congruence. Qed.

(** The mask of lines 418-420 is the conjunction, row by row. *)
Lemma trend_mask sel (l : list (gmap string cell)) :
  mask_and
    (mask_and
       (series_isin (map (λ r, cellof r "ofns_desc") l) (selected_crimes sel))
       (series_eq (map (λ r, cellof r "year") l) (selected_year sel)))
    (series_isin (map (λ r, cellof r "arrest_boro") l) (selected_boroughs sel))
  = map (λ r, bool_decide (in_scope sel r)) l.
Proof.
  unfold series_isin, series_eq. rewrite !map_map, !mask_and_map.
  apply map_ext. intros r.
  rewrite !cell_isin_labelled, !cell_eq_int_equals.
  unfold in_scope.
  repeat (case_bool_decide; simpl); try reflexivity; tauto.
Qed.

Lemma monthly_data_Ok df sel :
  has_columns df ["ofns_desc"; "year"; "arrest_boro"; "month"; "month_name"] →
  monthly_data df sel =
    groupby_size {| columns := columns df;
                    rows := filter (in_scope sel) (rows df) |}
                 "month" "month_name" "arrests".
Proof.
  intros Hc. unfold has_columns in Hc. rewrite !Forall_cons in Hc.
  destruct Hc as (H1 & H2 & H3 & _).
  unfold monthly_data.
  rewrite (getitem_Ok _ "ofns_desc"), bind_Ok by done.
  rewrite (getitem_Ok _ "year"), bind_Ok by done.
  rewrite (getitem_Ok _ "arrest_boro"), bind_Ok by done.
  unfold getitem_mask. by rewrite trend_mask, mask_rows_decide.
Qed.

Lemma key_eqb_month x y :
  is_month_key x → is_month_key y → key_eqb x y = true ↔ x = y.
Proof.
  intros (m & -> & Hm) (n & -> & Hn). unfold key_eqb, month_key. simpl.
  apply name_of_month_str in Hm as [s Hs], Hn as [t Ht].
  split.
  - intros [H1%Z.eqb_eq _]%andb_true_iff. by subst.
  - intros [= ->]. rewrite Z.eqb_refl. simpl.
    rewrite Hs. simpl. by apply bool_decide_eq_true.
Qed.

Lemma key_le_month_group a b :
  by_int_key a b ↔ key_le (month_group a) (month_group b).
Proof.
  destruct a as [a n], b as [b m].
  unfold by_int_key, key_le, key_leb, month_group. simpl.
  destruct (a =? b) eqn:E.
  - apply Z.eqb_eq in E as ->. split; [intros _|lia].
    destruct (name_of_month_cases b) as [[s ->]| ->]; simpl; [|done].
    change (String.le s s). reflexivity.
  - apply Z.eqb_neq in E. by rewrite Is_true_true, Z.leb_le.
Qed.

Lemma month_group_list (l : list ((cell * cell) * nat)) :
  Forall (λ kn, is_month_key kn.1) l → ∃ l', l = month_group <$> l'.
Proof.
  induction 1 as [|[k n] l (m & Hk & _) _ [l' ->]]; simpl in *.
  - by exists [].
  - subst k. by exists ((m, n) :: l').
Qed.

Lemma feature_columns_has cols c :
  c ∈ ["year"; "month"; "month_name"; "day_of_week"; "hour"] →
  c ∈ feature_columns cols.
Proof.
  assert (Hadd : ∀ l d, d ∈ add_column l d).
  { intros l d. unfold add_column. case_bool_decide; [done|].
    apply elem_of_app. right. by apply list_elem_of_singleton. }
  intros Hc. unfold feature_columns. simpl.
  repeat (apply elem_of_cons in Hc as [->|Hc]);
    [..|by apply not_elem_of_nil in Hc];
    repeat (first [apply Hadd|apply elem_of_add_column]).
Qed.

Lemma scoped_row_month to_timestamp raw df sel r :
  load_data to_timestamp (Some raw) = Ok (Some df) →
  r ∈ rows df → in_scope sel r →
  ∃ m, cellof r "month" = Int m ∧ cellof r "month_name" = name_of_month m.
Proof.
  intros Hload Hr (_ & Hy & _).
  destruct (loaded_fields _ _ _ (proj1 (load_data_Ok_inv _ _ _ Hload)) r Hr)
    as [(t & _ & _ & Hm & Hn & _)|(_ & Hnull & _)].
  - exists (ts_month t). by rewrite Hm, Hn.
  - rewrite Hnull in Hy. by apply equals_int_Null in Hy.
Qed.

(** The groups of the monthly trend: the months in order, each with its
    census. *)
Lemma monthly_data_groups to_timestamp raw df sel :
  load_data to_timestamp (Some raw) = Ok (Some df) →
  "ofns_desc" ∈ columns df → "arrest_boro" ∈ columns df →
  ∃ ms : list (Z * nat),
    monthly_data df sel =
      Ok {| columns := ["month"; "month_name"; "arrests"];
            rows := trend_row <$> ms |} ∧
    StronglySorted (λ a b, a.1 < b.1) ms ∧
    (∀ m n, (m, n) ∈ ms →
       1 ≤ m ≤ 12 ∧ (0 < n)%nat ∧
       n = length (filter (λ r, in_scope sel r ∧ cellof r "month" = Int m)
                          (rows df))) ∧
    (∀ r m, r ∈ rows df → in_scope sel r → cellof r "month" = Int m →
            1 ≤ m ≤ 12 → m ∈ ms.*1).
Proof.
  intros Hload H1 H2.
  assert (Hfeat : ∀ c, c ∈ ["year"; "month"; "month_name"; "day_of_week"; "hour"] →
                       c ∈ columns df).
  { intros c Hc. pose proof Hload as [-> _]%load_data_Ok_inv.
    by apply feature_columns_has. }
  assert (Hy : "year" ∈ columns df) by (apply Hfeat; set_solver).
  assert (Hm : "month" ∈ columns df) by (apply Hfeat; set_solver).
  assert (Hn : "month_name" ∈ columns df) by (apply Hfeat; set_solver).
  rewrite monthly_data_Ok by (unfold has_columns; by repeat constructor).
  unfold groupby_size.
  rewrite (getitem_Ok _ "month"), bind_Ok by done.
  rewrite (getitem_Ok _ "month_name"), bind_Ok by done.
  cbn [rows]. rewrite zip_map.
  set (kf := λ r : gmap string cell, (cellof r "month", cellof r "month_name")).
  set (l3 := filter (in_scope sel) (rows df)).
  set (keys := filter (λ k : cell * cell, notna k.1 ∧ notna k.2) (map kf l3)).
  assert (Hkf : ∀ r, r ∈ rows df → in_scope sel r →
                     ∃ m, cellof r "month" = Int m ∧ kf r = month_key m).
  { intros r Hr Hs.
    destruct (scoped_row_month _ _ _ _ _ Hload Hr Hs) as (m & Hrm & Hrn).
    exists m. split; [done|]. unfold kf, month_key. by rewrite Hrm, Hrn. }
  assert (Hkeys : Forall is_month_key keys).
  { apply Forall_forall. intros k [[_ Hna] Hk]%list_elem_of_filter.
    apply list_elem_of_fmap in Hk as (r & -> & [Hs Hr]%list_elem_of_filter).
    destruct (Hkf r Hr Hs) as (m & _ & Hk). exists m. split; [done|].
    apply name_of_month_str. rewrite Hk in Hna. simpl in Hna.
    destruct (name_of_month_cases m) as [|Hnull]; [done|].
    by rewrite Hnull in Hna. }
  assert (Htk : Forall (λ kn : (cell * cell) * nat, is_month_key kn.1)
                  (tally key_eqb keys)) by by apply tally_keys.
  destruct (month_group_list _ Htk) as [tl Htl].
  exists (merge_sort by_int_key tl).
  assert (Hsorted : merge_sort key_le (tally key_eqb keys) =
                    month_group <$> merge_sort by_int_key tl).
  { rewrite Htl. symmetry.
    apply (merge_sort_fmap month_group by_int_key key_le).
    apply key_le_month_group. }
  assert (Hin : ∀ m n, (m, n) ∈ merge_sort by_int_key tl ↔
                       (month_key m, n) ∈ tally key_eqb keys).
  { intros m n. rewrite merge_sort_Permutation, Htl, list_elem_of_fmap. split.
    - intros Hmn. by exists (m, n).
    - intros ([m' n'] & Heq & Hmn).
      unfold month_group, month_key in Heq. simpl in Heq.
      by injection Heq as -> _ ->. }
  assert (Hcount : ∀ m, 1 ≤ m ≤ 12 →
            occurrences key_eqb (month_key m) keys =
            length (filter (λ r, in_scope sel r ∧ cellof r "month" = Int m)
                           (rows df))).
  { intros m Hvalid. unfold occurrences, keys.
    rewrite list_filter_filter.
    rewrite (filter_map_commute kf _
               (λ r, key_eqb (kf r) (month_key m) = true ∧
                     notna (kf r).1 ∧ notna (kf r).2)) by done.
    rewrite length_map. unfold l3. rewrite list_filter_filter.
    apply length_filter_ext_in. intros r Hr.
    apply name_of_month_str in Hvalid as Hstr.
    split.
    - intros ((Heq & _) & Hs). split; [done|].
      destruct (Hkf r Hr Hs) as (m' & Hrm & Hk). rewrite Hk in Heq.
      unfold key_eqb, month_key in Heq. simpl in Heq.
      apply andb_true_iff in Heq as [Heq%Z.eqb_eq _]. by subst.
    - intros [Hs Hrm]. split; [|done].
      destruct (Hkf r Hr Hs) as (m' & Hrm' & Hk).
      assert (m' = m) as -> by congruence.
      rewrite Hk. destruct Hstr as [s Hs']. unfold key_eqb, month_key. simpl.
      rewrite Hs'. simpl. rewrite Z.eqb_refl, bool_decide_eq_true_2 by done.
      done. }
  split; [|split; [|split]].
  - f_equal. f_equal. fold keys. rewrite Hsorted.
    rewrite <- list_fmap_compose. done.
  - apply sorted_distinct_keys; [apply StronglySorted_merge_sort; apply _|].
    rewrite merge_sort_Permutation.
    pose proof (tally_keys_NoDup key_eqb is_month_key key_eqb_month keys Hkeys)
      as Hnd.
    rewrite Htl, <- list_fmap_compose in Hnd.
    apply (NoDup_fmap_1 month_key). by rewrite <- list_fmap_compose.
  - intros m n Hmn%Hin.
    assert (Hvalid : 1 ≤ m ≤ 12).
    { destruct (proj1 (Forall_forall _ _) Htk _ Hmn) as (m' & Hk & Hv).
      simpl in Hk. injection Hk as ->. done. }
    split; [done|]. split.
    + exact (proj1 (Forall_forall _ _) (tally_positive key_eqb keys) _ Hmn).
    + rewrite <- Hcount by done.
      by apply (tally_census key_eqb is_month_key key_eqb_month).
  - intros r m Hr Hs Hrm Hvalid.
    destruct (Hkf r Hr Hs) as (m' & Hrm' & Hk).
    assert (m' = m) as -> by congruence.
    assert (Hc : month_key m ∈ (tally key_eqb keys).*1).
    { apply (tally_covers key_eqb is_month_key key_eqb_month); [done|].
      apply list_elem_of_filter. split.
      - apply name_of_month_str in Hvalid as [s Hs']. unfold month_key.
        simpl. by rewrite Hs'.
      - apply list_elem_of_fmap. exists r. split; [done|].
        by apply list_elem_of_filter. }
    apply list_elem_of_fmap in Hc as ([k n] & Hk' & Hkn). simpl in Hk'.
    subst k. apply list_elem_of_fmap. exists (m, n). split; [done|].
    by apply Hin.
Qed.

Lemma trend_row_cells p :
  cellof (trend_row p) "month" = Int p.1 ∧
  cellof (trend_row p) "month_name" = name_of_month p.1 ∧
  cellof (trend_row p) "arrests" = Int (Z.of_nat p.2).
Proof.
  unfold trend_row. split; [|split].
  - rewrite !cellof_insert_ne by done. apply cellof_insert_eq.
  - rewrite cellof_insert_ne by done. apply cellof_insert_eq.
  - apply cellof_insert_eq.
Qed.

(** X11: the monthly trend of a loaded table has one row per month of the
    calendar in which a record of the selected crime types, year and
    boroughs falls, in ascending order of the month; the row carries the
    number of those records of the month (never zero) and the name of the
    month. *)
Theorem monthly_data_counts to_timestamp raw df sel :
  load_data to_timestamp (Some raw) = Ok (Some df) →
  "ofns_desc" ∈ columns df → "arrest_boro" ∈ columns df →
  ∃ trend,
    monthly_data df sel = Ok trend ∧
    columns trend = ["month"; "month_name"; "arrests"] ∧
    StronglySorted month_before (rows trend) ∧
    (∀ g, g ∈ rows trend →
       ∃ m n, g = trend_row (m, n) ∧ 1 ≤ m ≤ 12 ∧ (0 < n)%nat ∧
              n = length (filter (λ r, in_scope sel r ∧ cellof r "month" = Int m)
                                 (rows df))) ∧
    (∀ r m, r ∈ rows df → in_scope sel r → cellof r "month" = Int m →
            1 ≤ m ≤ 12 → ∃ g, g ∈ rows trend ∧ cellof g "month" = Int m).
Proof.
  intros Hload H1 H2.
  destruct (monthly_data_groups _ _ _ sel Hload H1 H2)
    as (ms & Hms & Hsorted & Hcensus & Hcover).
  eexists. split; [exact Hms|]. split; [done|]. cbn [rows].
  split; [|split].
  - eapply StronglySorted_fmap; [|exact Hsorted].
    intros p q Hlt. exists p.1, q.1.
    split; [apply trend_row_cells|]. split; [apply trend_row_cells|done].
  - intros g ([m n] & -> & Hmn)%list_elem_of_fmap.
    exists m, n. split; [done|]. by apply Hcensus.
  - intros r m Hr Hs Hm Hvalid.
    pose proof (Hcover r m Hr Hs Hm Hvalid) as Hin.
    apply list_elem_of_fmap in Hin as ([m' n] & Hmeq & Hmn). simpl in Hmeq.
    subst m'. exists (trend_row (m, n)). split.
    + apply list_elem_of_fmap. by exists (m, n).
    + apply trend_row_cells.
Qed.

Lemma monthly_data_counts_witness :
  ∃ trend, monthly_data (loaded iso_timestamp raw_sample) january = Ok trend ∧
           StronglySorted month_before (rows trend).
Proof.
  destruct (monthly_data_counts iso_timestamp raw_sample
              (loaded iso_timestamp raw_sample) january)
    as (trend & H1 & _ & H2 & _).
  - vm_compute. reflexivity.
  - apply (bool_decide_unpack _). vm_compute. exact I.
  - apply (bool_decide_unpack _). vm_compute. exact I.
  - exists trend. split; assumption.
Defined.

(** X12: the trend and the filter agree: in the trend of a loaded table the
    row of the selected month carries the number of records the filter
    takes, and when the filter takes a record that row exists. *)
Theorem trend_agrees_with_filter to_timestamp raw df sel sub trend :
  load_data to_timestamp (Some raw) = Ok (Some df) →
  filtered_df df sel = Ok sub →
  monthly_data df sel = Ok trend →
  (∀ g, g ∈ rows trend → cellof g "month" = Int (selected_month sel) →
        cellof g "arrests" = Int (Z.of_nat (length (rows sub)))) ∧
  (rows sub ≠ [] → 1 ≤ selected_month sel ≤ 12 →
   ∃ g, g ∈ rows trend ∧ cellof g "month" = Int (selected_month sel)).
Proof.
  intros Hload Hsub Htrend.
  apply filtered_df_Ok_inv in Hsub as [Hc ->].
  unfold has_columns, filter_columns in Hc. rewrite !Forall_cons in Hc.
  destruct Hc as (H1 & _ & _ & H4 & _).
  destruct (monthly_data_groups _ _ _ sel Hload H1 H4)
    as (ms & Hms & _ & Hcensus & Hcover).
  rewrite Hms in Htrend. injection Htrend as <-. cbn [rows].
  assert (Hlen : length (filter (passes sel) (rows df)) =
                 length (filter (λ r, in_scope sel r ∧
                                      cellof r "month" = Int (selected_month sel))
                                (rows df))).
  { apply length_filter_ext_in. intros r Hr. unfold passes, in_scope. split.
    - intros (Hp1 & Hp2 & Hp3 & Hp4). split; [done|].
      destruct (scoped_row_month _ _ _ sel r Hload Hr) as (m & Hm & _); [done|].
      rewrite Hm in Hp2. apply equals_int_Int in Hp2. by subst.
    - intros ((Hp1 & Hp3 & Hp4) & Hm). rewrite Hm.
      repeat split; try done. by apply equals_int_Int. }
  split.
  - intros g Hg Hmonth. apply list_elem_of_fmap in Hg as ([m n] & -> & Hmn).
    destruct (trend_row_cells (m, n)) as (Hcm & _ & Hca). simpl in *.
    rewrite Hcm in Hmonth. injection Hmonth as ->.
    destruct (Hcensus _ _ Hmn) as (_ & _ & ->). by rewrite Hca, Hlen.
  - intros Hne Hvalid.
    destruct (filter (passes sel) (rows df)) as [|r l] eqn:Hf; [done|].
    assert (Hr : r ∈ filter (passes sel) (rows df)) by (rewrite Hf; left).
    apply list_elem_of_filter in Hr as [(Hp1 & Hp2 & Hp3 & Hp4) Hr].
    assert (Hs : in_scope sel r) by done.
    destruct (scoped_row_month _ _ _ sel r Hload Hr Hs) as (m & Hm & _).
    rewrite Hm in Hp2. apply equals_int_Int in Hp2. subst m.
    pose proof (Hcover r _ Hr Hs Hm Hvalid) as Hin.
    apply list_elem_of_fmap in Hin as ([m n] & Hmeq & Hmn). simpl in Hmeq.
    subst m. exists (trend_row (selected_month sel, n)). split.
    + apply list_elem_of_fmap. by exists (selected_month sel, n).
    + apply trend_row_cells.
Qed.

Lemma trend_agrees_with_filter_witness :
  ∃ sub trend,
    filtered_df (loaded iso_timestamp raw_sample) january = Ok sub ∧
    monthly_data (loaded iso_timestamp raw_sample) january = Ok trend ∧
    ∀ g, g ∈ rows trend → cellof g "month" = Int 1 →
         cellof g "arrests" = Int (Z.of_nat (length (rows sub))).
Proof.
  eexists _, _.
  match goal with |- filtered_df ?df ?sel = Ok ?sub ∧ monthly_data _ _ = Ok ?tr ∧ _ =>
    assert (Hsub : filtered_df df sel = Ok sub) by (vm_compute; reflexivity);
    assert (Htr : monthly_data df sel = Ok tr) by (vm_compute; reflexivity)
  end.
  split; [exact Hsub|]. split; [exact Htr|].
  exact (proj1 (trend_agrees_with_filter iso_timestamp raw_sample _ _ _ _
                  ltac:(vm_compute; reflexivity) Hsub Htr)).
Defined.

(** ** Colours *)

Lemma traverse_Ok_map {A B} (f : A → result B) (g : A → B) (l : list A) :
  (∀ x, x ∈ l → f x = Ok (g x)) → traverse f l = Ok (map g l).
Proof.
  induction l as [|x l IH]; intros Hf; [done|]. simpl.
  rewrite Hf by left. rewrite bind_Ok, IH; [done|].
  intros y Hy. apply Hf. by right.
Qed.

Lemma color_map_lookup (l : list cell) i x :
  l !! i = Some x →
  color_map l !! i =
    Some (x, default "red" (standard_colors !! (i mod length standard_colors)%nat)).
Proof. intros Hi. unfold color_map. by rewrite list_lookup_imap, Hi. Qed.

Lemma color_map_names (l : list cell) kv :
  kv ∈ color_map l → kv.2 ∈ standard_colors.
Proof.
  intros (i & Hi)%list_elem_of_lookup_1. unfold color_map in Hi.
  rewrite list_lookup_imap in Hi.
  assert (Hlt : (i mod length standard_colors < length standard_colors)%nat).
  { apply Nat.mod_upper_bound. done. }
  revert Hi Hlt. generalize (i mod length standard_colors)%nat. intros j Hi Hlt.
  apply lookup_lt_is_Some in Hlt as [c Hc]. rewrite Hc in Hi.
  destruct (l !! i) as [x|]; [|done]. injection Hi as <-.
  by eapply list_elem_of_lookup_2.
Qed.

Lemma dict_get_found {K V} (eqb : K → K → bool) (d : list (K * V)) k v :
  dict_get eqb d k v = v ∨ ∃ kv, kv ∈ d ∧ dict_get eqb d k v = kv.2.
Proof.
  unfold dict_get. destruct (List.find _ d) as [kv|] eqn:Hf; [|by left].
  right. exists kv. split; [|done].
  apply find_some in Hf as [Hin _]. by apply list_elem_of_In.
Qed.

(** The name looked up for a crime type is a name of the palette. *)
Lemma color_name_standard (l : list cell) x :
  dict_get cell_eqb (color_map l) x "red" ∈ standard_colors.
Proof.
  destruct (dict_get_found cell_eqb (color_map l) x "red") as [->|(kv & Hkv & ->)].
  - by left.
  - by eapply color_map_names.
Qed.

(** Steps of the script, run. *)
Lemma run_frame {B} (h : heap) r df (k : DataFrame → M B) :
  h !! r = Some df → (frame r ≫= k) h = k df h.
Proof. intros Hr. unfold mbind, M_bind, frame. by rewrite Hr. Qed.

Lemma run_lift_Ok {A B} (a : A) (k : A → M B) (h : heap) :
  (lift (Ok a) ≫= k) h = k a h.
Proof. reflexivity. Qed.

Lemma run_lift_Raise {A B} e (k : A → M B) (h : heap) :
  (lift (Raise e) ≫= k) h = (Raise e, h).
Proof. reflexivity. Qed.

Lemma run_new {B} (h : heap) df (k : ref → M B) :
  (new df ≫= k) h = k (length h) (h ++ [df]).
Proof. reflexivity. Qed.

Lemma run_ret {A B} (a : A) (k : A → M B) (h : heap) : (mret a ≫= k) h = k a h.
Proof. reflexivity. Qed.

Lemma run_assoc {A B C} (m : M A) (k : A → M B) (k' : B → M C) (h : heap) :
  ((m ≫= k) ≫= k') h = (m ≫= λ a, k a ≫= k') h.
Proof.
  unfold mbind, M_bind. destruct (m h) as [[a|e] h1]; [|done]. done.
Qed.

Section ColorFacts.

Variable py_int : string → Z → option Z.
Variable findall_digits : string → list string.
Variable lower : string → string.

(** A name of the palette is looked up in the dictionary: no parsing, no
    error. *)
Lemma color_to_rgb_standard c :
  c ∈ standard_colors →
  color_to_rgb py_int findall_digits lower c =
    Ok (dict_get String.eqb color_dict (lower c) [255; 0; 0]).
Proof.
  intros Hc. unfold color_to_rgb.
  assert (Hp : Forall (λ c, String.prefix "#" c = false ∧
                            String.prefix "rgb" c = false) standard_colors).
  { repeat constructor. }
  destruct (proj1 (Forall_forall _ _) Hp c Hc) as [-> ->]. done.
Qed.

(** What attaching the colours stores: every record of the subset gets the
    triple of the colour that the palette gives its crime type. *)
Lemma add_colors_run h filtered sub :
  h !! filtered = Some sub →
  "ofns_desc" ∈ columns sub →
  add_colors py_int findall_digits lower filtered h =
    (Ok (),
     <[filtered :=
         {| columns := add_column (columns sub) "color";
            rows :=
              map (λ r,
                     <["color" :=
                         Rgb (dict_get String.eqb color_dict
                                (lower
                                   (dict_get cell_eqb
                                      (color_map
                                         (unique (map (λ r, cellof r "ofns_desc")
                                                      (rows sub))))
                                      (cellof r "ofns_desc") "red"))
                                [255; 0; 0])]> r)
                  (rows sub) |}]> h).
Proof.
  intros Hsub Hc.
  set (colors := color_map (unique (map (λ r, cellof r "ofns_desc") (rows sub)))).
  set (g := λ r : gmap string cell,
         Rgb (dict_get String.eqb color_dict
                (lower (dict_get cell_eqb colors (cellof r "ofns_desc") "red"))
                [255; 0; 0])).
  unfold add_colors, assign.
  rewrite (run_frame _ _ _ _ Hsub), (getitem_Ok _ _ Hc), run_lift_Ok.
  fold colors.
  rewrite (traverse_Ok_map _
             (λ x, Rgb (dict_get String.eqb color_dict
                          (lower (dict_get cell_eqb colors x "red"))
                          [255; 0; 0]))).
  2: { intros x _. by rewrite color_to_rgb_standard by apply color_name_standard. }
  rewrite run_lift_Ok, (run_frame _ _ _ _ Hsub), map_map.
  pose proof (setitem_map sub "color" g) as Hset. unfold g in Hset.
  by rewrite Hset, run_lift_Ok.
Qed.


End ColorFacts.


Lemma unique_strings (col : list cell) :
  Forall is_str col →
  Forall is_str (unique col) ∧ NoDup (unique col) ∧
  ∀ x, x ∈ col → x ∈ unique col.
Proof.
  intros Hstr. unfold unique.
  assert (Hid : map (λ c, if isna c then Null else c) col = col).
  { induction Hstr as [|c l [s ->] _ IH]; simpl; congruence. }
  rewrite Hid. split; [|split].
  - apply Forall_fmap. by apply tally_keys.
  - by apply (tally_keys_NoDup cell_eqb is_str cell_eqb_str).
  - intros x Hx. by apply (tally_covers cell_eqb is_str cell_eqb_str).
Qed.

Lemma find_imap_key {V} (f : nat → cell → cell * V) (l : list cell) i x :
  (∀ j y, (f j y).1 = y) →
  Forall is_str l → NoDup l → l !! i = Some x →
  List.find (λ kv, cell_eqb x kv.1) (imap f l) = Some (f i x).
Proof.
  intros Hf Hstr. revert f i Hf.
  induction Hstr as [|y l Hy Hl IH]; intros f i Hf Hnd Hi; [done|].
  apply NoDup_cons in Hnd as [Hnin Hnd]. simpl. rewrite Hf.
  destruct i as [|i]; simpl in Hi.
  - injection Hi as ->. by rewrite (proj2 (cell_eqb_str x x Hy Hy) eq_refl).
  - assert (Hx : x ∈ l) by by eapply list_elem_of_lookup_2.
    assert (Hsx : is_str x) by exact (proj1 (Forall_forall _ _) Hl x Hx).
    destruct (cell_eqb x y) eqn:E.
    + apply (cell_eqb_str x y Hsx Hy) in E. by subst.
    + apply (IH (f ∘ S) i); [|done..]. intros j z. apply Hf.
Qed.

Lemma NoDup_standard_colors : NoDup standard_colors.
Proof. apply (bool_decide_unpack _). vm_compute. exact I. Qed.

(** X14: the colour names of the legend.  The crime types of a subset take
    the names of the palette in the order in which they first occur, the
    thirteenth starting again with the first name; with at most twelve crime
    types in the subset, different crime types have different names. *)
Theorem legend_colors (crime : list cell) :
  Forall is_str crime →
  (∀ i x, unique crime !! i = Some x →
     standard_colors !! (i mod 12)%nat =
       Some (dict_get cell_eqb (color_map (unique crime)) x "red")) ∧
  (∀ i x z, unique crime !! i = Some x → unique crime !! (i + 12)%nat = Some z →
     dict_get cell_eqb (color_map (unique crime)) x "red" =
     dict_get cell_eqb (color_map (unique crime)) z "red") ∧
  ((length (unique crime) ≤ 12)%nat →
   ∀ x y, x ∈ crime → y ∈ crime →
     dict_get cell_eqb (color_map (unique crime)) x "red" =
     dict_get cell_eqb (color_map (unique crime)) y "red" → x = y).
Proof.
  intros Hstr. destruct (unique_strings crime Hstr) as (Hus & Hnd & Hcover).
  assert (Hname : ∀ i x, unique crime !! i = Some x →
            standard_colors !! (i mod 12)%nat =
              Some (dict_get cell_eqb (color_map (unique crime)) x "red")).
  { intros i x Hi. unfold dict_get, color_map.
    rewrite (find_imap_key _ _ i x); [|done..]. cbn [from_option snd].
    change (length standard_colors) with 12%nat.
    assert (Hlt : (i mod 12 < length standard_colors)%nat).
    { apply Nat.mod_upper_bound. done. }
    apply lookup_lt_is_Some in Hlt as [c Hc]. by rewrite Hc. }
  split; [done|]. split.
  - intros i x z Hi Hz. apply Hname in Hi, Hz.
    replace ((i + 12) mod 12)%nat with (i mod 12)%nat in Hz.
    + congruence.
    + symmetry. apply (Nat.Div0.mod_add i 1 12).
  - intros Hlen x y Hx Hy Heq.
    apply Hcover, list_elem_of_lookup_1 in Hx as [i Hi].
    apply Hcover, list_elem_of_lookup_1 in Hy as [j Hj].
    pose proof (lookup_lt_Some _ _ _ Hi) as Hil.
    pose proof (lookup_lt_Some _ _ _ Hj) as Hjl.
    pose proof (Hname _ _ Hi) as Hni. pose proof (Hname _ _ Hj) as Hnj.
    rewrite Nat.mod_small in Hni, Hnj by lia. rewrite Heq in Hni.
    assert (i = j) as -> by exact (NoDup_lookup _ _ _ _ NoDup_standard_colors Hni Hnj).
    congruence.
Qed.

Lemma legend_colors_witness :
  Forall is_str [Str "ROBBERY"; Str "THEFT-FRAUD"; Str "ROBBERY"] ∧
  dict_get cell_eqb
    (color_map (unique [Str "ROBBERY"; Str "THEFT-FRAUD"; Str "ROBBERY"]))
    (Str "THEFT-FRAUD") "red" = "blue".
Proof.
  assert (Hstr : Forall is_str [Str "ROBBERY"; Str "THEFT-FRAUD"; Str "ROBBERY"]).
  { repeat constructor; by eexists. }
  split; [exact Hstr|].
  pose proof (proj1 (legend_colors _ Hstr) 1%nat (Str "THEFT-FRAUD") eq_refl) as H.
  apply (inj Some). etrans; [symmetry; exact H|reflexivity].
Defined.

(** ** The sidebar *)

Lemma py_in_str x (l : list cell) :
  is_str x → Forall is_str l → py_in x l ↔ x ∈ l.
Proof.
  intros Hx Hl. unfold py_in. rewrite Is_true_true, existsb_exists. split.
  - intros (y & Hy%list_elem_of_In & E).
    apply cell_eqb_str in E as ->; [done|done|].
    exact (proj1 (Forall_forall _ _) Hl y Hy).
  - intros Hin. exists x. split; [by apply list_elem_of_In|].
    by apply cell_eqb_str.
Qed.

Lemma target_crime_types_str : Forall is_str target_crime_types.
Proof. repeat constructor; by eexists. Qed.

Lemma NoDup_target_crime_types : NoDup target_crime_types.
Proof.
  change target_crime_types with
    (Str <$> ["ROBBERY"; "ASSAULT 3 & RELATED OFFENSES";
              "OFFENSES AGAINST PUBLIC SAFETY";
              "KIDNAPPING & RELATED OFFENSES"; "THEFT-FRAUD"]).
  apply NoDup_fmap_2; [by intros ?? [=]|].
  apply (bool_decide_unpack _). vm_compute. exact I.
Qed.

(** X15: the options of the crime type selector.  For the crime types of
    the table, each listed once, the options are the same crime types, each
    once: first the target crime types that occur, in the order of the target
    list, then all the others in their order; the preselected ones are
    options, and exactly the target crime types that occur. *)
Theorem crime_types_ordered_is_complete (all : list cell) :
  Forall is_str all → NoDup all →
  crime_types_ordered all ≡ₚ all ∧
  NoDup (crime_types_ordered all) ∧
  sublist (available_target_crimes all) target_crime_types ∧
  sublist (other_crimes all) all ∧
  available_target_crimes all ⊆ crime_types_ordered all ∧
  (∀ c, c ∈ available_target_crimes all ↔ c ∈ target_crime_types ∧ c ∈ all) ∧
  (∀ c, c ∈ other_crimes all ↔ c ∈ all ∧ c ∉ target_crime_types).
Proof.
  intros Hstr Hnd.
  assert (Hav : ∀ c, c ∈ available_target_crimes all ↔
                     c ∈ target_crime_types ∧ c ∈ all).
  { intros c. unfold available_target_crimes. rewrite list_elem_of_filter.
    split.
    - intros [Hin Ht]. split; [done|]. apply py_in_str; [|done..].
      exact (proj1 (Forall_forall _ _) target_crime_types_str c Ht).
    - intros [Ht Hin]. split; [|done]. apply py_in_str; [|done..].
      exact (proj1 (Forall_forall _ _) target_crime_types_str c Ht). }
  assert (Hot : ∀ c, c ∈ other_crimes all ↔ c ∈ all ∧ c ∉ target_crime_types).
  { intros c. unfold other_crimes. rewrite list_elem_of_filter, negb_True.
    split.
    - intros [Hn Hin]. split; [done|]. intros Ht. apply Hn.
      apply py_in_str; [|apply target_crime_types_str|done].
      exact (proj1 (Forall_forall _ _) Hstr c Hin).
    - intros [Hin Hn]. split; [|done]. intros Ht. apply Hn.
      apply py_in_str in Ht; [done| |apply target_crime_types_str].
      exact (proj1 (Forall_forall _ _) Hstr c Hin). }
  assert (Hndo : NoDup (crime_types_ordered all)).
  { unfold crime_types_ordered. apply NoDup_app. split; [|split].
    - unfold available_target_crimes.
      apply NoDup_filter, NoDup_target_crime_types.
    - intros c [Ht _]%Hav [_ Hn]%Hot. done.
    - unfold other_crimes. by apply NoDup_filter. }
  split; [|split; [done|split; [|split; [|split; [|done]]]]].
  - apply NoDup_Permutation; [done..|].
    intros c. unfold crime_types_ordered. rewrite elem_of_app, Hav, Hot.
    split; [tauto|]. intros Hin.
    destruct (decide (py_in c target_crime_types)) as [Ht|Ht].
    + left. split; [|done]. apply py_in_str in Ht; [done| |apply target_crime_types_str].
      exact (proj1 (Forall_forall _ _) Hstr c Hin).
    + right. split; [done|]. intros Hc. apply Ht.
      apply py_in_str; [|apply target_crime_types_str|done].
      exact (proj1 (Forall_forall _ _) Hstr c Hin).
  - apply sublist_filter.
  - apply sublist_filter.
  - intros c Hc. unfold crime_types_ordered. apply elem_of_app. by left.
Qed.

Lemma crime_types_ordered_is_complete_witness :
  crime_types_ordered [Str "BURGLARY"; Str "ROBBERY"; Str "THEFT-FRAUD"] ≡ₚ
    [Str "BURGLARY"; Str "ROBBERY"; Str "THEFT-FRAUD"].
Proof.
  refine (proj1 (crime_types_ordered_is_complete
                   [Str "BURGLARY"; Str "ROBBERY"; Str "THEFT-FRAUD"] _ _)).
  - repeat constructor; by eexists.
  - change (NoDup (Str <$> ["BURGLARY"; "ROBBERY"; "THEFT-FRAUD"])).
    apply NoDup_fmap_2; [by intros ?? [=]|].
    apply (bool_decide_unpack _). vm_compute. exact I.
Defined.

Example crime_types_ordered_sample :
  crime_types_ordered [Str "BURGLARY"; Str "ROBBERY"; Str "THEFT-FRAUD"] =
    [Str "ROBBERY"; Str "THEFT-FRAUD"; Str "BURGLARY"].
Proof. vm_compute. reflexivity. Qed.

Lemma list_sort_strings (ss : list string) :
  list_sort (Str <$> ss) = Ok (Str <$> merge_sort String.le ss).
Proof.
  unfold list_sort. destruct ss as [|s ss]; [done|].
  rewrite fmap_cons.
  assert (Hall : forallb (λ d, py_rank d =? py_rank (Str s)) (Str <$> ss) = true).
  { induction ss as [|t ss IH]; [done|]. simpl in *. done. }
  rewrite Hall. f_equal. rewrite <- fmap_cons. symmetry.
  by apply (merge_sort_fmap Str String.le cell_le).
Qed.

Section TallyCoverEqb.
Context {K : Type} (eqb : K → K → bool).

Lemma bump_has_equal_key k acc :
  eqb k k = true → ∃ k', k' ∈ (bump eqb k acc).*1 ∧ eqb k k' = true.
Proof.
  intros Hk. induction acc as [|[k0 n] acc (k' & Hin & E) ]; simpl.
  - exists k. split; [by left|done].
  - destruct (eqb k k0) eqn:E0; simpl.
    + exists k0. split; [by left|done].
    + exists k'. split; [by right|done].
Qed.

Lemma bump_keeps_equal_key k x acc :
  (∃ k', k' ∈ acc.*1 ∧ eqb x k' = true) →
  ∃ k', k' ∈ (bump eqb k acc).*1 ∧ eqb x k' = true.
Proof.
  intros (k' & Hin & E). exists k'. split; [|done].
  clear E. induction acc as [|[k0 n] acc IH]; simpl in *.
  - by apply not_elem_of_nil in Hin.
  - apply elem_of_cons in Hin as [->|Hin]; destruct (eqb k k0); simpl.
    + by left.
    + by left.
    + by right.
    + right. by apply IH.
Qed.

Lemma tally_covers_eqb x l :
  eqb x x = true → x ∈ l → ∃ k', k' ∈ (tally eqb l).*1 ∧ eqb x k' = true.
Proof.
  intros Hx. induction l as [|y l IH] using rev_ind; intros Hin.
  { by apply not_elem_of_nil in Hin. }
  unfold tally. rewrite foldl_app. simpl. fold (tally eqb l).
  apply elem_of_app in Hin as [Hin|Hin].
  - apply bump_keeps_equal_key. by apply IH.
  - apply list_elem_of_singleton in Hin as ->. by apply bump_has_equal_key.
Qed.

End TallyCoverEqb.

Lemma cell_eqb_Str_l s k : cell_eqb (Str s) k = true → k = Str s.
Proof.
  destruct k; simpl; try discriminate.
  by intros ->%bool_decide_eq_true.
Qed.

Lemma cell_eqb_Null_l k : cell_eqb Null k = true → k = Null.
Proof. by destruct k. Qed.

(** A string that is present in a column is among its distinct values, and
    so is the missing value. *)
Lemma unique_has_Str col s : Str s ∈ col → Str s ∈ unique col.
Proof.
  intros Hin. unfold unique.
  destruct (tally_covers_eqb cell_eqb (Str s)
              (map (λ c, if isna c then Null else c) col)) as (k & Hk & E).
  - simpl. by apply bool_decide_eq_true.
  - apply list_elem_of_fmap. by exists (Str s).
  - apply cell_eqb_Str_l in E. by subst.
Qed.

Lemma unique_has_Null col c : c ∈ col → isna c → Null ∈ unique col.
Proof.
  intros Hin Hna. unfold unique.
  destruct (tally_covers_eqb cell_eqb Null
              (map (λ c, if isna c then Null else c) col)) as (k & Hk & E).
  - done.
  - apply list_elem_of_fmap. exists c. split; [|done].
    by destruct (isna c).
  - apply cell_eqb_Null_l in E. by subst.
Qed.

Lemma unique_elem_of col x : x ∈ unique col → x = Null ∨ x ∈ col.
Proof.
  unfold unique. intros ([k n] & -> & Hin)%list_elem_of_fmap.
  apply tally_keys_elem_of, list_elem_of_fmap in Hin as (c & Hk & Hc).
  simpl. destruct (isna c); [by left|right; by subst].
Qed.

(** X16: the crime types of the sidebar.  When every record has a crime
    type, [all_crime_types] lists the crime types of the table in ascending
    lexical order, each once. *)
Theorem all_crime_types_sorted df :
  "ofns_desc" ∈ columns df →
  Forall (λ r, is_str (cellof r "ofns_desc")) (rows df) →
  ∃ ss, all_crime_types df = Ok (Str <$> ss) ∧
        StronglySorted String.le ss ∧ NoDup ss ∧
        ∀ s, s ∈ ss ↔ ∃ r, r ∈ rows df ∧ cellof r "ofns_desc" = Str s.
Proof.
  intros Hc Hstr. unfold all_crime_types. rewrite (getitem_Ok _ _ Hc), bind_Ok.
  set (col := map (λ r, cellof r "ofns_desc") (rows df)).
  assert (Hcol : Forall is_str col) by by apply Forall_fmap.
  destruct (unique_strings col Hcol) as (Hus & Hnd & Hcover).
  destruct (strings_of _ Hus) as [us Hu]. rewrite Hu, list_sort_strings.
  exists (merge_sort String.le us). split; [done|]. split; [|split].
  - apply StronglySorted_merge_sort; apply _.
  - rewrite merge_sort_Permutation. rewrite Hu in Hnd.
    by apply (NoDup_fmap_1 Str).
  - intros s. rewrite merge_sort_Permutation.
    assert (Hs : s ∈ us ↔ Str s ∈ unique col).
    { rewrite Hu, list_elem_of_fmap. split.
      - intros Hin. by exists s.
      - by intros (s' & [= <-] & Hin). }
    rewrite Hs. split.
    + intros [Hn|Hin]%unique_elem_of; [done|].
      apply list_elem_of_fmap in Hin as (r & Hr & Hin). by exists r.
    + intros (r & Hr & Hrs). apply Hcover, list_elem_of_fmap. by exists r.
Qed.

Lemma all_crime_types_sorted_witness :
  ∃ ss, all_crime_types (loaded iso_timestamp raw_sample) = Ok (Str <$> ss) ∧
        StronglySorted String.le ss.
Proof.
  destruct (all_crime_types_sorted (loaded iso_timestamp raw_sample))
    as (ss & H1 & H2 & _).
  - apply (bool_decide_unpack _). vm_compute. exact I.
  - repeat constructor; by eexists.
  - exists ss. split; assumption.
Defined.

Lemma list_sort_mixed (l : list cell) s :
  Null ∈ l → Str s ∈ l → list_sort l = Raise TypeError.
Proof.
  intros Hn Hs. unfold list_sort. destruct l as [|c l]; [by apply not_elem_of_nil in Hn|].
  destruct (forallb _ l) eqn:Hall; [|done]. exfalso.
  assert (Hrank : ∀ d, d ∈ c :: l → py_rank d = py_rank c).
  { intros d [->|Hd]%elem_of_cons; [done|].
    rewrite forallb_forall in Hall. apply Z.eqb_eq, Hall.
    by apply list_elem_of_In. }
  pose proof (Hrank _ Hn) as H0. pose proof (Hrank _ Hs) as H1.
  simpl in *. congruence.
Qed.

(** X17: a record without a crime type stops the sidebar: when the table has
    a record whose crime type is missing and a record that has one, sorting
    the crime types raises [TypeError]. *)
Theorem all_crime_types_missing_value df r1 r2 s :
  "ofns_desc" ∈ columns df →
  r1 ∈ rows df → isna (cellof r1 "ofns_desc") →
  r2 ∈ rows df → cellof r2 "ofns_desc" = Str s →
  all_crime_types df = Raise TypeError.
Proof.
  intros Hc Hr1 Hna Hr2 Hs. unfold all_crime_types.
  rewrite (getitem_Ok _ _ Hc), bind_Ok. apply (list_sort_mixed _ s).
  - apply (unique_has_Null _ (cellof r1 "ofns_desc")); [|done].
    apply list_elem_of_fmap. by exists r1.
  - apply unique_has_Str. apply list_elem_of_fmap. exists r2. by rewrite Hs.
Qed.

(** X18: the boroughs of the sidebar have no missing value among them, and
    every borough of a record is one of them: with all of them selected, as
    they are by default, the borough test of the filter passes for every
    record that has a borough. *)
Theorem available_boroughs_cover df :
  "arrest_boro" ∈ columns df →
  ∃ bs, available_boroughs df = Ok bs ∧
        Forall (λ b, notna b) bs ∧
        ∀ r b, r ∈ rows df → cellof r "arrest_boro" = Str b →
               labelled (cellof r "arrest_boro") (labels bs).
Proof.
  intros Hc. unfold available_boroughs. rewrite (getitem_Ok _ _ Hc), bind_Ok.
  eexists. split; [done|]. split.
  - apply Forall_forall. by intros b [Hb _]%list_elem_of_filter.
  - intros r b Hr Hb. exists b. split; [done|].
    unfold labels. apply list_elem_of_omap. exists (Str b). split; [|done].
    apply list_elem_of_filter. split; [done|].
    apply unique_has_Str, list_elem_of_fmap. exists r. by rewrite Hb.
Qed.

Lemma all_crime_types_missing_value_witness :
  all_crime_types table_missing_crime = Raise TypeError.
Proof.
  refine (all_crime_types_missing_value table_missing_crime
            (<["ofns_desc" := Null]> (<["arrest_boro" := Str "M"]> ∅))
            (<["ofns_desc" := Str "ROBBERY"]> (<["arrest_boro" := Str "K"]> ∅))
            "ROBBERY" _ _ _ _ eq_refl).
  - apply (bool_decide_unpack _). vm_compute. exact I.
  - right. left.
  - exact I.
  - left.
Defined.

Lemma available_boroughs_cover_witness :
  ∃ bs, available_boroughs table_missing_crime = Ok bs ∧
        Forall (λ b, notna b) bs.
Proof.
  destruct (available_boroughs_cover table_missing_crime) as (bs & H1 & H2 & _).
  - apply (bool_decide_unpack _). vm_compute. exact I.
  - exists bs. split; assumption.
Defined.

(** ** A run that returns *)

Lemma returns_bind {A B} (m : M A) (k : A → M B) h Q Q' :
  returns m h Q → (∀ a h', Q a h' → returns (k a) h' Q') →
  returns (m ≫= k) h Q'.
Proof.
  intros (a & h1 & Hm & HQ) Hk. destruct (Hk a h1 HQ) as (b & h2 & Hka & HQ').
  exists b, h2. split; [|done]. unfold mbind, M_bind. by rewrite Hm.
Qed.

Lemma returns_ret {A} (a : A) h (Q : A → heap → Prop) :
  Q a h → returns (mret a) h Q.
Proof. intros. by exists a, h. Qed.

Lemma returns_lift {A} (m : result A) a h (Q : A → heap → Prop) :
  m = Ok a → Q a h → returns (lift m) h Q.
Proof. intros -> HQ. by exists a, h. Qed.

Lemma returns_frame r df (h : heap) (Q : DataFrame → heap → Prop) :
  h !! r = Some df → Q df h → returns (frame r) h Q.
Proof.
  intros Hr HQ. exists df, h. split; [|done]. unfold frame. by rewrite Hr.
Qed.

Lemma returns_new df (h : heap) (Q : ref → heap → Prop) :
  Q (length h) (h ++ [df]) → returns (new df) h Q.
Proof. intros HQ. by exists (length h), (h ++ [df]). Qed.

Lemma returns_weaken {A} (m : M A) h (Q Q' : A → heap → Prop) :
  returns m h Q → (∀ a h', Q a h' → Q' a h') → returns m h Q'.
Proof. intros (a & h' & Hm & HQ) HQQ. exists a, h'. auto. Qed.

(** [groupby_size] returns on a frame that has the key columns. *)
Lemma groupby_size_returns d k1 k2 name :
  k1 ∈ columns d → k2 ∈ columns d → ∃ g, groupby_size d k1 k2 name = Ok g.
Proof.
  intros H1 H2. unfold groupby_size.
  rewrite (getitem_Ok _ _ H1), bind_Ok, (getitem_Ok _ _ H2), bind_Ok.
  by eexists.
Qed.

(** The hours of a frame are counted when they are numbers. *)
Lemma hourly_counts_returns d :
  "hour" ∈ columns d → Forall (λ r, is_int (cellof r "hour")) (rows d) →
  ∃ hc, hourly_counts d = Ok hc.
Proof.
  intros Hh Hint. unfold hourly_counts. rewrite (getitem_Ok _ _ Hh), bind_Ok.
  unfold sort_index. rewrite (homogeneous_rank 0); [by eexists|].
  apply value_counts_keys, Forall_fmap, Forall_impl with (1 := Hint).
  intros r [z Hz]. simpl. by rewrite Hz.
Qed.

(** The earliest and the latest date of a column with a date in it. *)
Lemma date_range_returns (dates : list cell) :
  Forall (λ c, c = Null ∨ ∃ t, c = Time t) dates →
  (∃ t, Time t ∈ dates) →
  (∃ d, series_min dates ≫= strftime_date = Ok d) ∧
  (∃ d, series_max dates ≫= strftime_date = Ok d).
Proof.
  intros Hdates [t Ht].
  set (present := filter (λ c, notna c) dates).
  assert (Htimes : Forall (λ c, ∃ t, c = Time t) present).
  { apply Forall_forall. intros c [Hna Hc]%list_elem_of_filter.
    destruct (proj1 (Forall_forall _ _) Hdates c Hc) as [->|?]; done. }
  assert (Hne : Time t ∈ present) by by apply list_elem_of_filter.
  assert (Hsort : sort_values present = Ok (merge_sort cell_le present)).
  { unfold sort_values. rewrite (homogeneous_rank 2); [done|].
    apply Forall_impl with (1 := Htimes). by intros c [t' ->]. }
  assert (Hsorted : Forall (λ c, ∃ t, c = Time t) (merge_sort cell_le present)).
  { by rewrite merge_sort_Permutation. }
  assert (Hnil : merge_sort cell_le present ≠ []).
  { intros Hnil. pose proof (merge_sort_Permutation cell_le present) as Hp.
    rewrite Hnil in Hp. apply Permutation_nil_l in Hp. rewrite <- Hp in Hne.
    by apply not_elem_of_nil in Hne. }
  unfold series_min, series_max. fold present. rewrite Hsort, !bind_Ok. split.
  - destruct (merge_sort cell_le present) as [|c l]; [done|].
    apply Forall_inv in Hsorted as [t' ->]. by eexists.
  - destruct (merge_sort cell_le present) as [|c l] using rev_ind; [done|].
    rewrite last_snoc. apply Forall_app in Hsorted as [_ [t' ->]%Forall_inv].
    by eexists.
Qed.

Lemma top_crime_type_returns d :
  "ofns_desc" ∈ columns d → ∃ c, top_crime_type d = Ok c.
Proof.
  intros Hc. unfold top_crime_type, most_common_crime.
  rewrite (getitem_Ok _ _ Hc). by eexists.
Qed.

Lemma empty_false_rows d : empty d = false → rows d ≠ [].
Proof.
  unfold empty. intros [H _]%orb_false_iff. by apply bool_decide_eq_false in H.
Qed.

Lemma empty_true_rows d c : c ∈ columns d → empty d = true → rows d = [].
Proof.
  unfold empty. intros Hc [H|H]%orb_true_iff.
  - by apply bool_decide_eq_true in H.
  - apply bool_decide_eq_true in H. rewrite H in Hc.
    by apply not_elem_of_nil in Hc.
Qed.

Lemma run_filtered_df_result (h : heap) table df sel sub :
  h !! table = Some df → filtered_df df sel = Ok sub →
  run_filtered_df table sel h = (Ok (S (length h)), (h ++ [sub]) ++ [sub]).
Proof.
  intros Ht Hs. unfold run_filtered_df, copy.
  rewrite (run_frame _ _ _ _ Ht), Hs, run_lift_Ok, run_new.
  rewrite (run_frame _ _ sub) by by rewrite lookup_app_r, Nat.sub_diag.
  unfold new. rewrite length_app. simpl. f_equal. f_equal. lia.
Qed.

Section RunFacts.

Variable py_int : string → Z → option Z.
Variable findall_digits : string → list string.
Variable lower : string → string.
Variable mean : list float → float.

(** The mean of a column of numbers. *)
Lemma series_mean_returns s :
  Forall is_number s → ∃ x, series_mean mean s = Ok x.
Proof.
  intros Hs. unfold series_mean.
  rewrite (traverse_Ok_map number to_float); [by eexists|].
  intros c [_ Hc]%list_elem_of_filter.
  by destruct (proj1 (Forall_forall _ _) Hs c Hc) as [[n ->]|[x ->]].
Qed.

(** The centre of the map of a subset with coordinates that are numbers. *)
Lemma map_center_returns (h : heap) filtered sub :
  h !! filtered = Some sub →
  "latitude" ∈ columns sub → "longitude" ∈ columns sub →
  Forall (λ r, is_number (cellof r "latitude") ∧
               is_number (cellof r "longitude")) (rows sub) →
  returns (map_center mean filtered) h (λ _ h', h' = h).
Proof.
  intros Hsub Hlat Hlon Hnum. unfold map_center.
  eapply returns_bind with (Q := λ s h', s = sub ∧ h' = h).
  { by apply (returns_frame _ sub). }
  intros ? ? [-> ->]. case_bool_decide; [|by apply returns_ret].
  destruct (series_mean_returns (map (λ r, cellof r "latitude") (rows sub)))
    as [x Hx].
  { apply Forall_fmap. eapply Forall_impl; [exact Hnum|]. by intros r [? _]. }
  destruct (series_mean_returns (map (λ r, cellof r "longitude") (rows sub)))
    as [y Hy].
  { apply Forall_fmap. eapply Forall_impl; [exact Hnum|]. by intros r [_ ?]. }
  eapply returns_bind with (Q := λ _ h', h' = h).
  { eapply returns_lift; [|done]. by rewrite (getitem_Ok _ _ Hlat), bind_Ok. }
  intros ? ? ->.
  eapply returns_bind with (Q := λ _ h', h' = h).
  { eapply returns_lift; [|done]. by rewrite (getitem_Ok _ _ Hlon), bind_Ok. }
  intros ? ? ->. by apply returns_ret.
Qed.

(** X19: on a table that [load_data] produced, not empty, with the crime
    type and borough columns and whose records all have a date, coordinates
    that are numbers and a crime type, the script from the filter to the
    data summary never raises, whatever is selected: it returns the top
    crime type of the subset, the number of records of the table and of
    the subset, and the map centre and the charts exactly when the subset
    has a record. *)
Theorem dashboard_returns to_timestamp raw (h : heap) table df sel show_trend :
  h !! table = Some df →
  load_data to_timestamp (Some raw) = Ok (Some df) →
  "ofns_desc" ∈ columns df → "arrest_boro" ∈ columns df →
  rows df ≠ [] → Forall record (rows df) →
  ∃ v sub,
    (dashboard py_int findall_digits lower mean table sel show_trend h).1
      = Ok v ∧
    filtered_df df sel = Ok sub ∧
    top_crime_type sub = Ok (view_top v) ∧
    view_total v = length (rows df) ∧
    view_shown v = length (rows sub) ∧
    (view_charts v = None ↔ rows sub = []).
Proof.
  intros Htable Hload H1 H4 Hne Hrec.
  assert (Hsome : ∃ r0, r0 ∈ rows df ∧ notna (cellof r0 "arrest_date")).
  { destruct (rows df) as [|r0 l] eqn:Hrows; [done|]. exists r0.
    split; [left|]. apply Forall_inv in Hrec as ([t Ht] & _). by rewrite Ht. }
  destruct Hsome as (r0 & Hr0 & Hdated).
  assert (Hlat : "latitude" ∈ columns df).
  { pose proof Hload as (-> & _ & Hlat & _)%load_data_Ok_inv.
    by apply elem_of_feature_columns. }
  assert (Hlon : "longitude" ∈ columns df).
  { pose proof Hload as (-> & _ & _ & Hlon)%load_data_Ok_inv.
    by apply elem_of_feature_columns. }
  assert (Hfeat : ∀ c, c ∈ ["year"; "month"; "month_name"; "day_of_week"; "hour"] →
                       c ∈ columns df).
  { intros c Hc. pose proof Hload as [-> _]%load_data_Ok_inv.
    by apply feature_columns_has. }
  assert (Hdate : "arrest_date" ∈ columns df).
  { pose proof Hload as (-> & Hd & _)%load_data_Ok_inv.
    by apply elem_of_feature_columns. }
  assert (Hcols : has_columns df filter_columns).
  { unfold has_columns, filter_columns.
    repeat constructor; [done| | |done]; apply Hfeat; set_solver. }
  set (sub := {| columns := columns df; rows := filter (passes sel) (rows df) |}).
  assert (Hsub : filtered_df df sel = Ok sub) by by apply filtered_df_Ok.
  destruct (top_crime_type_returns sub H1) as [top Htop].
  set (f := S (length h)). set (h2 := (h ++ [sub]) ++ [sub]).
  assert (Hlt : (table < length h)%nat) by by eapply lookup_lt_Some.
  assert (Hh2t : h2 !! table = Some df).
  { unfold h2. rewrite !lookup_app_l; [done|lia|rewrite length_app; lia]. }
  assert (Hh2f : h2 !! f = Some sub).
  { unfold h2, f. rewrite lookup_app_r; rewrite length_app; simpl; [|lia].
    by replace (S (length h) - (length h + 1))%nat with 0%nat by lia. }
  assert (Hhours : Forall (λ r, is_int (cellof r "hour")) (rows sub))
    by by eapply filtered_rows_int_hours.
  assert (Hdates : ∃ first final,
            (series_min (map (λ r, cellof r "arrest_date") (rows df))
               ≫= strftime_date) = Ok first ∧
            (series_max (map (λ r, cellof r "arrest_date") (rows df))
               ≫= strftime_date) = Ok final).
  { destruct (date_range_returns (map (λ r, cellof r "arrest_date") (rows df)))
      as [[d1 Hd1] [d2 Hd2]]; [| |by exists d1, d2].
    - apply Forall_fmap, Forall_forall. intros r Hr. simpl.
      destruct (loaded_fields _ _ _ (proj1 (load_data_Ok_inv _ _ _ Hload)) r Hr)
        as [(t & Hd & _)|(Hd & _)]; [right; by exists t|by left].
    - destruct (loaded_fields _ _ _ (proj1 (load_data_Ok_inv _ _ _ Hload)) r0 Hr0)
        as [(t & Hd & _)|(Hd & _)]; [|by rewrite Hd in Hdated].
      exists t. apply list_elem_of_fmap. by exists r0. }
  destruct Hdates as (first & final & Hfirst & Hfinal).
  assert (Hrun : returns
            (dashboard py_int findall_digits lower mean table sel show_trend) h
            (λ v _, view_top v = top ∧ view_total v = length (rows df) ∧
                    view_shown v = length (rows sub) ∧
                    (view_charts v = None ↔ rows sub = []))).
  { unfold dashboard.
    eapply returns_bind with (Q := λ r h', r = f ∧ h' = h2).
    { exists f, h2. split; [by apply (run_filtered_df_result _ _ df)|done]. }
    intros ? ? [-> ->].
    eapply returns_bind with (Q := λ s h', s = sub ∧ h' = h2).
    { by apply (returns_frame _ sub). }
    intros ? ? [-> ->].
    eapply returns_bind with (Q := λ a h', a = top ∧ h' = h2).
    { by apply (returns_lift _ top). }
    intros ? ? [-> ->].
    eapply returns_bind with
      (Q := λ shown h', (∃ s', h' !! table = Some df ∧ h' !! f = Some s' ∧
                               length (rows s') = length (rows sub)) ∧
                        (shown = None ↔ rows sub = [])).
    { destruct (empty sub) eqn:Hempty.
      { apply returns_ret. split; [by exists sub|].
        split; [intros _|done]. by apply (empty_true_rows sub "ofns_desc"). }
      apply empty_false_rows in Hempty.
      pose proof (add_colors_run py_int findall_digits lower h2 f sub Hh2f H1)
        as Hadd.
      match type of Hadd with _ = (_, <[_ := ?s]> _) => set (sub' := s) in Hadd end.
      assert (Hcols' : columns sub' = add_column (columns sub) "color") by done.
      assert (Hlen' : length (rows sub') = length (rows sub))
        by (unfold sub'; cbn [rows]; by rewrite length_map).
      assert (Hrows' : ∀ i r, rows sub !! i = Some r →
                ∃ rgb, rows sub' !! i = Some (<["color" := Rgb rgb]> r)).
      { intros i r Hi. eexists. unfold sub'. cbn [rows].
        rewrite list_lookup_fmap, Hi. done. }
      set (h3 := <[f := sub']> h2).
      assert (Hflt : (f < length h2)%nat) by by eapply lookup_lt_Some.
      assert (Hh3f : h3 !! f = Some sub') by by apply list_lookup_insert_eq.
      assert (Hh3t : h3 !! table = Some df).
      { unfold h3. rewrite list_lookup_insert_ne; [done|unfold f; lia]. }
      assert (Hin' : ∀ c, c ∈ columns df → c ∈ columns sub').
      { intros c Hc. rewrite Hcols'. by apply elem_of_add_column. }
      assert (Hhours' : Forall (λ r, is_int (cellof r "hour")) (rows sub')).
      { apply Forall_lookup. intros i r' Hi.
        assert (Hil : (i < length (rows sub))%nat).
        { rewrite <- Hlen'. by eapply lookup_lt_Some. }
        apply lookup_lt_is_Some in Hil as [r Hr].
        destruct (Hrows' i r Hr) as [rgb Hr']. rewrite Hi in Hr'.
        injection Hr' as ->. rewrite cellof_insert_ne by done.
        by apply (proj1 (Forall_lookup _ _) Hhours i r). }
      destruct (hourly_counts_returns sub') as [hc Hhc];
        [apply Hin', Hfeat; by do 4 right; left|done|].
      assert (Hnum' : Forall (λ r, is_number (cellof r "latitude") ∧
                                   is_number (cellof r "longitude")) (rows sub')).
      { apply Forall_lookup. intros i r' Hi.
        assert (Hil : (i < length (rows sub))%nat).
        { rewrite <- Hlen'. by eapply lookup_lt_Some. }
        apply lookup_lt_is_Some in Hil as [r Hr].
        destruct (Hrows' i r Hr) as [rgb Hr']. rewrite Hi in Hr'.
        injection Hr' as ->. rewrite !cellof_insert_ne by done.
        apply list_elem_of_lookup_2 in Hr.
        apply list_elem_of_filter in Hr as [_ Hr].
        by destruct (proj1 (Forall_forall _ _) Hrec r Hr) as (_ & ? & ? & _). }
      eapply returns_bind with (Q := λ _ h', h' = h3).
      { by exists (), h3. }
      intros _ ? ->.
      eapply returns_bind with (Q := λ _ h', h' = h3).
      { apply (map_center_returns _ _ sub'); [done|by apply Hin'|by apply Hin'|done]. }
      intros center ? ->.
      eapply returns_bind with (Q := λ s h', s = sub' ∧ h' = h3).
      { by apply (returns_frame _ sub'). }
      intros ? ? [-> ->].
      eapply returns_bind with (Q := λ _ h', h' = h3).
      { eapply returns_lift; [|done]. unfold crime_counts.
        by rewrite (getitem_Ok sub' "ofns_desc") by by apply Hin'. }
      intros cc ? ->.
      eapply returns_bind with (Q := λ _ h', h' = h3).
      { by eapply returns_lift. }
      intros hc' ? ->.
      eapply returns_bind with (Q := λ _ h', h' = h3).
      { case_bool_decide; [|by apply returns_ret].
        eapply returns_bind with (Q := λ _ h', h' = h3).
        - eapply returns_lift; [|done]. unfold borough_counts.
          by rewrite (getitem_Ok sub' "arrest_boro") by by apply Hin'.
        - intros bc ? ->. by apply returns_ret. }
      intros bc ? ->.
      eapply returns_bind with
        (Q := λ _ h', h' !! table = Some df ∧ h' !! f = Some sub').
      { destruct show_trend; [|by apply returns_ret].
        destruct (groupby_size_returns
                    {| columns := columns df;
                       rows := filter (in_scope sel) (rows df) |}
                    "month" "month_name" "arrests") as [g Hg];
          [apply Hfeat; set_solver..|].
        assert (Hmd : monthly_data df sel = Ok g).
        { rewrite monthly_data_Ok; [done|]. unfold has_columns.
          repeat constructor; try done; apply Hfeat; set_solver. }
        eapply returns_bind with
          (Q := λ t h', h' = h3 ++ [g] ∧ t = length h3).
        { unfold run_monthly_data.
          eapply returns_bind with (Q := λ d h', d = df ∧ h' = h3).
          { by apply (returns_frame _ df). }
          intros ? ? [-> ->].
          eapply returns_bind with (Q := λ d h', d = g ∧ h' = h3).
          { by apply (returns_lift _ g). }
          intros ? ? [-> ->]. by apply returns_new. }
        intros ? ? [-> ->].
        eapply returns_bind with (Q := λ _ h', h' = h3 ++ [g]).
        { apply (returns_frame _ g); [|done].
          by rewrite lookup_app_r, Nat.sub_diag. }
        intros ? ? ->. apply returns_ret.
        split; rewrite lookup_app_l; try done; by eapply lookup_lt_Some. }
      intros tr h' [Ht' Hf']. apply returns_ret. split; [|done].
      by exists sub'. }
    intros shown h' [(s' & Ht' & Hf' & Hlen) Hshown].
    eapply returns_bind with (Q := λ d h'', d = df ∧ h'' = h').
    { by apply (returns_frame _ df). }
    intros ? ? [-> ->].
    eapply returns_bind with (Q := λ s h'', s = s' ∧ h'' = h').
    { by apply (returns_frame _ s'). }
    intros ? ? [-> ->].
    eapply returns_bind with
      (Q := λ d h'', d = map (λ r, cellof r "arrest_date") (rows df) ∧ h'' = h').
    { eapply returns_lift; [by apply getitem_Ok|done]. }
    intros ? ? [-> ->].
    eapply returns_bind with (Q := λ d h'', d = first ∧ h'' = h').
    { by eapply returns_lift. }
    intros ? ? [-> ->].
    eapply returns_bind with (Q := λ d h'', d = final ∧ h'' = h').
    { by eapply returns_lift. }
    intros ? ? [-> ->]. apply returns_ret. simpl. done. }
  destruct Hrun as (v & h' & Hv & Hvt & Hvn & Hvs & Hvc).
  exists v, sub. rewrite Hv. simpl. by rewrite Hvt.
Qed.

End RunFacts.

Lemma dashboard_returns_witness :
  ∃ v, (dashboard ascii_int (λ s, ascii_digit_runs s EmptyString) ascii_lower
          sample_mean 0%nat january true sample_heap).1 = Ok v ∧
       view_total v = length (rows (loaded iso_timestamp raw_sample)) ∧
       (view_charts v = None ↔
        filter (passes january) (rows (loaded iso_timestamp raw_sample)) = []).
Proof.
  destruct (dashboard_returns ascii_int (λ s, ascii_digit_runs s EmptyString)
              ascii_lower sample_mean iso_timestamp raw_sample sample_heap
              0%nat (loaded iso_timestamp raw_sample) january true)
    as (v & sub & Hv & Hsub & _ & Ht & _ & Hc).
  - reflexivity.
  - vm_compute. reflexivity.
  - apply (bool_decide_unpack _). vm_compute. exact I.
  - apply (bool_decide_unpack _). vm_compute. exact I.
  - discriminate.
  - apply (bool_decide_unpack _). vm_compute. exact I.
  - exists v. split; [exact Hv|]. split; [exact Ht|].
    apply filtered_df_Ok_inv in Hsub as [_ ->]. exact Hc.
Defined.

(** ** The date range *)

Lemma lex_leb_total a b : lex_leb a b = true ∨ lex_leb b a = true.
Proof.
  revert b. induction a as [|x a IH]; intros b; [by left|].
  destruct b as [|y b]; [by right|]. simpl.
  rewrite !orb_true_iff, !andb_true_iff, !Z.ltb_lt, !Z.eqb_eq.
  destruct (Z.lt_trichotomy x y) as [Hlt|[Heq|Hgt]]; [tauto| |tauto].
  destruct (IH b) as [H|H]; [left|right]; right; split; [done|done|lia|done].
Qed.

Lemma lex_leb_trans a b c :
  lex_leb a b = true → lex_leb b c = true → lex_leb a c = true.
Proof.
  revert b c. induction a as [|x a IH]; intros b c; [done|].
  destruct b as [|y b]; [done|]. destruct c as [|z c]; [done|]. simpl.
  rewrite !orb_true_iff, !andb_true_iff, !Z.ltb_lt, !Z.eqb_eq.
  intros [H1|[H1 Hab]] [H2|[H2 Hbc]].
  - left. lia.
  - left. lia.
  - left. lia.
  - right. split; [lia|]. by eapply IH.
Qed.

#[global] Instance ts_le_total : Total ts_le.
Proof.
  intros a b. unfold ts_le.
  destruct (lex_leb_total (ts_key a) (ts_key b)) as [->| ->]; auto.
Qed.

#[global] Instance ts_le_trans : Transitive ts_le.
Proof.
  intros a b c. unfold ts_le. rewrite !Is_true_true. apply lex_leb_trans.
Qed.

Section SortedEnds.
Context {A : Type} (R : relation A) `{∀ x y, Decision (R x y)}.
Context {R_total : Total R} {R_trans : Transitive R}.

Lemma merge_sort_first l c rest :
  merge_sort R l = c :: rest → c ∈ l ∧ ∀ x, x ∈ l → R c x.
Proof.
  intros Hsort.
  pose proof (StronglySorted_merge_sort R l) as Hss.
  pose proof (merge_sort_Permutation R l) as Hperm.
  rewrite Hsort in Hss, Hperm. split.
  - rewrite <- Hperm. by left.
  - intros x Hx. rewrite <- Hperm in Hx.
    apply StronglySorted_cons in Hss as [Hle _].
    apply elem_of_cons in Hx as [->|Hx].
    + by destruct (R_total c c).
    + by apply (proj1 (Forall_forall _ _) Hle).
Qed.

Lemma merge_sort_final l init c :
  merge_sort R l = init ++ [c] → c ∈ l ∧ ∀ x, x ∈ l → R x c.
Proof.
  intros Hsort.
  pose proof (StronglySorted_merge_sort R l) as Hss.
  pose proof (merge_sort_Permutation R l) as Hperm.
  rewrite Hsort in Hss, Hperm. split.
  - rewrite <- Hperm. apply elem_of_app. right. by left.
  - intros x Hx. rewrite <- Hperm in Hx.
    apply elem_of_app in Hx as [Hx|Hx%list_elem_of_singleton].
    + apply (StronglySorted_app_1_elem_of R init [c]); [done..|by left].
    + subst. by destruct (R_total c c).
Qed.

End SortedEnds.

Lemma times_of (l : list cell) :
  Forall (λ c, ∃ t, c = Time t) l → ∃ ts, l = Time <$> ts.
Proof.
  induction 1 as [|c l [t ->] _ [ts ->]].
  - by exists [].
  - by exists (t :: ts).
Qed.

(** X20: the date range of the data summary.  For a loaded table with a
    dated record, the minimum and the maximum of the date column are dates
    of records, the minimum not after and the maximum not before the date of
    any record, in the order of year, month, day, hour, minute and second. *)
Theorem date_range_is_extreme to_timestamp raw df :
  load_data to_timestamp (Some raw) = Ok (Some df) →
  (∃ r, r ∈ rows df ∧ notna (cellof r "arrest_date")) →
  ∃ dates earliest latest,
    getitem df "arrest_date" = Ok dates ∧
    series_min dates = Ok (Time earliest) ∧
    series_max dates = Ok (Time latest) ∧
    Time earliest ∈ dates ∧ Time latest ∈ dates ∧
    ∀ t, Time t ∈ dates → ts_le earliest t ∧ ts_le t latest.
Proof.
  intros Hload (r0 & Hr0 & Hdated).
  assert (Hdate : "arrest_date" ∈ columns df).
  { pose proof Hload as (-> & Hd & _)%load_data_Ok_inv.
    by apply elem_of_feature_columns. }
  set (dates := map (λ r, cellof r "arrest_date") (rows df)).
  exists dates.
  assert (Hdates : Forall (λ c, c = Null ∨ ∃ t, c = Time t) dates).
  { apply Forall_fmap, Forall_forall. intros r Hr. simpl.
    destruct (loaded_fields _ _ _ (proj1 (load_data_Ok_inv _ _ _ Hload)) r Hr)
      as [(t & Hd & _)|(Hd & _)]; [right; by exists t|by left]. }
  set (present := filter (λ c, notna c) dates).
  assert (Htimes : Forall (λ c, ∃ t, c = Time t) present).
  { apply Forall_forall. intros c [Hna Hc]%list_elem_of_filter.
    destruct (proj1 (Forall_forall _ _) Hdates c Hc) as [->|?]; done. }
  destruct (times_of _ Htimes) as [ts Hts].
  assert (Hin : ∀ t, Time t ∈ dates ↔ t ∈ ts).
  { intros t. split.
    - intros Ht. assert (Hp : Time t ∈ present) by by apply list_elem_of_filter.
      rewrite Hts in Hp. by apply list_elem_of_fmap in Hp as (t' & [= ->] & Hp).
    - intros Ht. assert (Hp : Time t ∈ present).
      { rewrite Hts. apply list_elem_of_fmap. by exists t. }
      by apply list_elem_of_filter in Hp as [_ Hp]. }
  assert (Hsort : sort_values present = Ok (Time <$> merge_sort ts_le ts)).
  { unfold sort_values. rewrite (homogeneous_rank 2).
    - rewrite Hts. f_equal. symmetry.
      by apply (merge_sort_fmap Time ts_le cell_le).
    - apply Forall_impl with (1 := Htimes). by intros c [t' ->]. }
  assert (Hne : ts ≠ []).
  { destruct (loaded_fields _ _ _ (proj1 (load_data_Ok_inv _ _ _ Hload)) r0 Hr0)
      as [(t & Hd & _)|(Hd & _)]; [|by rewrite Hd in Hdated].
    assert (Ht : t ∈ ts).
    { apply Hin, list_elem_of_fmap. by exists r0. }
    intros ->. by apply not_elem_of_nil in Ht. }
  assert (Hsne : merge_sort ts_le ts ≠ []).
  { intros Hnil. pose proof (merge_sort_Permutation ts_le ts) as Hp.
    rewrite Hnil in Hp. by apply Permutation_nil_l in Hp. }
  destruct (merge_sort ts_le ts) as [|earliest rest] eqn:Hfirst; [done|].
  destruct (exists_last Hsne) as (init & latest & Hlast).
  pose proof Hfirst as Hfinal. rewrite Hlast in Hfinal.
  apply merge_sort_first in Hfirst as [Hein Hemin]; [|apply _..].
  apply merge_sort_final in Hfinal as [Hlin Hlmax]; [|apply _..].
  exists earliest, latest.
  split; [by apply getitem_Ok|].
  unfold series_min, series_max. fold present. rewrite Hsort, !bind_Ok.
  split; [done|]. split.
  { rewrite Hlast, fmap_app. simpl. by rewrite last_snoc. }
  split; [by apply Hin|]. split; [by apply Hin|].
  intros t Ht%Hin. split; [by apply Hemin|by apply Hlmax].
Qed.

Lemma date_range_is_extreme_witness :
  ∃ earliest latest,
    series_min (map (λ r, cellof r "arrest_date")
                    (rows (loaded iso_timestamp raw_sample))) = Ok (Time earliest) ∧
    series_max (map (λ r, cellof r "arrest_date")
                    (rows (loaded iso_timestamp raw_sample))) = Ok (Time latest) ∧
    ts_le earliest latest.
Proof.
  destruct (date_range_is_extreme iso_timestamp raw_sample
              (loaded iso_timestamp raw_sample))
    as (dates & earliest & latest & Hd & Hmin & Hmax & _ & Hl & Hall).
  - vm_compute. reflexivity.
  - eexists. split; [left|]. vm_compute. exact I.
  - exists earliest, latest.
    rewrite getitem_Ok in Hd by (apply (bool_decide_unpack _); vm_compute; exact I).
    injection Hd as <-. split; [exact Hmin|]. split; [exact Hmax|].
    exact (proj1 (Hall latest Hl)).
Defined.
